(** * Marketplace backend: products, cart and authentication routes

    A shallow embedding of the Express/Mongoose request handlers of
    [backend/routes/products.js], [backend/routes/cart.js],
    [backend/routes/auth.js], the [auth] and [adminAuth] middleware and the
    [Product] and [User] schemas, followed by the properties of the
    marketplace that are established about them.

    Conventions of the embedding.
    - A Mongoose collection is a finite map from [_id] to document.
    - A handler is a function from the store (and the request) to a response
      and a new store.  What a handler takes from its environment, the clock
      ([new Date()]) and the [ObjectId] generated for a new document, is an
      argument of the handler.
    - A bearer token is represented by the outcome of [jwt.verify] on it.
    - A string of a request or of a document is the list of its UTF-16 code
      units; the messages of the replies, which are literals of the source,
      are kept as they are written.
    - Database failures other than the ones the handlers provoke themselves
      (validation, duplicate keys) are outside the model: the store is
      always reachable. *)

From Stdlib Require Import Ascii String NArith QArith.
From stdpp Require Import gmap strings list fin_maps sorting.

Local Open Scope string_scope.
Local Open Scope nat_scope.
Local Open Scope list_scope.

(** ** JavaScript values the handlers compute with *)

Module JS.

(** A string is the sequence of its UTF-16 code units, numbers below
    [2^16]: its [length] is their number, and [===] is their equality. *)
Definition string := list N.

(** A string literal of the source; the literals have ASCII characters
    only, one code unit each. *)
Definition str (s : String.string) : string :=
  N_of_ascii <$> list_ascii_of_string s.

(** [a === b] on strings. *)
Definition eqb (a b : string) : bool := bool_decide (a = b).

(** The code units that [String.prototype.trim] removes, the WhiteSpace and
    LineTerminator of ECMAScript: TAB, LF, VT, FF, CR, SPACE, U+00A0,
    U+1680, U+2000 to U+200A, U+2028, U+2029, U+202F, U+205F, U+3000 and
    U+FEFF. *)
Definition isWhiteSpace (c : N) : bool :=
  match c with
  | 9 | 10 | 11 | 12 | 13 | 32 | 160 | 5760 | 8232 | 8233 | 8239 | 8287
  | 12288 | 65279 => true
  | _ => (8192 <=? c) && (c <=? 8202)
  end%N.

(** The code units that are left once the leading white space is gone. *)
Fixpoint dropWhiteSpace (l : list N) : list N :=
  match l with
  | [] => []
  | c :: l' => if isWhiteSpace c then dropWhiteSpace l' else l
  end.

Definition trimStart (s : string) : string := dropWhiteSpace s.

Definition trimEnd (s : string) : string := rev (dropWhiteSpace (rev s)).

(** [String.prototype.trim] *)
Definition trim (s : string) : string := trimEnd (trimStart s).


(** [s.startsWith(prefix)] *)
Fixpoint startsWith (s prefix : string) : bool :=
  match prefix, s with
  | [], _ => true
  | c :: prefix', d :: s' => (c =? d)%N && startsWith s' prefix'
  | _ :: _, [] => false
  end.

(** Truthiness of a string: every string but the empty one. *)
Definition truthy (s : string) : bool :=
  match s with
  | [] => false
  | _ :: _ => true
  end.

(** [x?.trim()], for a field that may be absent from the body. *)
Definition optTrim (x : option string) : option string := trim <$> x.

(** Truthiness of [x?.trim()]: [undefined] and the empty string are falsy. *)
Definition optTruthy (x : option string) : bool :=
  match x with
  | Some s => truthy s
  | None => false
  end.

(** [x?.trim() || d] *)
Definition trimOr (x : option string) (d : string) : string :=
  match optTrim x with
  | Some s => if truthy s then s else d
  | None => d
  end.

(** A JavaScript number, as far as the handlers look at one: not-a-number,
    an infinity, or a finite value. *)
Inductive number :=
  | NaN
  | Infinity (negative : bool)
  | Finite (q : Q).

(** [x <= 0] *)
Definition leZero (x : number) : bool :=
  match x with
  | NaN => false
  | Infinity negative => negative
  | Finite q => Qle_bool q 0
  end.

(** [x >= 0] *)
Definition geZero (x : number) : bool :=
  match x with
  | NaN => false
  | Infinity negative => negb negative
  | Finite q => Qle_bool 0 q
  end.

Definition isNaN (x : number) : bool :=
  match x with
  | NaN => true
  | _ => false
  end.

#[global] Instance Q_eq_dec : EqDecision Q.
Proof. solve_decision. Defined.

#[global] Instance number_eq_dec : EqDecision number.
Proof. solve_decision. Defined.

End JS.

(** ** Documents *)

Definition ObjectId := nat.

(** Milliseconds since the epoch. *)
Definition Date := nat.

(** What the handlers take from the libraries, the engine and the
    environment: [bcrypt.hash] (with the salt that [genSalt] drew),
    [bcrypt.compare], [validator.isEmail], [process.env.ADMIN_KEY],
    [String.prototype.toLowerCase], [ObjectId.prototype.toString], and the
    cast of a string to an [ObjectId] that Mongoose applies to the value of
    a path of that type ([None]: the string does not cast). *)
Record Env := {
  bcrypt_hash : JS.string → JS.string → JS.string;
  bcrypt_compare : JS.string → JS.string → bool;
  isEmail : JS.string → bool;
  ADMIN_KEY : option JS.string;
  toLowerCase : JS.string → JS.string;
  ObjectId_toString : ObjectId → JS.string;
  castObjectId : JS.string → option ObjectId
}.

(** [status] of the product schema:
    [enum: ['pending', 'approved', 'rejected', 'sold']]. *)
Inductive Status := pending | approved | rejected | sold.

#[global] Instance Status_eq_dec : EqDecision Status.
Proof. solve_decision. Defined.

Definition Status_eqb (a b : Status) : bool := bool_decide (a = b).

Record ShippingAddress := {
  street : option JS.string;
  city : option JS.string;
  state : option JS.string;
  zipCode : option JS.string;
  country : option JS.string
}.

#[global] Instance ShippingAddress_eq_dec : EqDecision ShippingAddress.
Proof. solve_decision. Defined.

(** The product schema.  Of the two time stamps that [timestamps: true]
    maintains, [createdAt] is the one the handlers read (the listings sort
    on it); [updatedAt], which Mongoose refreshes on every write and no
    handler reads, is left out. *)
Module Product.
Record t := {
  _id : ObjectId;
  name : JS.string;
  price : JS.number;
  images : list JS.string;
  category : JS.string;
  size : JS.string;
  color : JS.string;
  location : JS.string;
  contactNumber : JS.string;
  description : JS.string;
  status : Status;
  isActive : bool;
  seller : ObjectId;
  buyer : option ObjectId;
  soldAt : option Date;
  shippingAddress : option ShippingAddress;
  createdAt : Date
}.

#[global] Instance eq_dec : EqDecision t.
Proof. solve_decision. Defined.
End Product.

Module User.
Record t := {
  _id : ObjectId;
  name : JS.string;
  email : JS.string;
  password : JS.string;
  isAdmin : bool;
  createdAt : Date;
  products : list ObjectId
}.
End User.

(** A line item of a cart. *)
Record CartItem := {
  product : ObjectId;
  quantity : nat
}.

#[global] Instance CartItem_eq_dec : EqDecision CartItem.
Proof. solve_decision. Defined.

Module Cart.
Record t := {
  _id : ObjectId;
  user : ObjectId;
  items : list CartItem
}.

#[global] Instance eq_dec : EqDecision t.
Proof. solve_decision. Defined.
End Cart.

(** The three collections of the database. *)
Record Store := {
  users : gmap ObjectId User.t;
  products : gmap ObjectId Product.t;
  carts : gmap ObjectId Cart.t
}.

Definition emptyStore : Store :=
  {| users := ∅; products := ∅; carts := ∅ |}.

(** ** Requests and responses *)

(** What [populate(path, 'name email')] puts in place of a user reference. *)
Record UserRef := {
  ref_id : ObjectId;
  ref_name : JS.string;
  ref_email : JS.string
}.

#[global] Instance UserRef_eq_dec : EqDecision UserRef.
Proof. solve_decision. Defined.

(** The paths of the product schema that carry a validator. *)
Inductive ProductPath :=
  | path_name
  | path_price
  | path_images
  | path_category
  | path_contactNumber.

#[global] Instance ProductPath_eq_dec : EqDecision ProductPath.
Proof. solve_decision. Defined.

(** The [message] of a JSON reply: a literal of the handler, the joined
    messages of a Mongoose [ValidationError], kept as the failing paths, or
    the [error.message] of whatever the [catch] block caught. *)
Inductive Message :=
  | Text (s : string)
  | ValidationErrors (paths : list ProductPath)
  | CaughtError.

#[global] Instance Message_eq_dec : EqDecision Message.
Proof. solve_decision. Defined.

(** The payload of the JWT that [jwt.sign] wraps. *)
Record TokenPayload := {
  token_id : ObjectId;
  token_isAdmin : bool
}.

#[global] Instance TokenPayload_eq_dec : EqDecision TokenPayload.
Proof. solve_decision. Defined.

Record UserView := {
  view_id : ObjectId;
  view_name : JS.string;
  view_email : JS.string;
  view_isAdmin : bool
}.

#[global] Instance UserView_eq_dec : EqDecision UserView.
Proof. solve_decision. Defined.

Inductive Payload :=
  | NoPayload
  | ProductDoc (p : Product.t)
  | ProductPopulated (d : option (Product.t * option UserRef))
  | ProductList (l : list (Product.t * option UserRef))
  | CartItems (l : list (CartItem * option Product.t))
  | Session (token : TokenPayload) (u : UserView).

#[global] Instance Payload_eq_dec : EqDecision Payload.
Proof. solve_decision. Defined.

(** [res.status(code).json({ success, message, ... })] *)
Record Response := {
  code : nat;
  success : option bool;
  message : option Message;
  payload : Payload
}.

#[global] Instance Response_eq_dec : EqDecision Response.
Proof. solve_decision. Defined.

Definition failure (c : nat) (m : string) : Response :=
  {| code := c; success := Some false; message := Some (Text m);
     payload := NoPayload |}.

(** The [Authorization] header, seen through [jwt.verify]: absent, rejected
    (bad signature or expired), or accepted with the [id] of its payload. *)
Inductive Authorization :=
  | NoToken
  | InvalidToken
  | ValidToken (id : ObjectId).

(** [req.user], as the [auth] middleware sets it. *)
Record ReqUser := {
  id : ObjectId;
  reqIsAdmin : bool
}.

(** A middleware either calls [next()] or sends the reply itself. *)
Inductive Outcome (A : Type) :=
  | Next (a : A)
  | Send (r : Response).
Arguments Next {A} a.
Arguments Send {A} r.

(** [middleware/auth.js] *)
Definition auth (st : Store) (h : Authorization) : Outcome ReqUser :=
  match h with
  | NoToken => Send (failure 401 "No token, authorization denied")
  | InvalidToken => Send (failure 401 "Token is not valid")
  | ValidToken uid =>
      match users st !! uid with
      | None => Send (failure 401 "User not found")
      | Some u => Next {| id := User._id u; reqIsAdmin := User.isAdmin u |}
      end
  end.

(** [middleware/adminAuth.js].  (The [verifyToken] middleware, which the
    two routers import, is installed on no route.) *)
Definition adminAuth (st : Store) (reqUser : option ReqUser) : Outcome unit :=
  match reqUser with
  | None => Send (failure 401 "Authentication required")
  | Some ru =>
      match users st !! id ru with
      | None => Send (failure 401 "User not found")
      | Some u =>
          if negb (User.isAdmin u)
          then Send (failure 403 "Access denied. Admin privileges required.")
          else Next tt
      end
  end.

(** ** The product model *)

Definition validCategories : list JS.string :=
  JS.str <$> ["shoes"; "clothes"; "accessories"; "electronics"; "other"].

(** [Array.prototype.includes] on strings. *)
Definition includes (l : list JS.string) (s : JS.string) : bool :=
  existsb (JS.eqb s) l.

(** The setters of the schema ([trim: true]). *)
Definition Product_setters (p : Product.t) : Product.t :=
  {| Product._id := Product._id p;
     Product.name := JS.trim (Product.name p);
     Product.price := Product.price p;
     Product.images := Product.images p;
     Product.category := Product.category p;
     Product.size := JS.trim (Product.size p);
     Product.color := JS.trim (Product.color p);
     Product.location := JS.trim (Product.location p);
     Product.contactNumber := JS.trim (Product.contactNumber p);
     Product.description := JS.trim (Product.description p);
     Product.status := Product.status p;
     Product.isActive := Product.isActive p;
     Product.seller := Product.seller p;
     Product.buyer := Product.buyer p;
     Product.soldAt := Product.soldAt p;
     Product.shippingAddress := Product.shippingAddress p;
     Product.createdAt := Product.createdAt p |}.

(** The validators of the schema, path by path: [required] on a string
    refuses the empty string; a number must cast (not [NaN]) and satisfy
    [min: 0]; every image path is [required]; [category] is an [enum]. *)
Definition Product_validPath (p : Product.t) (path : ProductPath) : bool :=
  match path with
  | path_name => JS.truthy (Product.name p)
  | path_price => negb (JS.isNaN (Product.price p)) && JS.geZero (Product.price p)
  | path_images => forallb JS.truthy (Product.images p)
  | path_category => includes validCategories (Product.category p)
  | path_contactNumber => JS.truthy (Product.contactNumber p)
  end.

Definition Product_allPaths : list ProductPath :=
  [path_name; path_price; path_images; path_category; path_contactNumber].

(** [doc.validate()]: the paths among [paths] whose validators fail.  A new
    document is validated on all its paths, a loaded one on the paths that
    were assigned. *)
Definition Product_validate (paths : list ProductPath) (p : Product.t)
  : list ProductPath :=
  filter (λ path, Product_validPath p path = false) paths.

Definition setProducts (st : Store) (m : gmap ObjectId Product.t) : Store :=
  {| users := users st; products := m; carts := carts st |}.

(** [Product.findById] *)
Definition Product_findById (st : Store) (pid : ObjectId) : option Product.t :=
  products st !! pid.

(** [Product.find(filter)], in the order the collection yields. *)
Definition Product_find (st : Store) (f : Product.t → bool) : list Product.t :=
  filter (λ p, f p = true) (snd <$> map_to_list (products st)).

(** [createdAt: -1]: newest first. *)
Definition newerOrEqual (p q : Product.t) : Prop :=
  Product.createdAt q ≤ Product.createdAt p.

#[global] Instance newerOrEqual_dec : RelDecision newerOrEqual.
Proof. intros p q. unfold newerOrEqual. apply _. Defined.

(** [.sort({ createdAt: -1 })] *)
Definition sortNewestFirst (l : list Product.t) : list Product.t :=
  merge_sort newerOrEqual l.

(** [.populate('seller', 'name email')] *)
Definition populateSeller (st : Store) (p : Product.t)
  : Product.t * option UserRef :=
  (p, (λ u, {| ref_id := User._id u; ref_name := User.name u;
               ref_email := User.email u |}) <$> users st !! Product.seller p).

(** ** [routes/products.js] *)

(** [req.body.price] as the handlers look at it: through its truthiness,
    [isNaN] and [parseFloat]. *)
Record PriceField := {
  priceTruthy : bool;
  priceIsNaN : bool;
  priceParseFloat : JS.number
}.

(** The form fields of a create or update request. *)
Module ProductBody.
Record t := {
  name : option JS.string;
  price : PriceField;
  description : option JS.string;
  category : option JS.string;
  size : option JS.string;
  color : option JS.string;
  location : option JS.string;
  contactNumber : option JS.string
}.
End ProductBody.

(** A file of the field [images] as multer describes it in [req.files]:
    the name the storage gave it, the MIME type that its part of the form
    declares, and its size in bytes. *)
Record File := {
  filename : JS.string;
  mimetype : JS.string;
  fileSize : N
}.

(** [fileFilter]: [file.mimetype.startsWith("image/")] *)
Definition fileFilter (file : File) : bool :=
  JS.startsWith (mimetype file) (JS.str "image/").

(** [limits: { fileSize: 5 * 1024 * 1024 }] *)
Definition fileSizeLimit : N := 5 * 1024 * 1024.

(** [upload.array('images', 5)]: multer lets the request through when the
    form has at most five files, each one passes the filter and none is
    larger than the limit (and when the request has no form at all).
    Otherwise it removes what it has stored and hands an error to
    [next]. *)
Definition uploadAccepted (files : option (list File)) : bool :=
  match files with
  | None => true
  | Some l =>
      (length l <=? 5)
      && forallb (λ file, fileFilter file
                          && (fileSize file <=? fileSizeLimit)%N) l
  end.

(** The reply to an error that a middleware hands to [next]: [server.js]
    installs no error handler, so the one of Express replies 500, with a
    page and not with JSON. *)
Definition uploadRefused : Response :=
  {| code := 500; success := None; message := None; payload := NoPayload |}.

(** [!price || isNaN(price) || parseFloat(price) <= 0] *)
Definition priceRejected (f : PriceField) : bool :=
  negb (priceTruthy f) || priceIsNaN f || JS.leZero (priceParseFloat f).

(** [category && !validCategories.includes(category)] *)
Definition categoryRejected (c : option JS.string) : bool :=
  match c with
  | Some s => JS.truthy s && negb (includes validCategories s)
  | None => false
  end.

(** The field checks that the create and the update handler both start
    with: the message of the first check that fails. *)
Definition fieldError (body : ProductBody.t) : option string :=
  if negb (JS.optTruthy (JS.optTrim (ProductBody.name body)))
  then Some "Product name is required"
  else if priceRejected (ProductBody.price body)
  then Some "Please enter a valid price"
  else if negb (JS.optTruthy (JS.optTrim (ProductBody.contactNumber body)))
  then Some "Contact number is required"
  else if categoryRejected (ProductBody.category body)
  then Some "Invalid category"
  else None.

(** [!req.files || req.files.length === 0] *)
Definition noFiles (files : option (list File)) : bool :=
  match files with
  | None => true
  | Some l => bool_decide (length l = 0)
  end.

(** [x.trim()] where [x] is known to be a string. *)
Definition trimmed (x : option JS.string) : JS.string := JS.trimOr x [].

(** [new Product({ ... })] of the create handler: the fields it passes, the
    defaults of the schema for the others. *)
Definition newProduct (reqUser : ReqUser) (body : ProductBody.t)
    (files : list File) (oid : ObjectId) (now : Date) : Product.t :=
  Product_setters
    {| Product._id := oid;
       Product.name := trimmed (ProductBody.name body);
       Product.price := priceParseFloat (ProductBody.price body);
       Product.images := map (λ file, JS.str "/uploads/" ++ filename file) files;
       Product.category := JS.trimOr (ProductBody.category body) (JS.str "other");
       Product.size := JS.trimOr (ProductBody.size body) [];
       Product.color := JS.trimOr (ProductBody.color body) [];
       Product.location := JS.trimOr (ProductBody.location body) [];
       Product.contactNumber := trimmed (ProductBody.contactNumber body);
       Product.description := JS.trimOr (ProductBody.description body) [];
       Product.status := pending;
       Product.isActive := true;
       Product.seller := id reqUser;
       Product.buyer := None;
       Product.soldAt := None;
       Product.shippingAddress := None;
       Product.createdAt := now |}.

(** [router.post('/', auth, upload.array('images', 5), ...)].  Every failure
    of [product.save()], a validation error or a duplicate [_id], ends in
    the [catch] block, which replies 400. *)
Definition createProduct (st : Store) (reqUser : ReqUser)
    (body : ProductBody.t) (files : option (list File))
    (oid : ObjectId) (now : Date) : Response * Store :=
  match fieldError body with
  | Some m => (failure 400 m, st)
  | None =>
      if noFiles files
      then (failure 400 "At least one image is required", st)
      else
        let product := newProduct reqUser body (default [] files) oid now in
        match Product_validate Product_allPaths product with
        | (_ :: _) as errs =>
            ({| code := 400; success := Some false;
                message := Some (ValidationErrors errs);
                payload := NoPayload |}, st)
        | [] =>
            match products st !! oid with
            | Some _ =>
                (failure 400 "Failed to add product. Please try again.", st)
            | None =>
                let st' := setProducts st (<[oid := product]> (products st)) in
                ({| code := 201; success := Some true;
                    message := Some (Text "Product added successfully!");
                    payload := ProductPopulated
                      (populateSeller st' <$> Product_findById st' oid) |},
                 st')
            end
        end
  end.

(** The filter of [GET /public]:
    [{ status: 'approved', isActive: true, soldAt: { $exists: false } }] *)
Definition publicFilter (p : Product.t) : bool :=
  Status_eqb (Product.status p) approved
  && Product.isActive p
  && negb (bool_decide (is_Some (Product.soldAt p))).

(** The filter of [GET /]: [{ status: 'approved', isActive: true }] *)
Definition authenticatedFilter (p : Product.t) : bool :=
  Status_eqb (Product.status p) approved && Product.isActive p.

(** [router.get('/public', ...)]: replies with the bare array. *)
Definition getPublicProducts (st : Store) : Response :=
  {| code := 200; success := None; message := None;
     payload := ProductList
       (populateSeller st <$> sortNewestFirst (Product_find st publicFilter)) |}.

(** [router.get('/', auth, ...)] *)
Definition getProducts (st : Store) (reqUser : ReqUser) : Response :=
  {| code := 200; success := Some true;
     message := Some (Text "Products fetched successfully");
     payload := ProductList
       (populateSeller st <$>
          sortNewestFirst (Product_find st authenticatedFilter)) |}.

(** A word between double quotes, as the messages of the handlers have it. *)
Definition quoted (s : string) : string :=
  String (ascii_of_nat 34) s +:+ String (ascii_of_nat 34) EmptyString.

(** [['approved', 'rejected'].includes(status)], with the status it names. *)
Definition moderationStatus (status : option JS.string) : option Status :=
  match status with
  | Some s =>
      if JS.eqb s (JS.str "approved") then Some approved
      else if JS.eqb s (JS.str "rejected") then Some rejected
      else None
  | None => None
  end.

Definition statusName (s : Status) : string :=
  match s with
  | pending => "pending"
  | approved => "approved"
  | rejected => "rejected"
  | sold => "sold"
  end.

Definition withStatus (p : Product.t) (s : Status) : Product.t :=
  {| Product._id := Product._id p;
     Product.name := Product.name p;
     Product.price := Product.price p;
     Product.images := Product.images p;
     Product.category := Product.category p;
     Product.size := Product.size p;
     Product.color := Product.color p;
     Product.location := Product.location p;
     Product.contactNumber := Product.contactNumber p;
     Product.description := Product.description p;
     Product.status := s;
     Product.isActive := Product.isActive p;
     Product.seller := Product.seller p;
     Product.buyer := Product.buyer p;
     Product.soldAt := Product.soldAt p;
     Product.shippingAddress := Product.shippingAddress p;
     Product.createdAt := Product.createdAt p |}.

Definition withIsActive (p : Product.t) (b : bool) : Product.t :=
  {| Product._id := Product._id p;
     Product.name := Product.name p;
     Product.price := Product.price p;
     Product.images := Product.images p;
     Product.category := Product.category p;
     Product.size := Product.size p;
     Product.color := Product.color p;
     Product.location := Product.location p;
     Product.contactNumber := Product.contactNumber p;
     Product.description := Product.description p;
     Product.status := Product.status p;
     Product.isActive := b;
     Product.seller := Product.seller p;
     Product.buyer := Product.buyer p;
     Product.soldAt := Product.soldAt p;
     Product.shippingAddress := Product.shippingAddress p;
     Product.createdAt := Product.createdAt p |}.

(** [product.save()] of a loaded document: it is written back under the
    [_id] it was found by. *)
Definition Product_save (st : Store) (pid : ObjectId) (p : Product.t) : Store :=
  setProducts st (<[pid := p]> (products st)).

(** [router.put('/:id/status', [auth, adminAuth], ...)], after the two
    middleware.  The assignment of a status of the enum passes validation. *)
Definition updateStatus (st : Store) (pid : ObjectId)
    (status : option JS.string)
  : Response * Store :=
  match moderationStatus status with
  | None =>
      (failure 400
         ("Invalid status. Must be either " +:+ quoted "approved"
            +:+ " or " +:+ quoted "rejected"), st)
  | Some s =>
      match Product_findById st pid with
      | None => (failure 404 "Product not found", st)
      | Some product =>
          let product' := withStatus product s in
          ({| code := 200; success := Some true;
              message := Some (Text ("Product " +:+ statusName s
                                       +:+ " successfully"));
              payload := ProductDoc product' |},
           Product_save st pid product')
      end
  end.

(** [product.seller.toString() !== req.user.id] of the toggle handler: the
    left operand is a string, the right one is the [ObjectId] that [auth]
    stored in [req.user]; operands of different types are never [===]. *)
Definition toggleSellerDiffers (product : Product.t) (reqUser : ReqUser)
  : bool := true.

(** [router.put('/:id/toggle-active', auth, ...)] *)
Definition toggleActive (st : Store) (reqUser : ReqUser) (pid : ObjectId)
  : Response * Store :=
  match Product_findById st pid with
  | None => (failure 404 "Product not found", st)
  | Some product =>
      if toggleSellerDiffers product reqUser && negb (reqIsAdmin reqUser)
      then (failure 403 "Not authorized to modify this product", st)
      else
        let product' := withIsActive product (negb (Product.isActive product)) in
        ({| code := 200; success := Some true;
            message := Some (Text ("Product " +:+
              (if Product.isActive product' then "activated"
               else "deactivated") +:+ " successfully"));
            payload := ProductDoc product' |},
         Product_save st pid product')
  end.

(** The eight assignments of the update handler, through the setters. *)
Definition assignFields (product : Product.t) (body : ProductBody.t)
  : Product.t :=
  Product_setters
    {| Product._id := Product._id product;
       Product.name := trimmed (ProductBody.name body);
       Product.price := priceParseFloat (ProductBody.price body);
       Product.images := Product.images product;
       Product.category := JS.trimOr (ProductBody.category body) (JS.str "other");
       Product.size := JS.trimOr (ProductBody.size body) [];
       Product.color := JS.trimOr (ProductBody.color body) [];
       Product.location := JS.trimOr (ProductBody.location body) [];
       Product.contactNumber := trimmed (ProductBody.contactNumber body);
       Product.description :=
         JS.trimOr (ProductBody.description body) [];
       Product.status := Product.status product;
       Product.isActive := Product.isActive product;
       Product.seller := Product.seller product;
       Product.buyer := Product.buyer product;
       Product.soldAt := Product.soldAt product;
       Product.shippingAddress := Product.shippingAddress product;
       Product.createdAt := Product.createdAt product |}.

(** [router.put('/:id', auth, ...)].  A failure of [product.save()] ends in
    the [catch] block, which replies 500. *)
Definition updateProduct (st : Store) (reqUser : ReqUser) (pid : ObjectId)
    (body : ProductBody.t) : Response * Store :=
  match Product_findById st pid with
  | None => (failure 404 "Product not found", st)
  | Some product =>
      if negb (Product.seller product =? id reqUser)
         && negb (reqIsAdmin reqUser)
      then (failure 403 "Not authorized to modify this product", st)
      else
        match fieldError body with
        | Some m => (failure 400 m, st)
        | None =>
            let product' := assignFields product body in
            match Product_validate
                    [path_name; path_price; path_category; path_contactNumber]
                    product' with
            | _ :: _ => (failure 500 "Failed to update product", st)
            | [] =>
                ({| code := 200; success := Some true;
                    message := Some (Text "Product updated successfully");
                    payload := ProductDoc product' |},
                 Product_save st pid product')
            end
        end
  end.

(** [router.get('/:id', ...)]: no middleware, no filter; replies with the
    bare document. *)
Definition getProductById (st : Store) (pid : ObjectId) : Response :=
  match Product_findById st pid with
  | None => failure 404 "Product not found"
  | Some product =>
      {| code := 200; success := None; message := None;
         payload := ProductPopulated (Some (populateSeller st product)) |}
  end.

(** *** Checkout *)

Record PaymentInfo := {
  cardNumber : option JS.string;
  expiryDate : option JS.string;
  cvv : option JS.string
}.

(** [shippingAddressSent] is [None] when the body has no
    [shippingAddress]. *)
Record CheckoutBody := {
  productId : ObjectId;
  shippingAddressSent : option ShippingAddress;
  paymentInfo : option PaymentInfo
}.

(** [!paymentInfo || !paymentInfo.cardNumber || !paymentInfo.expiryDate
     || !paymentInfo.cvv] *)
Definition paymentRejected (info : option PaymentInfo) : bool :=
  match info with
  | None => true
  | Some i =>
      negb (JS.optTruthy (cardNumber i))
      || negb (JS.optTruthy (expiryDate i))
      || negb (JS.optTruthy (cvv i))
  end.

Definition noLongerAvailable : string :=
  "This product is no longer available. It may have been purchased by another user.".

Definition notForPurchase : string :=
  "This product is not available for purchase".

(** The handler up to its last [await]: [Product.findById] and the checks
    on what it read.  [Some r] is the reply sent early. *)
Definition checkoutChecks (st : Store) (body : CheckoutBody)
  : option Response :=
  match Product_findById st (productId body) with
  | None => Some (failure 404 "Product not found")
  | Some product =>
      if Status_eqb (Product.status product) sold
         || negb (Product.isActive product)
      then Some (failure 400 noLongerAvailable)
      else if negb (Status_eqb (Product.status product) approved)
      then Some (failure 400 notForPurchase)
      else if paymentRejected (paymentInfo body)
      then Some (failure 400 "Invalid payment information")
      else None
  end.

(** The [$set] of the checkout.  Mongoose leaves a key whose value is
    [undefined] out of the update, so without an address in the body the
    product keeps the [shippingAddress] it has, if any. *)
Definition markSold (p : Product.t) (buyerId : ObjectId) (now : Date)
    (address : option ShippingAddress) : Product.t :=
  {| Product._id := Product._id p;
     Product.name := Product.name p;
     Product.price := Product.price p;
     Product.images := Product.images p;
     Product.category := Product.category p;
     Product.size := Product.size p;
     Product.color := Product.color p;
     Product.location := Product.location p;
     Product.contactNumber := Product.contactNumber p;
     Product.description := Product.description p;
     Product.status := sold;
     Product.isActive := false;
     Product.seller := Product.seller p;
     Product.buyer := Some buyerId;
     Product.soldAt := Some now;
     Product.shippingAddress :=
       match address with
       | Some a => Some a
       | None => Product.shippingAddress p
       end;
     Product.createdAt := Product.createdAt p |}.

(** [Product.findOneAndUpdate({ _id, status: 'approved', isActive: true },
     { $set: ... }, { new: true })]: one operation of the store, which
    matches and writes at once and yields the document as written, or
    [null] when nothing matched. *)
Definition Product_findOneAndUpdate (st : Store) (pid buyerId : ObjectId)
    (now : Date) (address : option ShippingAddress)
  : option Product.t * Store :=
  match products st !! pid with
  | Some p =>
      if Status_eqb (Product.status p) approved && Product.isActive p
      then
        let p' := markSold p buyerId now address in
        (Some p', setProducts st (<[pid := p']> (products st)))
      else (None, st)
  | None => (None, st)
  end.

(** The rest of the handler: the conditional update and the reply. *)
Definition checkoutUpdate (st : Store) (reqUser : ReqUser)
    (body : CheckoutBody) (now : Date) : Response * Store :=
  match Product_findOneAndUpdate st (productId body) (id reqUser) now
          (shippingAddressSent body) with
  | (None, st') => (failure 400 noLongerAvailable, st')
  | (Some updatedProduct, st') =>
      ({| code := 200; success := Some true;
          message := Some (Text "Purchase completed successfully");
          payload := ProductDoc updatedProduct |}, st')
  end.

(** [router.post('/checkout', auth, ...)], run without interruption. *)
Definition checkout (st : Store) (reqUser : ReqUser) (body : CheckoutBody)
    (now : Date) : Response * Store :=
  match checkoutChecks st body with
  | Some r => (r, st)
  | None => checkoutUpdate st reqUser body now
  end.

(** *** Checkout requests in flight

    Node runs one handler at a time and switches between requests only at
    an [await].  The checkout handler awaits twice, so a request in flight
    is in one of three places; a step runs it up to its next [await]. *)

Inductive CheckoutTask :=
  | AwaitFind
  | AwaitUpdate
  | Replied (r : Response).

Record CheckoutRequest := {
  buyerUser : ReqUser;
  checkoutBody : CheckoutBody;
  clock : Date
}.

Definition checkoutStep (st : Store) (req : CheckoutRequest)
    (t : CheckoutTask) : CheckoutTask * Store :=
  match t with
  | AwaitFind =>
      match checkoutChecks st (checkoutBody req) with
      | Some r => (Replied r, st)
      | None => (AwaitUpdate, st)
      end
  | AwaitUpdate =>
      let (r, st') :=
        checkoutUpdate st (buyerUser req) (checkoutBody req) (clock req) in
      (Replied r, st')
  | Replied r => (Replied r, st)
  end.

(** Two requests in flight, and the event loop's choice of the one that
    resumes: [false] for the first, [true] for the second. *)
Record TwoCheckouts := {
  store : Store;
  first : CheckoutTask;
  second : CheckoutTask
}.

Definition resume (r1 r2 : CheckoutRequest) (s : TwoCheckouts)
    (which : bool) : TwoCheckouts :=
  if which
  then let (t, st') := checkoutStep (store s) r2 (second s) in
       {| store := st'; first := first s; second := t |}
  else let (t, st') := checkoutStep (store s) r1 (first s) in
       {| store := st'; first := t; second := second s |}.

Definition interleave (r1 r2 : CheckoutRequest) (schedule : list bool)
    (s : TwoCheckouts) : TwoCheckouts :=
  foldl (resume r1 r2) s schedule.

(** Both requests have arrived and neither handler has run yet. *)
Definition bothStart (st : Store) : TwoCheckouts :=
  {| store := st; first := AwaitFind; second := AwaitFind |}.

(** A schedule lets both handlers finish when each is resumed twice. *)
Definition complete (schedule : list bool) : Prop :=
  2 ≤ length (filter (λ b, b = false) schedule)
  ∧ 2 ≤ length (filter (λ b, b = true) schedule).

Definition purchased (t : CheckoutTask) : bool :=
  match t with
  | Replied r => bool_decide (code r = 200 ∧ success r = Some true)
  | _ => false
  end.

Definition refusedAsUnavailable (t : CheckoutTask) : bool :=
  match t with
  | Replied r => bool_decide (r = failure 400 noLongerAvailable)
  | _ => false
  end.

(** How far a request in flight has come: the number of its [await]s that
    are behind it. *)
Definition progress (t : CheckoutTask) : nat :=
  match t with
  | AwaitFind => 0
  | AwaitUpdate => 1
  | Replied _ => 2
  end.

Definition waiting (t : CheckoutTask) : Prop :=
  t = AwaitFind ∨ t = AwaitUpdate.

(** A request that has not bought the product: still in flight, or refused
    as "no longer available". *)
Definition lost (t : CheckoutTask) : Prop :=
  waiting t ∨ t = Replied (failure 400 noLongerAvailable).

(** The product can be bought: it is stored, approved and active. *)
Definition available (st : Store) (pid : ObjectId) : Prop :=
  ∃ q, products st !! pid = Some q
       ∧ Product.status q = approved ∧ Product.isActive q = true.

Definition soldOut (st : Store) (pid : ObjectId) : Prop :=
  ∃ q, products st !! pid = Some q
       ∧ Product.status q = sold ∧ Product.isActive q = false.

(** What holds of two checkouts of an available product all along: either
    the product is still available and both requests are in flight, or it
    is sold, one request has bought it and the other has not. *)
Definition oneWinner (pid : ObjectId) (s : TwoCheckouts) : Prop :=
  (available (store s) pid ∧ waiting (first s) ∧ waiting (second s))
  ∨ (soldOut (store s) pid
     ∧ ((purchased (first s) = true ∧ lost (second s))
        ∨ (lost (first s) ∧ purchased (second s) = true))).

(** What holds of two checkouts of one product whatever the store and the
    requests: they have not both bought it, and once one has, the product
    is not available. *)
Definition atMostOneWinner (pid : ObjectId) (s : TwoCheckouts) : Prop :=
  ¬ (purchased (first s) = true ∧ purchased (second s) = true)
  ∧ (purchased (first s) = true ∨ purchased (second s) = true →
     ¬ available (store s) pid).

(** ** [routes/cart.js] *)

(** Modelled from the spec: the cart schema ([models/Cart.js]) is not among
    the sources.  It gives a line item that is pushed without a quantity its
    default; the specification has the add operation "insert with
    quantity 1". *)
Definition Cart_defaultQuantity : nat := 1.

Definition setCarts (st : Store) (m : gmap ObjectId Cart.t) : Store :=
  {| users := users st; products := products st; carts := m |}.

(** [Cart.findOne({ user })]: the cart and the key it is stored under. *)
Definition Cart_findOne (st : Store) (uid : ObjectId)
  : option (ObjectId * Cart.t) :=
  List.find (λ kc, Cart.user kc.2 =? uid) (map_to_list (carts st)).

(** [item.quantity += 1] *)
Definition incremented (item : CartItem) : CartItem :=
  {| product := product item; quantity := quantity item + 1 |}.

(** [item.product.toString() === productId]: the stored [ObjectId], as it
    prints, against the string of the request. *)
Definition sameProduct (env : Env) (productId : JS.string) (item : CartItem)
  : Prop :=
  ObjectId_toString env (product item) = productId.

#[global] Instance sameProduct_dec env productId item :
  Decision (sameProduct env productId item).
Proof. unfold sameProduct. apply _. Defined.

(** The body of the add handler on the line items: [find] yields the first
    item whose product prints as the string of the request, which is
    incremented where it stands; without one, an item is pushed, whose
    [product] is the string cast to an [ObjectId].  [None]: the string does
    not cast, and saving the cart fails. *)
Definition addItem (env : Env) (items : list CartItem) (productId : JS.string)
  : option (list CartItem) :=
  match list_find (sameProduct env productId) items with
  | Some (i, existingItem) => Some (<[i := incremented existingItem]> items)
  | None =>
      (λ pid, items ++ [{| product := pid;
                           quantity := Cart_defaultQuantity |}])
        <$> castObjectId env productId
  end.

(** [.populate('items.product', ...)]: each item with the product it refers
    to, when that still exists. *)
Definition populateItems (st : Store) (items : list CartItem)
  : list (CartItem * option Product.t) :=
  (λ item, (item, products st !! product item)) <$> items.

(** [router.post('/add', auth, ...)].  [productId] is the string of the
    body, [None] when the body has none.  [oid] is the [_id] of the cart
    that [new Cart] makes when the user has none.  Saving fails when the
    pushed string does not cast to an [ObjectId], and when the new cart
    takes an [_id] that is taken; the [catch] block then replies 500. *)
Definition addToCart (env : Env) (st : Store) (reqUser : ReqUser)
    (productId : option JS.string) (oid : ObjectId) : Response * Store :=
  if negb (JS.optTruthy productId)
  then (failure 400 "Product ID is required", st)
  else
    let found := Cart_findOne st (id reqUser) in
    let '(key, cart) :=
      default
        (oid, {| Cart._id := oid; Cart.user := id reqUser; Cart.items := [] |})
        found in
    match addItem env (Cart.items cart) (default [] productId) with
    | None => (failure 500 "Error adding to cart", st)
    | Some items' =>
        let cart' :=
          {| Cart._id := Cart._id cart; Cart.user := Cart.user cart;
             Cart.items := items' |} in
        if bool_decide (found = None ∧ is_Some (carts st !! oid))
        then (failure 500 "Error adding to cart", st)
        else
          let st' := setCarts st (<[key := cart']> (carts st)) in
          ({| code := 200; success := Some true; message := None;
              payload := CartItems (populateItems st' (Cart.items cart')) |},
           st')
    end.

(** The line items that [GET /cart] shows a user: those of the cart, none
    when there is no cart. *)
Definition cartItems (st : Store) (uid : ObjectId) : list CartItem :=
  match Cart_findOne st uid with
  | Some (_, cart) => Cart.items cart
  | None => []
  end.

(** No user has two carts. *)
Definition oneCartPerUser (st : Store) : Prop :=
  ∀ k1 k2 c1 c2,
    carts st !! k1 = Some c1 → carts st !! k2 = Some c2 →
    Cart.user c1 = Cart.user c2 → k1 = k2.

(** The [_id] that [new Cart] would take is free when it is needed. *)
Definition freshIfNeeded (st : Store) (uid oid : ObjectId) : Prop :=
  Cart_findOne st uid = None → carts st !! oid = None.

(** ** [models/User.js] and [routes/auth.js] *)

Definition setUsers (st : Store) (m : gmap ObjectId User.t) : Store :=
  {| users := m; products := products st; carts := carts st |}.

(** The setters of the [email] path, [trim: true, lowercase: true].
    Mongoose runs the setters of a path from the last declared to the
    first, and applies them to a document and to the filter of a query. *)
Definition emailSetters (env : Env) (e : JS.string) : JS.string :=
  JS.trim (toLowerCase env e).

(** [User.findOne({ email })] *)
Definition User_findOne (env : Env) (st : Store) (email : JS.string)
  : option User.t :=
  List.find (λ u, JS.eqb (User.email u) (emailSetters env email))
            (snd <$> map_to_list (users st)).

(** [user.comparePassword(password)] *)
Definition comparePassword (env : Env) (u : User.t)
    (enteredPassword : JS.string) : bool :=
  bcrypt_compare env enteredPassword (User.password u).

Definition session (c : nat) (u : User.t) : Response :=
  {| code := c; success := Some true; message := None;
     payload := Session
       {| token_id := User._id u; token_isAdmin := User.isAdmin u |}
       {| view_id := User._id u; view_name := User.name u;
          view_email := User.email u; view_isAdmin := User.isAdmin u |} |}.

(** [router.post('/login', ...)] *)
Definition login (env : Env) (st : Store) (email password : JS.string)
  : Response :=
  match User_findOne env st email with
  | None => failure 400 "Invalid credentials"
  | Some u =>
      if negb (comparePassword env u password)
      then failure 400 "Invalid credentials"
      else session 200 u
  end.

(** [new User({ name, email, password, isAdmin })], through the setters. *)
Definition newUser (env : Env) (name email password : JS.string)
    (admin : bool)
    (oid : ObjectId) (now : Date) : User.t :=
  {| User._id := oid;
     User.name := JS.trim name;
     User.email := emailSetters env email;
     User.password := password;
     User.isAdmin := admin;
     User.createdAt := now;
     User.products := [] |}.

(** The validators of the user schema: the three paths are [required], the
    email must pass [validator.isEmail], the password has [minlength: 6]. *)
Definition User_valid (env : Env) (u : User.t) : bool :=
  JS.truthy (User.name u)
  && JS.truthy (User.email u) && isEmail env (User.email u)
  && JS.truthy (User.password u) && (6 <=? length (User.password u)).

(** [user.save()] of a new user: validation, then the [pre('save')] hook
    that replaces the password by its hash, then the insertion, which a
    taken [_id] makes fail.  [None] stands for the exception. *)
Definition User_save (env : Env) (st : Store) (u : User.t) (salt : JS.string)
  : option (User.t * Store) :=
  if negb (User_valid env u) then None
  else
    let u' :=
      {| User._id := User._id u; User.name := User.name u;
         User.email := User.email u;
         User.password := bcrypt_hash env (User.password u) salt;
         User.isAdmin := User.isAdmin u; User.createdAt := User.createdAt u;
         User.products := User.products u |} in
    match users st !! User._id u with
    | Some _ => None
    | None => Some (u', setUsers st (<[User._id u := u']> (users st)))
    end.

(** [router.post('/register', ...)] *)
Definition register (env : Env) (st : Store) (name email password : JS.string)
    (salt : JS.string) (oid : ObjectId) (now : Date) : Response * Store :=
  match User_findOne env st email with
  | Some _ => (failure 400 "User already exists", st)
  | None =>
      match User_save env st (newUser env name email password false oid now)
              salt with
      | None => (failure 500 "Server error", st)
      | Some (u, st') => (session 201 u, st')
      end
  end.

(** [router.post('/register-admin', ...)] *)
Definition registerAdmin (env : Env) (st : Store)
    (name email password : JS.string) (adminKey : option JS.string)
    (salt : JS.string) (oid : ObjectId) (now : Date) : Response * Store :=
  if negb (bool_decide (adminKey = ADMIN_KEY env))
  then (failure 403 "Invalid admin key", st)
  else
    match User_findOne env st email with
    | Some _ => (failure 400 "User already exists", st)
    | None =>
        match User_save env st (newUser env name email password true oid now)
                salt with
        | None =>
            ({| code := 500; success := Some false;
                message := Some CaughtError; payload := NoPayload |}, st)
        | Some (u, st') => (session 201 u, st')
        end
    end.

(** ** The router *)

(** The routes of the three routers that the model covers, each with what
    its handler reads from the request (and takes from its environment). *)
Inductive Route :=
  | PostRegister (name email password salt : JS.string) (oid : ObjectId)
      (now : Date)
  | PostRegisterAdmin (name email password : JS.string)
      (adminKey : option JS.string) (salt : JS.string) (oid : ObjectId)
      (now : Date)
  | PostLogin (email password : JS.string)
  | PostProducts (body : ProductBody.t) (files : option (list File))
      (oid : ObjectId) (now : Date)
  | GetProductsPublic
  | GetProducts
  | PutProductStatus (pid : ObjectId) (status : option JS.string)
  | PutProductToggleActive (pid : ObjectId)
  | PutProduct (pid : ObjectId) (body : ProductBody.t)
  | GetProduct (pid : ObjectId)
  | PostCheckout (body : CheckoutBody) (now : Date)
  | PostCartAdd (productId : option JS.string) (oid : ObjectId).

Record Request := {
  authorization : Authorization;
  route : Route
}.

(** A route behind [auth]. *)
Definition withAuth (st : Store) (h : Authorization)
    (handler : ReqUser → Response * Store) : Response * Store :=
  match auth st h with
  | Send r => (r, st)
  | Next reqUser => handler reqUser
  end.

(** A route behind [[auth, adminAuth]]. *)
Definition withAdmin (st : Store) (h : Authorization)
    (handler : ReqUser → Response * Store) : Response * Store :=
  withAuth st h (λ reqUser,
    match adminAuth st (Some reqUser) with
    | Send r => (r, st)
    | Next _ => handler reqUser
    end).

(** The middleware each route is registered with, and its handler. *)
Definition handle (env : Env) (st : Store) (req : Request)
  : Response * Store :=
  let h := authorization req in
  match route req with
  | PostRegister name email password salt oid now =>
      register env st name email password salt oid now
  | PostRegisterAdmin name email password adminKey salt oid now =>
      registerAdmin env st name email password adminKey salt oid now
  | PostLogin email password => (login env st email password, st)
  | PostProducts body files oid now =>
      withAuth st h (λ reqUser,
        if uploadAccepted files
        then createProduct st reqUser body files oid now
        else (uploadRefused, st))
  | GetProductsPublic => (getPublicProducts st, st)
  | GetProducts => withAuth st h (λ reqUser, (getProducts st reqUser, st))
  | PutProductStatus pid status =>
      withAdmin st h (λ _, updateStatus st pid status)
  | PutProductToggleActive pid =>
      withAuth st h (λ reqUser, toggleActive st reqUser pid)
  | PutProduct pid body =>
      withAuth st h (λ reqUser, updateProduct st reqUser pid body)
  | GetProduct pid => (getProductById st pid, st)
  | PostCheckout body now =>
      withAuth st h (λ reqUser, checkout st reqUser body now)
  | PostCartAdd productId oid =>
      withAuth st h (λ reqUser, addToCart env st reqUser productId oid)
  end.

(** The store after a sequence of requests, served one after the other. *)
Definition serve (env : Env) (st : Store) (reqs : list Request) : Store :=
  foldl (λ s req, (handle env s req).2) st reqs.

(** The stores the server can be in: those that requests lead to from the
    empty database. *)
Definition reachable (env : Env) (st : Store) : Prop :=
  ∃ reqs, st = serve env emptyStore reqs.

(** ** The moves of a status

    What one request can do to the status of a stored product: nothing;
    the moderation route sets [approved] or [rejected], whatever the status
    was; the checkout takes [approved] to [sold]. *)
Inductive statusMove : Status → Status → Prop :=
  | move_stay s : statusMove s s
  | move_approve s : statusMove s approved
  | move_reject s : statusMove s rejected
  | move_sell : statusMove approved sold.

(** ** A small marketplace

    The data of the worked examples: an environment in which every address
    counts as an e-mail address, one administrator, a seller and a buyer,
    and a pair of boots. *)

Module Sample.

(** Lower case on the letters A to Z, which is what
    [String.prototype.toLowerCase] does to the ASCII strings of the
    examples. *)
Definition lowerAscii (s : JS.string) : JS.string :=
  (λ c, if (65 <=? c) && (c <=? 90) then c + 32 else c)%N <$> s.

(** The digits of an [ObjectId] in base 16, least significant first. *)
Fixpoint hexDigits (digits : nat) (n : N) : list N :=
  match digits with
  | 0 => []
  | S digits' =>
      (let d := n mod 16 in if d <? 10 then 48 + d else 87 + d)%N
      :: hexDigits digits' (n / 16)%N
  end.

(** [ObjectId.prototype.toString]: 24 digits in base 16, in lower case. *)
Definition toHexString (oid : ObjectId) : JS.string :=
  rev (hexDigits 24 (N.of_nat oid)).

(** The value of a digit in base 16, of either case. *)
Definition hexValue (c : N) : option N :=
  (if (48 <=? c) && (c <=? 57) then Some (c - 48)
   else if (97 <=? c) && (c <=? 102) then Some (c - 87)
   else if (65 <=? c) && (c <=? 70) then Some (c - 55)
   else None)%N.

(** The cast of a string of 24 digits in base 16, of either case, to the
    [ObjectId] it spells. *)
Definition fromHexString (s : JS.string) : option ObjectId :=
  if bool_decide (length s = 24)
  then N.to_nat <$> foldl (λ acc c, n ← acc; d ← hexValue c;
                                     Some (16 * n + d)%N) (Some 0%N) s
  else None.

Definition env : Env :=
  {| bcrypt_hash := λ password salt, salt ++ password;
     bcrypt_compare := λ entered stored,
       JS.eqb (JS.str "salt" ++ entered) stored;
     isEmail := λ _, true;
     ADMIN_KEY := Some (JS.str "letmein");
     toLowerCase := lowerAscii;
     ObjectId_toString := toHexString;
     castObjectId := fromHexString |}.

Definition admin : ObjectId := 1.
Definition seller : ObjectId := 2.
Definition buyer : ObjectId := 3.
Definition boots : ObjectId := 10.

Definition request (h : Authorization) (r : Route) : Request :=
  {| authorization := h; route := r |}.

Definition registrations : list Request :=
  [ request NoToken
      (PostRegisterAdmin (JS.str "Ada") (JS.str "ada@market.io")
         (JS.str "secret-1") (Some (JS.str "letmein")) (JS.str "salt")
         admin 100);
    request NoToken
      (PostRegister (JS.str "Sam") (JS.str "sam@market.io")
         (JS.str "secret-2") (JS.str "salt") seller 101);
    request NoToken
      (PostRegister (JS.str "Bo") (JS.str "bo@market.io")
         (JS.str "secret-3") (JS.str "salt") buyer 102) ].

(** The administrator's account as [new User] makes it, before it is
    saved. *)
Definition ada (env : Env) : User.t :=
  newUser env (JS.str "Ada") (JS.str "ada@market.io") (JS.str "secret-1")
    true admin 100.

Definition price25 : PriceField :=
  {| priceTruthy := true; priceIsNaN := false;
     priceParseFloat := JS.Finite (25 # 1) |}.

(** A form that names no category. *)
Definition bootsForm : ProductBody.t :=
  {| ProductBody.name := Some (JS.str " Boots ");
     ProductBody.price := price25;
     ProductBody.description := Some (JS.str "Leather, worn twice");
     ProductBody.category := None;
     ProductBody.size := Some (JS.str "42");
     ProductBody.color := None;
     ProductBody.location := None;
     ProductBody.contactNumber := Some (JS.str "555-0100") |}.

Definition photo : File :=
  {| filename := JS.str "images-1700000000000-1.png";
     mimetype := JS.str "image/png"; fileSize := 48213 |}.

Definition address : ShippingAddress :=
  {| street := Some (JS.str "1 Main Street");
     city := Some (JS.str "Lahore"); state := None;
     zipCode := Some (JS.str "54000"); country := Some (JS.str "PK") |}.

Definition card : PaymentInfo :=
  {| cardNumber := Some (JS.str "4111111111111111");
     expiryDate := Some (JS.str "12/30"); cvv := Some (JS.str "123") |}.

Definition order (info : option PaymentInfo) : CheckoutBody :=
  {| productId := boots; shippingAddressSent := Some address;
     paymentInfo := info |}.

Definition registered : Store := serve env emptyStore registrations.



(** The seller lists the boots and the administrator approves them. *)
Definition listing : list Request :=
  registrations ++
  [ request (ValidToken seller) (PostProducts bootsForm (Some [photo]) boots 200);
    request (ValidToken admin) (PutProductStatus boots (Some (JS.str "approved"))) ].

Definition listed : Store := serve env emptyStore listing.

(** The buyer buys them. *)
Definition purchase : Request :=
  request (ValidToken buyer) (PostCheckout (order (Some card)) 300).

Definition afterSale : Store := serve env listed [purchase].

(** The administrator approves the sold boots again and switches them back
    on. *)
Definition relisting : list Request :=
  [ request (ValidToken admin) (PutProductStatus boots (Some (JS.str "approved")));
    request (ValidToken admin) (PutProductToggleActive boots) ].

Definition relisted : Store := serve env afterSale relisting.

(** The seller buys them in turn. *)
Definition secondPurchase : Request :=
  request (ValidToken seller) (PostCheckout (order (Some card)) 400).

Definition afterSecondSale : Store := serve env relisted [secondPurchase].

Definition customer (u : ObjectId) : ReqUser :=
  {| id := u; reqIsAdmin := false |}.

(** The seller's account as it is stored. *)
Definition sam : User.t :=
  {| User._id := seller; User.name := JS.str "Sam";
     User.email := JS.str "sam@market.io";
     User.password := JS.str "saltsecret-2"; User.isAdmin := false;
     User.createdAt := 101; User.products := [] |}.

(** A checkout of the boots in flight, with or without a card. *)
Definition bid (u : ObjectId) (info : option PaymentInfo) (now : Date)
  : CheckoutRequest :=
  {| buyerUser := customer u; checkoutBody := order info; clock := now |}.

(** Both requests are resumed in turn. *)
Definition inTurn : list bool := [false; true; false; true].

(** The buyer and the seller both try to buy the listed boots. *)
Definition race : TwoCheckouts :=
  interleave (bid buyer (Some card) 300) (bid seller (Some card) 301) inTurn
    (bothStart listed).

(** The boots as the seller listed them, as approved, and as sold. *)
Definition newBoots : Product.t :=
  newProduct (customer seller) bootsForm [photo] boots 200.

Definition approvedBoots : Product.t := withStatus newBoots approved.

Definition soldBoots : Product.t :=
  markSold approvedBoots buyer 300 (Some address).

(** A run in which the administrator is alone on the marketplace: she
    registers with the admin key, lists the boots, approves them, buys
    them, approves them again and switches them back on. *)
Definition soloRun (adminKey : option JS.string) : list Request :=
  [ request NoToken
      (PostRegisterAdmin (JS.str "Ada") (JS.str "ada@market.io")
         (JS.str "secret-1") adminKey (JS.str "salt") admin 100);
    request (ValidToken admin)
      (PostProducts bootsForm (Some [photo]) boots 200);
    request (ValidToken admin)
      (PutProductStatus boots (Some (JS.str "approved")));
    request (ValidToken admin) (PostCheckout (order (Some card)) 300);
    request (ValidToken admin)
      (PutProductStatus boots (Some (JS.str "approved")));
    request (ValidToken admin) (PutProductToggleActive boots) ].

(** The boots at the end of that run: sold once, approved and active. *)
Definition relistedBoots : Product.t :=
  withIsActive
    (withStatus
       (markSold
          (withStatus
             (newProduct (customer admin) bootsForm [photo] boots 200)
             approved)
          admin 300 (Some address))
       approved)
    true.

(** The [_id] of the boots as it prints, and the same digits with the
    letter in upper case. *)
Definition bootsId : JS.string := toHexString boots.

Definition bootsIdUpper : JS.string := JS.str "00000000000000000000000A".

(** The seller edits the form of the boots after the sale. *)
Definition renamed : ProductBody.t :=
  {| ProductBody.name := Some (JS.str "Hiking boots");
     ProductBody.price := price25;
     ProductBody.description := None;
     ProductBody.category := Some (JS.str "shoes");
     ProductBody.size := Some (JS.str "43");
     ProductBody.color := Some (JS.str "brown");
     ProductBody.location := None;
     ProductBody.contactNumber := Some (JS.str "555-0199") |}.

Definition renaming : Response * Store :=
  updateProduct afterSale (customer seller) boots renamed.

End Sample.

(** * The other routes *)

(** ** The rest of [routes/cart.js] *)

(** [router.get('/', auth, ...)] of the cart router. *)
Definition getCart (st : Store) (reqUser : ReqUser) : Response :=
  match Cart_findOne st (id reqUser) with
  | None =>
      {| code := 200; success := Some true; message := None;
         payload := CartItems [] |}
  | Some (_, cart) =>
      {| code := 200; success := Some true; message := None;
         payload := CartItems (populateItems st (Cart.items cart)) |}
  end.

(** [cart.items.filter(item => item.product.toString() !== productId)]:
    the items whose product does not print as the string of the request. *)
Definition removeItem (env : Env) (items : list CartItem)
    (productId : JS.string) : list CartItem :=
  filter (λ item, ¬ sameProduct env productId item) items.

(** [router.delete('/remove/:productId', auth, ...)]; [productId] is the
    segment of the path, which is not cast. *)
Definition removeFromCart (env : Env) (st : Store) (reqUser : ReqUser)
    (productId : JS.string) : Response * Store :=
  match Cart_findOne st (id reqUser) with
  | None => (failure 404 "Cart not found", st)
  | Some (key, cart) =>
      let cart' :=
        {| Cart._id := Cart._id cart; Cart.user := Cart.user cart;
           Cart.items := removeItem env (Cart.items cart) productId |} in
      let st' := setCarts st (<[key := cart']> (carts st)) in
      ({| code := 200; success := Some true; message := None;
          payload := CartItems (populateItems st' (Cart.items cart')) |},
       st')
  end.

(** [router.delete('/clear', auth, ...)] *)
Definition clearCart (st : Store) (reqUser : ReqUser) : Response * Store :=
  match Cart_findOne st (id reqUser) with
  | None => (failure 404 "Cart not found", st)
  | Some (key, cart) =>
      let cart' :=
        {| Cart._id := Cart._id cart; Cart.user := Cart.user cart;
           Cart.items := [] |} in
      ({| code := 200; success := Some true;
          message := Some (Text "Cart cleared"); payload := NoPayload |},
       setCarts st (<[key := cart']> (carts st)))
  end.

(** ** The rest of [routes/products.js] *)

(** *** Uploaded files

    The disk is the set of the files under [process.cwd()], each named by
    its path from there as the handlers spell it in [images]:
    ["/uploads/" + filename].  That is the file multer wrote, since the
    upload directory is [path.join(process.cwd(), 'uploads')]. *)

Definition storedPath (file : File) : JS.string :=
  JS.str "/uploads/" ++ filename file.

(** The storage of [upload.array('images', 5)]: the files of an upload that
    multer accepts ([uploadAccepted]) are on the disk when the handler
    starts.  An upload that it refuses, for a sixth file, a file that is
    not an image or one above the size limit, writes nothing that stays
    and starts no handler: that is the other branch of [handleAny]. *)
Definition multerWrite (disk : gset JS.string) (files : option (list File))
  : gset JS.string :=
  disk ∪ list_to_set (storedPath <$> default [] files).

(** [try { fs.unlinkSync(path) } catch (err) { ... }] *)
Definition unlink (disk : gset JS.string) (path : JS.string) : gset JS.string :=
  disk ∖ {[path]}.

(** The clean-up of the [catch] block of the create handler:
    [if (req.files) req.files.forEach(file => unlink(file.path))]. *)
Definition cleanUp (disk : gset JS.string) (files : option (list File))
  : gset JS.string :=
  match files with
  | None => disk
  | Some l => foldl (λ d file, unlink d (storedPath file)) disk l
  end.

(** The create handler with the disk: the field checks and the image check
    return before anything is cleaned; the [catch] block, which a failure
    of [product.save()] leads to, unlinks the files of the request. *)
Definition createProductOnDisk (st : Store) (disk : gset JS.string)
    (reqUser : ReqUser) (body : ProductBody.t) (files : option (list File))
    (oid : ObjectId) (now : Date) : Response * Store * gset JS.string :=
  match fieldError body with
  | Some m => (failure 400 m, st, disk)
  | None =>
      if noFiles files
      then (failure 400 "At least one image is required", st, disk)
      else
        let product := newProduct reqUser body (default [] files) oid now in
        match Product_validate Product_allPaths product with
        | (_ :: _) as errs =>
            ({| code := 400; success := Some false;
                message := Some (ValidationErrors errs);
                payload := NoPayload |}, st, cleanUp disk files)
        | [] =>
            match products st !! oid with
            | Some _ =>
                (failure 400 "Failed to add product. Please try again.", st,
                 cleanUp disk files)
            | None =>
                let st' := setProducts st (<[oid := product]> (products st)) in
                ({| code := 201; success := Some true;
                    message := Some (Text "Product added successfully!");
                    payload := ProductPopulated
                      (populateSeller st' <$> Product_findById st' oid) |},
                 st', disk)
            end
        end
  end.

(** The loop of the delete handler over [product.images]:
    [if (fs.existsSync(fullPath)) fs.unlinkSync(fullPath)]. *)
Definition unlinkImages (disk : gset JS.string) (images : list JS.string)
  : gset JS.string :=
  foldl (λ d imagePath,
           if bool_decide (imagePath ∈ d) then unlink d imagePath else d)
        disk images.

(** [router.delete('/:id', auth, ...)] *)
Definition deleteProduct (st : Store) (disk : gset JS.string) (reqUser : ReqUser)
    (pid : ObjectId) : Response * Store * gset JS.string :=
  match Product_findById st pid with
  | None => (failure 404 "Product not found", st, disk)
  | Some product =>
      if negb (Product.seller product =? id reqUser)
         && negb (reqIsAdmin reqUser)
      then (failure 403 "Not authorized to delete this product", st, disk)
      else
        ({| code := 200; success := Some true;
            message := Some (Text "Product deleted successfully");
            payload := NoPayload |},
         setProducts st (delete pid (products st)),
         unlinkImages disk (Product.images product))
  end.

(** *** The other listings *)

(** [.populate('buyer', 'name email')] *)
Definition populateBuyer (st : Store) (p : Product.t)
  : Product.t * option UserRef :=
  (p, Product.buyer p ≫= λ b,
        (λ u, {| ref_id := User._id u; ref_name := User.name u;
                 ref_email := User.email u |}) <$> users st !! b).

(** The filter of [GET /my-products]: [{ seller: req.user.id }] *)
Definition ownFilter (reqUser : ReqUser) (p : Product.t) : bool :=
  Product.seller p =? id reqUser.

(** [router.get('/my-products', auth, ...)] *)
Definition getMyProducts (st : Store) (reqUser : ReqUser) : Response :=
  {| code := 200; success := Some true; message := None;
     payload := ProductList
       (populateBuyer st <$>
          sortNewestFirst (Product_find st (ownFilter reqUser))) |}.

(** The filter of [GET /pending]: [{ status: 'pending' }] *)
Definition pendingFilter (p : Product.t) : bool :=
  Status_eqb (Product.status p) pending.

(** [router.get('/pending', [auth, adminAuth], ...)]: no sort. *)
Definition getPendingProducts (st : Store) : Response :=
  {| code := 200; success := Some true; message := None;
     payload := ProductList
       (populateSeller st <$> Product_find st pendingFilter) |}.

(** *** Search *)

(** What the search takes from its libraries: the test of a
    case-insensitive regular expression ([$regex] with [$options: 'i']),
    which the database refuses to build from some patterns; [parseFloat] on
    a query parameter; the comparisons [$gte] and [$lte] of the database on
    numbers. *)
Record Library := {
  regexTest : JS.string → option (JS.string → bool);
  parseFloat : JS.string → JS.number;
  gte : JS.number → JS.number → bool;
  lte : JS.number → JS.number → bool
}.

(** [req.query] *)
Record SearchQuery := {
  query : option JS.string;
  categoryParam : option JS.string;
  minPrice : option JS.string;
  maxPrice : option JS.string
}.

(** A query parameter that is there and truthy. *)
Definition given (x : option JS.string) : option JS.string :=
  match x with
  | Some s => if JS.truthy s then Some s else None
  | None => None
  end.

(** [searchQuery.$or], when [query] is given.  [None]: the pattern is no
    regular expression, and the query fails. *)
Definition textCondition (lib : Library) (q : SearchQuery)
  : option (Product.t → bool) :=
  match given (query q) with
  | None => Some (λ _, true)
  | Some pattern =>
      (λ test p, test (Product.name p) || test (Product.description p))
        <$> regexTest lib pattern
  end.

(** [searchQuery.category], when [category] is given. *)
Definition categoryCondition (q : SearchQuery) (p : Product.t) : bool :=
  match given (categoryParam q) with
  | None => true
  | Some c => JS.eqb (Product.category p) c
  end.

(** One bound of [searchQuery.price].  [None]: the bound parses to [NaN],
    which Mongoose refuses to cast to a number, and the query fails. *)
Definition boundCondition (lib : Library)
    (compare : JS.number → JS.number → bool) (bound : option JS.string)
  : option (Product.t → bool) :=
  match given bound with
  | None => Some (λ _, true)
  | Some s =>
      if JS.isNaN (parseFloat lib s) then None
      else Some (λ p, compare (Product.price p) (parseFloat lib s))
  end.

(** [router.get('/search', ...)].  A query that fails ends in the [catch]
    block, which replies 500. *)
Definition searchProducts (lib : Library) (st : Store) (q : SearchQuery)
  : Response :=
  match textCondition lib q,
        boundCondition lib (gte lib) (minPrice q),
        boundCondition lib (lte lib) (maxPrice q) with
  | Some text, Some atLeast, Some atMost =>
      {| code := 200; success := Some true;
         message := Some (Text "Search results fetched successfully");
         payload := ProductList
           (populateSeller st <$>
              sortNewestFirst
                (Product_find st
                   (λ p, publicFilter p && text p && categoryCondition q p
                         && atLeast p && atMost p))) |}
  | _, _, _ => failure 500 "Error searching products"
  end.

(** ** The rest of [routes/auth.js] and of [models/User.js] *)

(** A user document without its password: [.select('-password')]. *)
Record UserProfile := {
  profile_id : ObjectId;
  profile_name : JS.string;
  profile_email : JS.string;
  profile_isAdmin : bool;
  profile_createdAt : Date;
  profile_products : list ObjectId
}.

(** [router.get('/profile', auth, ...)]: the [user] of the reply. *)
Definition getProfile (st : Store) (reqUser : ReqUser) : option UserProfile :=
  (λ u, {| profile_id := User._id u; profile_name := User.name u;
           profile_email := User.email u; profile_isAdmin := User.isAdmin u;
           profile_createdAt := User.createdAt u;
           profile_products := User.products u |}) <$> users st !! id reqUser.

(** [router.get('/verify', auth, ...)] *)
Definition getVerify : Response :=
  {| code := 200; success := None; message := Some (Text "Token is valid");
     payload := NoPayload |}.

(** [UserSchema.statics.findByCredentials]: the user, or the message of
    the error it throws. *)
Definition User_findByCredentials (env : Env) (st : Store)
    (email password : JS.string) : string + User.t :=
  match User_findOne env st email with
  | None => inl "Invalid email or password"
  | Some u =>
      if negb (comparePassword env u password)
      then inl "Invalid email or password"
      else inr u
  end.

(** ** The whole server *)

(** The database and the upload directory. *)
Record Server := {
  database : Store;
  disk : gset JS.string
}.

(** What a route replies with. *)
Inductive Answer :=
  | Reply (r : Response)
  | StatsReply (totalUsers totalProducts : nat)
  | ProfileReply (u : option UserProfile).

(** The routes of [Route] and the other routes of the three routers. *)
Inductive AnyRoute :=
  | Covered (r : Route)
  | GetMyProducts
  | GetPendingProducts
  | DeleteProduct (pid : ObjectId)
  | GetSearch (q : SearchQuery)
  | GetAdminStats
  | GetCart
  | DeleteCartItem (productId : JS.string)
  | DeleteCart
  | GetProfile
  | GetVerify.

Record AnyRequest := {
  header : Authorization;
  anyRoute : AnyRoute
}.

(** The method each route is registered with: [router.get], [router.post],
    [router.put], [router.delete]. *)
Inductive Method := GET | POST | PUT | DELETE.

Definition method (r : AnyRoute) : Method :=
  match r with
  | Covered (PostRegister _ _ _ _ _ _)
  | Covered (PostRegisterAdmin _ _ _ _ _ _ _)
  | Covered (PostLogin _ _)
  | Covered (PostProducts _ _ _ _)
  | Covered (PostCheckout _ _)
  | Covered (PostCartAdd _ _) => POST
  | Covered GetProductsPublic
  | Covered GetProducts
  | Covered (GetProduct _)
  | GetMyProducts
  | GetPendingProducts
  | GetSearch _
  | GetAdminStats
  | GetCart
  | GetProfile
  | GetVerify => GET
  | Covered (PutProductStatus _ _)
  | Covered (PutProductToggleActive _)
  | Covered (PutProduct _ _) => PUT
  | DeleteProduct _
  | DeleteCartItem _
  | DeleteCart => DELETE
  end.

(** A route behind [auth], on the server. *)
Definition behindAuth (sv : Server) (h : Authorization)
    (handler : ReqUser → Answer * Server) : Answer * Server :=
  match auth (database sv) h with
  | Send r => (Reply r, sv)
  | Next reqUser => handler reqUser
  end.

(** A route behind [[auth, adminAuth]], on the server. *)
Definition behindAdmin (sv : Server) (h : Authorization)
    (handler : ReqUser → Answer * Server) : Answer * Server :=
  behindAuth sv h (λ reqUser,
    match adminAuth (database sv) (Some reqUser) with
    | Send r => (Reply r, sv)
    | Next _ => handler reqUser
    end).

Definition onDatabase (sv : Server) (result : Response * Store)
  : Answer * Server :=
  (Reply result.1, {| database := result.2; disk := disk sv |}).

(** Every route with its middleware and its handler.  The create route
    runs multer between [auth] and the handler: an upload that multer
    refuses leaves nothing on the disk and does not reach the handler. *)
Definition handleAny (env : Env) (lib : Library) (sv : Server)
    (req : AnyRequest) : Answer * Server :=
  let st := database sv in
  let h := header req in
  match anyRoute req with
  | Covered (PostProducts body files oid now) =>
      behindAuth sv h (λ reqUser,
        if uploadAccepted files
        then
          let '(r, st', disk') :=
            createProductOnDisk st (multerWrite (disk sv) files) reqUser body
              files oid now in
          (Reply r, {| database := st'; disk := disk' |})
        else (Reply uploadRefused, sv))
  | Covered r =>
      onDatabase sv (handle env st {| authorization := h; route := r |})
  | GetMyProducts =>
      behindAuth sv h (λ reqUser, (Reply (getMyProducts st reqUser), sv))
  | GetPendingProducts =>
      behindAdmin sv h (λ _, (Reply (getPendingProducts st), sv))
  | DeleteProduct pid =>
      behindAuth sv h (λ reqUser,
        let '(r, st', disk') := deleteProduct st (disk sv) reqUser pid in
        (Reply r, {| database := st'; disk := disk' |}))
  | GetSearch q => (Reply (searchProducts lib st q), sv)
  | GetAdminStats =>
      behindAdmin sv h (λ _,
        (StatsReply (size (users st)) (size (products st)), sv))
  | GetCart => behindAuth sv h (λ reqUser, (Reply (getCart st reqUser), sv))
  | DeleteCartItem productId =>
      behindAuth sv h (λ reqUser,
        onDatabase sv (removeFromCart env st reqUser productId))
  | DeleteCart =>
      behindAuth sv h (λ reqUser, onDatabase sv (clearCart st reqUser))
  | GetProfile =>
      behindAuth sv h (λ reqUser, (ProfileReply (getProfile st reqUser), sv))
  | GetVerify => behindAuth sv h (λ _, (Reply getVerify, sv))
  end.

(** The server after a sequence of requests. *)
Definition serveAny (env : Env) (lib : Library) (sv : Server)
    (reqs : list AnyRequest) : Server :=
  foldl (λ s req, (handleAny env lib s req).2) sv reqs.

Definition freshServer : Server := {| database := emptyStore; disk := ∅ |}.

(** The states of the server: those that requests lead to from the empty
    database and the empty upload directory. *)
Definition reachableAny (env : Env) (lib : Library) (sv : Server) : Prop :=
  ∃ reqs, sv = serveAny env lib freshServer reqs.

(** ** What a request can change *)

(** The requester that [auth] lets through: the [_id] of a stored user. *)
Definition requester (st : Store) (rid : ObjectId) : Prop :=
  ∃ uid u, users st !! uid = Some u ∧ User._id u = rid.

(** The user as [User_save] stores it. *)
Definition storedUser (env : Env) (name email password : JS.string)
    (admin : bool) (salt : JS.string) (oid : ObjectId) (now : Date) : User.t :=
  {| User._id := oid; User.name := JS.trim name;
     User.email := emailSetters env email;
     User.password := bcrypt_hash env password salt;
     User.isAdmin := admin; User.createdAt := now; User.products := [] |}.

(** What a request can make of a stored product. *)
Inductive productStep (st : Store) (p : Product.t) : Product.t → Prop :=
  | step_moderate s :
      s = approved ∨ s = rejected → productStep st p (withStatus p s)
  | step_toggle :
      productStep st p (withIsActive p (negb (Product.isActive p)))
  | step_assign body :
      fieldError body = None →
      Product_validate
        [path_name; path_price; path_category; path_contactNumber]
        (assignFields p body) = [] →
      productStep st p (assignFields p body)
  | step_sell buyerId now address :
      requester st buyerId →
      Product.status p = approved →
      Product.isActive p = true →
      productStep st p (markSold p buyerId now address).

(** What a request can make of the line items of a cart, when the
    strings that it may ask to add are those of [asked]. *)
Inductive cartStep (env : Env) (asked : JS.string → Prop)
    (items : list CartItem) : list CartItem → Prop :=
  | step_add productId items' :
      asked productId →
      addItem env items productId = Some items' →
      cartStep env asked items items'
  | step_remove productId :
      cartStep env asked items (removeItem env items productId)
  | step_clear : cartStep env asked items [].

(** What a request other than the deletion of a product can make of the
    database. *)
Inductive Change (env : Env) (asked : JS.string → Prop) (st : Store)
  : Store → Prop :=
  | change_none : Change env asked st st
  | change_register name email password admin salt oid now :
      User_findOne env st email = None →
      User_valid env (newUser env name email password admin oid now) = true →
      users st !! oid = None →
      Change env asked st
        (setUsers st
           (<[oid := storedUser env name email password admin salt oid now]>
              (users st)))
  | change_create reqUser body files oid now :
      requester st (id reqUser) →
      fieldError body = None →
      noFiles files = false →
      Product_validate Product_allPaths
        (newProduct reqUser body (default [] files) oid now) = [] →
      products st !! oid = None →
      Change env asked st
        (setProducts st
           (<[oid := newProduct reqUser body (default [] files) oid now]>
              (products st)))
  | change_product pid p p' :
      products st !! pid = Some p →
      productStep st p p' →
      Change env asked st (Product_save st pid p')
  | change_cart uid key cart items' :
      Cart_findOne st uid = Some (key, cart) →
      cartStep env asked (Cart.items cart) items' →
      Change env asked st
        (setCarts st
           (<[key := {| Cart._id := Cart._id cart; Cart.user := Cart.user cart;
                        Cart.items := items' |}]> (carts st)))
  | change_newCart uid oid items' :
      requester st uid →
      Cart_findOne st uid = None →
      carts st !! oid = None →
      cartStep env asked [] items' →
      Change env asked st
        (setCarts st
           (<[oid := {| Cart._id := oid; Cart.user := uid;
                        Cart.items := items' |}]> (carts st))).

(** The string that a request asks the cart to add. *)
Definition asksToAdd (r : Route) (productId : JS.string) : Prop :=
  ∃ oid, r = PostCartAdd (Some productId) oid.

(** A string is spelled as its [ObjectId] prints: the cast of the string,
    when it has one, prints as the string. *)
Definition canonical (env : Env) (productId : JS.string) : Prop :=
  ∀ pid, castObjectId env productId = Some pid →
         ObjectId_toString env pid = productId.

(** The string that a request to the server asks the cart to add. *)
Definition asks (req : AnyRequest) (productId : JS.string) : Prop :=
  ∃ oid, anyRoute req = Covered (PostCartAdd (Some productId) oid).

(** The string that the request asks to add, if any, is spelled as its
    [ObjectId] prints. *)
Definition canonicalRequest (env : Env) (req : AnyRequest) : Prop :=
  ∀ productId, asks req productId → canonical env productId.

(** ** What the server keeps *)

Definition registered (st : Store) (uid : ObjectId) : Prop :=
  is_Some (users st !! uid).

(** A product that the validators of the schema accept, with an image, a
    registered seller and a coherent record of its sale: a registered buyer
    and a time, or neither of them, no address and a status other than
    [sold]. *)
Record soundProduct (st : Store) (p : Product.t) : Prop := {
  sound_valid : ∀ path, Product_validPath p path = true;
  sound_images : Product.images p ≠ [];
  sound_seller : registered st (Product.seller p);
  sound_sale :
    (∃ b, Product.buyer p = Some b ∧ registered st b
          ∧ is_Some (Product.soldAt p))
    ∨ (Product.buyer p = None ∧ Product.soldAt p = None
       ∧ Product.shippingAddress p = None ∧ Product.status p ≠ sold)
}.

(** A cart of a registered user in which every quantity is at least 1. *)
Record soundCart (st : Store) (c : Cart.t) : Prop := {
  sound_owner : registered st (Cart.user c);
  sound_quantities : Forall (λ item, 1 ≤ quantity item) (Cart.items c)
}.

(** No product has two line items in a cart. *)
Definition oneLinePerProduct (st : Store) : Prop :=
  ∀ k c, carts st !! k = Some c → NoDup (product <$> Cart.items c).

(** The product that a request deletes, when it is a deletion. *)
Definition deletion (req : AnyRequest) : option ObjectId :=
  match anyRoute req with
  | DeleteProduct pid => Some pid
  | _ => None
  end.

(** The routes in front of which no middleware stands. *)
Definition openRoute (r : AnyRoute) : bool :=
  match r with
  | Covered (PostRegister _ _ _ _ _ _)
  | Covered (PostRegisterAdmin _ _ _ _ _ _ _)
  | Covered (PostLogin _ _)
  | Covered GetProductsPublic
  | Covered (GetProduct _)
  | GetSearch _ => true
  | _ => false
  end.

(** The routes behind [adminAuth]. *)
Definition adminRoute (r : AnyRoute) : bool :=
  match r with
  | Covered (PutProductStatus _ _)
  | GetPendingProducts
  | GetAdminStats => true
  | _ => false
  end.

Record consistent (env : Env) (st : Store) : Prop := {
  users_keyed : ∀ k u, users st !! k = Some u → User._id u = k;
  products_keyed : ∀ k p, products st !! k = Some p → Product._id p = k;
  carts_keyed : ∀ k c, carts st !! k = Some c → Cart._id c = k;
  emails_distinct :
    ∀ k1 k2 u1 u2,
      users st !! k1 = Some u1 → users st !! k2 = Some u2 →
      User.email u1 = User.email u2 → k1 = k2;
  emails_set :
    ∀ k u, users st !! k = Some u →
      isEmail env (User.email u) = true
      ∧ ∃ email, User.email u = emailSetters env email;
  passwords_hashed :
    ∀ k u, users st !! k = Some u →
      ∃ password salt,
        User.password u = bcrypt_hash env password salt
        ∧ 6 ≤ length password;
  products_sound : ∀ k p, products st !! k = Some p → soundProduct st p;
  carts_sound : ∀ k c, carts st !! k = Some c → soundCart st c;
  carts_one : oneCartPerUser st
}.

(** What no route takes from a stored product: its [_id], its seller, its
    images, the time of its creation, and the buyer and the time of a sale
    once they are recorded. *)
Record keeps (p p' : Product.t) : Prop := {
  keeps_id : Product._id p' = Product._id p;
  keeps_seller : Product.seller p' = Product.seller p;
  keeps_images : Product.images p' = Product.images p;
  keeps_createdAt : Product.createdAt p' = Product.createdAt p;
  keeps_buyer : is_Some (Product.buyer p) → is_Some (Product.buyer p');
  keeps_soldAt : is_Some (Product.soldAt p) → is_Some (Product.soldAt p')
}.

(** ** More of the small marketplace *)

Module Tour.

Definition lamp : ObjectId := 11.

(** A library whose regular expressions test for the pattern as a prefix,
    and whose numbers are the digits of a price in whole units. *)
Definition library : Library :=
  {| regexTest := λ pattern, Some (λ text, JS.startsWith text pattern);
     parseFloat := λ s,
       if JS.eqb s (JS.str "10") then JS.Finite (10 # 1)
       else if JS.eqb s (JS.str "30") then JS.Finite (30 # 1)
       else JS.NaN;
     gte := λ x y,
       match x, y with
       | JS.Finite a, JS.Finite b => Qle_bool b a
       | _, _ => false
       end;
     lte := λ x y,
       match x, y with
       | JS.Finite a, JS.Finite b => Qle_bool a b
       | _, _ => false
       end |}.

(** The buyer's cart after the boots were added twice and a lamp once. *)
Definition withCart : Store :=
  (addToCart Sample.env
     (addToCart Sample.env
        (addToCart Sample.env Sample.listed (Sample.customer Sample.buyer)
           (Some Sample.bootsId) 20).2
        (Sample.customer Sample.buyer) (Some Sample.bootsId) 21).2
     (Sample.customer Sample.buyer) (Some (Sample.toHexString lamp)) 22).2.

(** A search for everything: no parameter but an empty [category]. *)
Definition everything : SearchQuery :=
  {| query := None; categoryParam := Some []; minPrice := None;
     maxPrice := None |}.

(** The upload directory with the photo of the boots. *)
Definition uploads : gset JS.string := {[ storedPath Sample.photo ]}.

(** A request to the routes of the claims, as a request to the server. *)
Definition ask (req : Request) : AnyRequest :=
  {| header := authorization req; anyRoute := Covered (route req) |}.

(** A day on the marketplace: the boots are listed and approved; the buyer
    puts them in the cart, buys them, and looks at the cart. *)
Definition day : list AnyRequest :=
  (ask <$> Sample.listing) ++
  [ {| header := ValidToken Sample.buyer;
       anyRoute := Covered (PostCartAdd (Some Sample.bootsId) 20) |};
    ask Sample.purchase;
    {| header := ValidToken Sample.buyer; anyRoute := GetCart |} ].

Definition evening : Server := serveAny Sample.env library freshServer day.

(** The next morning: the seller edits the boots, the administrator
    rejects them, and the buyer empties the cart. *)
Definition morning : list AnyRequest :=
  [ {| header := ValidToken Sample.seller;
       anyRoute := Covered (PutProduct Sample.boots Sample.renamed) |};
    {| header := ValidToken Sample.admin;
       anyRoute :=
         Covered (PutProductStatus Sample.boots
                    (Some (JS.str "rejected"))) |};
    {| header := ValidToken Sample.buyer; anyRoute := DeleteCart |} ].

End Tour.
(** * Properties *)

Local Open Scope list_scope.

(** ** Strings *)

Lemma JS_eqb_eq a b : JS.eqb a b = true ↔ a = b.
Proof. unfold JS.eqb. apply bool_decide_eq_true. Qed.

Lemma JS_eqb_refl a : JS.eqb a a = true.
Proof. by apply JS_eqb_eq. Qed.

Section Trim.










End Trim.

(** ** Queries on the product collection *)

Section Queries.

#[local] Instance newerOrEqual_transitive : Transitive newerOrEqual.
Proof. intros p q r. unfold newerOrEqual. lia. Qed.

#[local] Instance newerOrEqual_total : Total newerOrEqual.
Proof. intros p q. unfold newerOrEqual. lia. Qed.

Lemma sortNewestFirst_sorted l : StronglySorted newerOrEqual (sortNewestFirst l).
Proof. apply StronglySorted_merge_sort; apply _. Qed.

Lemma sortNewestFirst_perm l : sortNewestFirst l ≡ₚ l.
Proof. apply merge_sort_Permutation. Qed.

Lemma populateSeller_fst st (l : list Product.t) :
  (populateSeller st <$> l).*1 = l.
Proof. induction l as [|p l IH]; [done|]. simpl. f_equal. exact IH. Qed.

Lemma elem_of_Product_find st f p :
  p ∈ Product_find st f ↔ (∃ k, products st !! k = Some p) ∧ f p = true.
Proof.
  unfold Product_find. rewrite list_elem_of_filter, list_elem_of_fmap.
  split.
  - intros [Hf [[k q] [-> Hin]]]. apply elem_of_map_to_list in Hin. eauto.
  - intros [[k Hk] Hf]. split; [done|].
    exists (k, p). split; [done|]. by apply elem_of_map_to_list.
Qed.

Lemma elem_of_listing st f p :
  p ∈ (populateSeller st <$> sortNewestFirst (Product_find st f)).*1
  ↔ (∃ k, products st !! k = Some p) ∧ f p = true.
Proof.
  by rewrite populateSeller_fst, sortNewestFirst_perm, elem_of_Product_find.
Qed.

Lemma publicFilter_true p :
  publicFilter p = true ↔
  Product.status p = approved ∧ Product.isActive p = true
  ∧ Product.soldAt p = None.
Proof.
  unfold publicFilter, Status_eqb.
  rewrite !andb_true_iff, negb_true_iff, bool_decide_eq_true,
    bool_decide_eq_false.
  rewrite <-eq_None_not_Some. tauto.
Qed.

Lemma authenticatedFilter_true p :
  authenticatedFilter p = true ↔
  Product.status p = approved ∧ Product.isActive p = true.
Proof.
  unfold authenticatedFilter, Status_eqb.
  by rewrite andb_true_iff, bool_decide_eq_true.
Qed.

End Queries.

(** ** Listings *)

(** C4. Whatever the store holds, [GET /products/public] replies 200 with
    the products that are approved, active and unsold (no [soldAt]), each
    stored document once, newest first by [createdAt]; no product in the
    reply has status [sold] or is inactive. *)
Theorem public_listing_approved_active_unsold_newest_first (st : Store) :
  ∃ l : list (Product.t * option UserRef),
    getPublicProducts st
      = {| code := 200; success := None; message := None;
           payload := ProductList l |}
    ∧ l = populateSeller st <$> l.*1
    ∧ l.*1 ≡ₚ Product_find st publicFilter
    ∧ (∀ p, p ∈ l.*1 ↔
         (∃ k, products st !! k = Some p)
         ∧ Product.status p = approved
         ∧ Product.isActive p = true
         ∧ Product.soldAt p = None)
    ∧ StronglySorted newerOrEqual l.*1
    ∧ (∀ p, p ∈ l.*1 →
         Product.status p ≠ sold ∧ Product.isActive p ≠ false).
Proof.
  exists (populateSeller st <$> sortNewestFirst (Product_find st publicFilter)).
  rewrite populateSeller_fst.
  assert (Hmem : ∀ p, p ∈ sortNewestFirst (Product_find st publicFilter) ↔
            (∃ k, products st !! k = Some p)
            ∧ Product.status p = approved
            ∧ Product.isActive p = true
            ∧ Product.soldAt p = None).
  { intros p. rewrite sortNewestFirst_perm, elem_of_Product_find.
    by rewrite publicFilter_true. }
  repeat split.
  - apply sortNewestFirst_perm.
  - by apply Hmem.
  - by apply Hmem.
  - by apply Hmem.
  - by apply Hmem.
  - apply Hmem.
  - apply sortNewestFirst_sorted.
  - apply Hmem in H as (_ & Hs & _). congruence.
  - apply Hmem in H as (_ & _ & Ha & _). congruence.
Qed.

(** A product whose status is [sold] is in neither listing: both filters
    ask for the status [approved]. *)
Lemma sold_status_not_listed st p :
  Product.status p = sold →
  (p ∉ Product_find st authenticatedFilter)
  ∧ (p ∉ Product_find st publicFilter).
Proof.
  intros Hs. rewrite !elem_of_Product_find.
  rewrite authenticatedFilter_true, publicFilter_true.
  split; intros (_ & Hp & _); congruence.
Qed.

(** ** The single product *)

(** C10. [GET /products/:id] runs no middleware and applies no filter:
    whatever the [Authorization] header, and whatever the status and the
    active flag of the product stored under the identifier, the reply is
    200 with the whole document (its seller populated), and the store is
    left as it was. *)
Theorem single_product_is_public_and_unfiltered
    (env : Env) (st : Store) (h : Authorization) (pid : ObjectId)
    (p : Product.t) :
  products st !! pid = Some p →
  handle env st {| authorization := h; route := GetProduct pid |}
    = ({| code := 200; success := None; message := None;
          payload := ProductPopulated (Some (populateSeller st p)) |}, st)
  ∧ (populateSeller st p).1 = p.
Proof.
  intros Hp. split; [|done].
  unfold handle, getProductById, Product_findById. simpl. by rewrite Hp.
Qed.

Lemma single_product_is_public_and_unfiltered_witness :
  products Sample.afterSale !! Sample.boots = Some Sample.soldBoots
  ∧ Product.status Sample.soldBoots = sold
  ∧ Product.isActive Sample.soldBoots = false
  ∧ handle Sample.env Sample.afterSale
      {| authorization := NoToken; route := GetProduct Sample.boots |}
    = ({| code := 200; success := None; message := None;
          payload := ProductPopulated
            (Some (populateSeller Sample.afterSale Sample.soldBoots)) |},
       Sample.afterSale)
  ∧ (populateSeller Sample.afterSale Sample.soldBoots).1 = Sample.soldBoots.
Proof.
  assert (H : products Sample.afterSale !! Sample.boots
              = Some Sample.soldBoots) by (vm_compute; reflexivity).
  split; [exact H|]. split; [reflexivity|]. split; [reflexivity|].
  exact (single_product_is_public_and_unfiltered Sample.env Sample.afterSale
           NoToken Sample.boots Sample.soldBoots H).
Defined.

(** ** Update *)

(** C9. When [PUT /products/:id] replies 200, the stored product is the
    old one with the eight form fields assigned: its status, active flag,
    images, seller, buyer, sold time stamp and shipping address (and its
    identifier and creation time) are what they were, and no other document
    of the store is touched. *)
Theorem update_leaves_the_other_fields
    (st : Store) (reqUser : ReqUser) (pid : ObjectId) (body : ProductBody.t)
    (r : Response) (st' : Store) :
  updateProduct st reqUser pid body = (r, st') →
  code r = 200 →
  ∃ p p',
    products st !! pid = Some p
    ∧ products st' !! pid = Some p'
    ∧ payload r = ProductDoc p'
    ∧ p' = assignFields p body
    ∧ Product.status p' = Product.status p
    ∧ Product.isActive p' = Product.isActive p
    ∧ Product.images p' = Product.images p
    ∧ Product.seller p' = Product.seller p
    ∧ Product.buyer p' = Product.buyer p
    ∧ Product.soldAt p' = Product.soldAt p
    ∧ Product.shippingAddress p' = Product.shippingAddress p
    ∧ Product._id p' = Product._id p
    ∧ Product.createdAt p' = Product.createdAt p
    ∧ (∀ k, k ≠ pid → products st' !! k = products st !! k)
    ∧ users st' = users st
    ∧ carts st' = carts st.
Proof.
  unfold updateProduct, Product_findById.
  destruct (products st !! pid) as [p|] eqn:Hp;
    [|intros [= <- <-]; discriminate].
  destruct (_ && _); [intros [= <- <-]; discriminate|].
  destruct (fieldError body); [intros [= <- <-]; discriminate|].
  destruct (Product_validate _ _); [|intros [= <- <-]; discriminate].
  intros [= <- <-] _. exists p, (assignFields p body).
  unfold Product_save, setProducts. simpl.
  rewrite lookup_insert_eq.
  repeat split; try done.
  intros k Hk. by rewrite lookup_insert_ne.
Qed.

Lemma update_leaves_the_other_fields_witness :
  Sample.renaming = (Sample.renaming.1, Sample.renaming.2)
  ∧ code Sample.renaming.1 = 200
  ∧ ∃ p p',
      products Sample.afterSale !! Sample.boots = Some p
      ∧ products Sample.renaming.2 !! Sample.boots = Some p'
      ∧ payload Sample.renaming.1 = ProductDoc p'
      ∧ p' = assignFields p Sample.renamed
      ∧ Product.status p' = Product.status p
      ∧ Product.isActive p' = Product.isActive p
      ∧ Product.images p' = Product.images p
      ∧ Product.seller p' = Product.seller p
      ∧ Product.buyer p' = Product.buyer p
      ∧ Product.soldAt p' = Product.soldAt p
      ∧ Product.shippingAddress p' = Product.shippingAddress p
      ∧ Product._id p' = Product._id p
      ∧ Product.createdAt p' = Product.createdAt p
      ∧ (∀ k, k ≠ Sample.boots →
           products Sample.renaming.2 !! k = products Sample.afterSale !! k)
      ∧ users Sample.renaming.2 = users Sample.afterSale
      ∧ carts Sample.renaming.2 = carts Sample.afterSale.
Proof.
  assert (Hpair : Sample.renaming = (Sample.renaming.1, Sample.renaming.2))
    by (by destruct Sample.renaming).
  assert (Hcode : code Sample.renaming.1 = 200) by (vm_compute; reflexivity).
  split; [exact Hpair|]. split; [exact Hcode|].
  exact (update_leaves_the_other_fields Sample.afterSale
           (Sample.customer Sample.seller) Sample.boots Sample.renamed
           Sample.renaming.1 Sample.renaming.2 Hpair Hcode).
Defined.

(** ** Checkout *)

(** The reply to a purchase that went through. *)
Lemma checkoutUpdate_available st reqUser body now p :
  products st !! productId body = Some p →
  Product.status p = approved →
  Product.isActive p = true →
  checkoutUpdate st reqUser body now
  = ({| code := 200; success := Some true;
        message := Some (Text "Purchase completed successfully");
        payload := ProductDoc
          (markSold p (id reqUser) now (shippingAddressSent body)) |},
     Product_save st (productId body)
       (markSold p (id reqUser) now (shippingAddressSent body))).
Proof.
  intros Hp Hs Ha. unfold checkoutUpdate, Product_findOneAndUpdate.
  rewrite Hp, Hs, Ha. reflexivity.
Qed.

Lemma checkoutUpdate_unavailable st reqUser body now p :
  products st !! productId body = Some p →
  ¬ (Product.status p = approved ∧ Product.isActive p = true) →
  checkoutUpdate st reqUser body now = (failure 400 noLongerAvailable, st).
Proof.
  intros Hp Hn. unfold checkoutUpdate, Product_findOneAndUpdate.
  rewrite Hp.
  destruct (Status_eqb (Product.status p) approved && Product.isActive p)
    eqn:E; [|done].
  apply andb_true_iff in E as [E1 E2].
  apply bool_decide_eq_true in E1. tauto.
Qed.

Lemma checkoutChecks_available st body p :
  Product_findById st (productId body) = Some p →
  Product.status p = approved →
  Product.isActive p = true →
  checkoutChecks st body
  = if paymentRejected (paymentInfo body)
    then Some (failure 400 "Invalid payment information")
    else None.
Proof.
  intros Hp Hs Ha. unfold checkoutChecks. rewrite Hp, Hs, Ha. reflexivity.
Qed.

Lemma checkoutChecks_unavailable st body p :
  Product_findById st (productId body) = Some p →
  ¬ (Product.status p = approved ∧ Product.isActive p = true) →
  checkoutChecks st body = Some (failure 400 noLongerAvailable)
  ∨ checkoutChecks st body = Some (failure 400 notForPurchase).
Proof.
  intros Hp Hn. unfold checkoutChecks. rewrite Hp.
  destruct (Product.status p) eqn:Hs, (Product.isActive p) eqn:Ha;
    simpl; auto.
  tauto.
Qed.

(** C1, as the code has it.  A checkout request for an existing product
    goes through exactly when its payment information is complete and the
    product is approved and active.  It then replies 200, and the one
    conditional update (which matches exactly when the product is approved
    and active) has set the status to [sold], recorded the buyer and the
    time, stored the shipping address of the request (a request without
    one leaves the address of the product as it is) and cleared the active
    flag, leaving the other fields alone.  When the product is not approved
    and active the reply is the 400 "not available" (in one of its two
    wordings) and the store is unchanged; when the product is available but
    the payment information is incomplete the reply is 400 "Invalid payment
    information" and the store is unchanged. *)
Theorem checkout_sells_available_product_with_payment
    (st : Store) (reqUser : ReqUser) (body : CheckoutBody) (now : Date)
    (p : Product.t) :
  Product_findById st (productId body) = Some p →
  let available := Product.status p = approved ∧ Product.isActive p = true in
  let p' := markSold p (id reqUser) now (shippingAddressSent body) in
  (available ∧ paymentRejected (paymentInfo body) = false →
     checkout st reqUser body now
     = ({| code := 200; success := Some true;
           message := Some (Text "Purchase completed successfully");
           payload := ProductDoc p' |},
        Product_save st (productId body) p'))
  ∧ (available →
     Product_findOneAndUpdate st (productId body) (id reqUser) now
       (shippingAddressSent body)
     = (Some p', Product_save st (productId body) p'))
  ∧ (¬ available →
     Product_findOneAndUpdate st (productId body) (id reqUser) now
       (shippingAddressSent body)
     = (None, st))
  ∧ (¬ available →
       (checkout st reqUser body now = (failure 400 noLongerAvailable, st)
        ∨ checkout st reqUser body now = (failure 400 notForPurchase, st)))
  ∧ (available ∧ paymentRejected (paymentInfo body) = true →
       checkout st reqUser body now
       = (failure 400 "Invalid payment information", st))
  ∧ (success (checkout st reqUser body now).1 = Some true ↔
       available ∧ paymentRejected (paymentInfo body) = false)
  ∧ Product.status p' = sold
  ∧ Product.buyer p' = Some (id reqUser)
  ∧ Product.soldAt p' = Some now
  ∧ (∀ address, shippingAddressSent body = Some address →
       Product.shippingAddress p' = Some address)
  ∧ (shippingAddressSent body = None →
       Product.shippingAddress p' = Product.shippingAddress p)
  ∧ Product.isActive p' = false
  ∧ Product._id p' = Product._id p
  ∧ Product.name p' = Product.name p
  ∧ Product.price p' = Product.price p
  ∧ Product.images p' = Product.images p
  ∧ Product.category p' = Product.category p
  ∧ Product.size p' = Product.size p
  ∧ Product.color p' = Product.color p
  ∧ Product.location p' = Product.location p
  ∧ Product.contactNumber p' = Product.contactNumber p
  ∧ Product.description p' = Product.description p
  ∧ Product.seller p' = Product.seller p
  ∧ Product.createdAt p' = Product.createdAt p.
Proof.
  intros Hp available p'.
  assert (Hyes : available ∧ paymentRejected (paymentInfo body) = false →
            checkout st reqUser body now
            = ({| code := 200; success := Some true;
                  message := Some (Text "Purchase completed successfully");
                  payload := ProductDoc p' |},
               Product_save st (productId body) p')).
  { intros [[Hs Ha] Hpay]. unfold checkout.
    rewrite (checkoutChecks_available st body p Hp Hs Ha), Hpay.
    by apply checkoutUpdate_available. }
  assert (Hno : ¬ available →
            checkout st reqUser body now = (failure 400 noLongerAvailable, st)
            ∨ checkout st reqUser body now = (failure 400 notForPurchase, st)).
  { intros Hn. unfold checkout.
    destruct (checkoutChecks_unavailable st body p Hp Hn) as [-> | ->]; auto. }
  assert (Hpay : available ∧ paymentRejected (paymentInfo body) = true →
            checkout st reqUser body now
            = (failure 400 "Invalid payment information", st)).
  { intros [[Hs Ha] Hpay]. unfold checkout.
    by rewrite (checkoutChecks_available st body p Hp Hs Ha), Hpay. }
  split; [exact Hyes|].
  split; [|split; [|split; [exact Hno|split; [exact Hpay|split]]]].
  - intros [Hs Ha]. unfold Product_findOneAndUpdate.
    unfold Product_findById in Hp. by rewrite Hp, Hs, Ha.
  - intros Hn. unfold Product_findOneAndUpdate.
    unfold Product_findById in Hp. rewrite Hp.
    destruct (Status_eqb (Product.status p) approved && Product.isActive p)
      eqn:E; [|done].
    apply andb_true_iff in E as [E1 E2]. apply bool_decide_eq_true in E1.
    by destruct Hn.
  - split.
    + intros Hsucc.
      destruct (decide available) as [Hav|Hav].
      * destruct (paymentRejected (paymentInfo body)) eqn:Hpy; [|done].
        rewrite Hpay in Hsucc by done. discriminate.
      * destruct (Hno Hav) as [E|E]; rewrite E in Hsucc; discriminate.
    + intros H. by rewrite (Hyes H).
  - repeat split.
    + intros address Hsent. unfold p'. simpl. by rewrite Hsent.
    + intros Hsent. unfold p'. simpl. by rewrite Hsent.
Qed.

Lemma checkout_sells_available_product_with_payment_witness :
  Product_findById Sample.listed (productId (Sample.order (Some Sample.card)))
    = Some Sample.approvedBoots
  ∧ checkout Sample.listed (Sample.customer Sample.buyer)
      (Sample.order (Some Sample.card)) 300
    = ({| code := 200; success := Some true;
          message := Some (Text "Purchase completed successfully");
          payload := ProductDoc Sample.soldBoots |},
       Product_save Sample.listed Sample.boots Sample.soldBoots).
Proof.
  assert (H : Product_findById Sample.listed
                (productId (Sample.order (Some Sample.card)))
              = Some Sample.approvedBoots) by (vm_compute; reflexivity).
  split; [exact H|].
  apply (checkout_sells_available_product_with_payment Sample.listed
           (Sample.customer Sample.buyer) (Sample.order (Some Sample.card))
           300 Sample.approvedBoots H).
  split; [split|]; reflexivity.
Defined.

(** C1, as the specification words it, does not hold: the boots are
    approved and active, yet a checkout that carries no payment information
    is refused, and not as "not available". *)
Lemma checkout_without_payment_is_refused :
  Product_findById Sample.listed Sample.boots = Some Sample.approvedBoots
  ∧ Product.status Sample.approvedBoots = approved
  ∧ Product.isActive Sample.approvedBoots = true
  ∧ checkout Sample.listed (Sample.customer Sample.buyer) (Sample.order None)
      300
    = (failure 400 "Invalid payment information", Sample.listed)
  ∧ ¬ (success (checkout Sample.listed (Sample.customer Sample.buyer)
                  (Sample.order None) 300).1 = Some true
       ↔ Product.status Sample.approvedBoots = approved
         ∧ Product.isActive Sample.approvedBoots = true).
Proof.
  assert (H : checkout Sample.listed (Sample.customer Sample.buyer)
                (Sample.order None) 300
              = (failure 400 "Invalid payment information", Sample.listed))
    by (vm_compute; reflexivity).
  split; [vm_compute; reflexivity|].
  split; [reflexivity|]. split; [reflexivity|]. split; [exact H|].
  rewrite H. simpl. intros [_ Hback].
  specialize (Hback (conj eq_refl eq_refl)). discriminate.
Qed.

(** ** The life of a status *)

Lemma User_save_products env st u salt u' st' :
  User_save env st u salt = Some (u', st') → products st' = products st.
Proof.
  unfold User_save. destruct (negb _); [done|].
  destruct (users st !! User._id u); [done|]. by intros [= _ <-].
Qed.

Lemma register_products env st name email password salt oid now :
  products (register env st name email password salt oid now).2 = products st.
Proof.
  unfold register. destruct (User_findOne env st email); [done|].
  destruct (User_save _ _ _ _) as [[u st']|] eqn:E; [|done].
  simpl. by eapply User_save_products.
Qed.

Lemma registerAdmin_products env st name email password adminKey salt oid now :
  products (registerAdmin env st name email password adminKey salt oid now).2
  = products st.
Proof.
  unfold registerAdmin. destruct (negb _); [done|].
  destruct (User_findOne env st email); [done|].
  destruct (User_save _ _ _ _) as [[u st']|] eqn:E; [|done].
  simpl. by eapply User_save_products.
Qed.

Lemma addToCart_products env st reqUser productId oid :
  products (addToCart env st reqUser productId oid).2 = products st.
Proof.
  unfold addToCart. destruct (negb _); [done|].
  destruct (default _ _) as [key cart].
  destruct (addItem _ _ _); [|done].
  by destruct (bool_decide _).
Qed.

(** A stored product stays stored, and its status makes one move. *)
Ltac unmoved p := exists p; split; [done | apply move_stay].

Lemma createProduct_statusMove st reqUser body files oid now pid p :
  products st !! pid = Some p →
  ∃ p', products (createProduct st reqUser body files oid now).2 !! pid = Some p'
        ∧ statusMove (Product.status p) (Product.status p').
Proof.
  intros Hp. unfold createProduct.
  destruct (fieldError body); [unmoved p|].
  destruct (noFiles files); [unmoved p|].
  destruct (Product_validate _ _); [|unmoved p].
  destruct (products st !! oid) eqn:Hoid; [unmoved p|].
  simpl. rewrite lookup_insert_ne by congruence. unmoved p.
Qed.

Lemma updateStatus_statusMove st pid0 status pid p :
  products st !! pid = Some p →
  ∃ p', products (updateStatus st pid0 status).2 !! pid = Some p'
        ∧ statusMove (Product.status p) (Product.status p').
Proof.
  intros Hp. unfold updateStatus.
  destruct (moderationStatus status) as [s|] eqn:Hs; [|unmoved p].
  unfold Product_findById.
  destruct (products st !! pid0) as [q|] eqn:Hq; [|unmoved p].
  simpl. destruct (decide (pid0 = pid)) as [->|Hne].
  - rewrite lookup_insert_eq. eexists; split; [done|]. simpl.
    unfold moderationStatus in Hs. destruct status as [name|]; [|done].
    destruct (JS.eqb name (JS.str "approved")); [injection Hs as <-; constructor|].
    destruct (JS.eqb name (JS.str "rejected")); [injection Hs as <-; constructor|].
    done.
  - rewrite lookup_insert_ne by done. unmoved p.
Qed.

Lemma toggleActive_statusMove st reqUser pid0 pid p :
  products st !! pid = Some p →
  ∃ p', products (toggleActive st reqUser pid0).2 !! pid = Some p'
        ∧ statusMove (Product.status p) (Product.status p').
Proof.
  intros Hp. unfold toggleActive, Product_findById.
  destruct (products st !! pid0) as [q|] eqn:Hq; [|unmoved p].
  destruct (_ && _); [unmoved p|].
  simpl. destruct (decide (pid0 = pid)) as [->|Hne].
  - rewrite lookup_insert_eq. eexists; split; [done|]. simpl.
    assert (q = p) as -> by congruence. apply move_stay.
  - rewrite lookup_insert_ne by done. unmoved p.
Qed.

Lemma updateProduct_statusMove st reqUser pid0 body pid p :
  products st !! pid = Some p →
  ∃ p', products (updateProduct st reqUser pid0 body).2 !! pid = Some p'
        ∧ statusMove (Product.status p) (Product.status p').
Proof.
  intros Hp. unfold updateProduct, Product_findById.
  destruct (products st !! pid0) as [q|] eqn:Hq; [|unmoved p].
  destruct (_ && _); [unmoved p|].
  destruct (fieldError body); [unmoved p|].
  destruct (Product_validate _ _); [|unmoved p].
  simpl. destruct (decide (pid0 = pid)) as [->|Hne].
  - rewrite lookup_insert_eq. eexists; split; [done|]. simpl.
    assert (q = p) as -> by congruence. apply move_stay.
  - rewrite lookup_insert_ne by done. unmoved p.
Qed.

Lemma checkoutUpdate_statusMove st reqUser body now pid p :
  products st !! pid = Some p →
  ∃ p', products (checkoutUpdate st reqUser body now).2 !! pid = Some p'
        ∧ statusMove (Product.status p) (Product.status p').
Proof.
  intros Hp. unfold checkoutUpdate, Product_findOneAndUpdate.
  destruct (products st !! productId body) as [q|] eqn:Hq; [|unmoved p].
  destruct (Status_eqb (Product.status q) approved && Product.isActive q)
    eqn:E; [|unmoved p].
  simpl. destruct (decide (productId body = pid)) as [Heq|Hne].
  - rewrite Heq in *. rewrite lookup_insert_eq. eexists; split; [done|].
    simpl. assert (q = p) as -> by congruence.
    apply andb_true_iff in E as [E _]. apply bool_decide_eq_true in E.
    rewrite E. apply move_sell.
  - rewrite lookup_insert_ne by done. unmoved p.
Qed.

Lemma checkout_statusMove st reqUser body now pid p :
  products st !! pid = Some p →
  ∃ p', products (checkout st reqUser body now).2 !! pid = Some p'
        ∧ statusMove (Product.status p) (Product.status p').
Proof.
  intros Hp. unfold checkout.
  destruct (checkoutChecks st body); [unmoved p|].
  by apply checkoutUpdate_statusMove.
Qed.

Lemma handle_statusMove env st req pid p :
  products st !! pid = Some p →
  ∃ p', products (handle env st req).2 !! pid = Some p'
        ∧ statusMove (Product.status p) (Product.status p').
Proof.
  intros Hp. destruct req as [h r].
  destruct r; unfold handle, withAdmin, withAuth; cbn [route authorization].
  - rewrite register_products. unmoved p.
  - rewrite registerAdmin_products. unmoved p.
  - unmoved p.
  - destruct (auth st h); [|unmoved p].
    destruct (uploadAccepted files);
      [by apply createProduct_statusMove | unmoved p].
  - unmoved p.
  - destruct (auth st h); unmoved p.
  - destruct (auth st h) as [reqUser|]; [|unmoved p].
    destruct (adminAuth st (Some reqUser));
      [by apply updateStatus_statusMove | unmoved p].
  - destruct (auth st h); [by apply toggleActive_statusMove | unmoved p].
  - destruct (auth st h); [by apply updateProduct_statusMove | unmoved p].
  - unmoved p.
  - destruct (auth st h); [by apply checkout_statusMove | unmoved p].
  - destruct (auth st h); [|unmoved p].
    rewrite addToCart_products. unmoved p.
Qed.

Lemma statusMove_not_pending s s' :
  statusMove s s' → s ≠ pending → s' ≠ pending.
Proof. by destruct 1. Qed.

Lemma statusMove_to_sold s s' :
  statusMove s s' → s' = sold → s = sold ∨ s = approved.
Proof. destruct 1; auto; discriminate. Qed.

Lemma serve_statusMove env reqs : ∀ st pid p,
  products st !! pid = Some p →
  ∃ p', products (serve env st reqs) !! pid = Some p'
        ∧ rtc statusMove (Product.status p) (Product.status p').
Proof.
  induction reqs as [|req reqs IH]; intros st pid p Hp.
  - exists p. split; [done | apply rtc_refl].
  - destruct (handle_statusMove env st req pid p Hp) as (p1 & Hp1 & Hmove).
    destruct (IH _ pid p1 Hp1) as (p' & Hp' & Hmoves).
    exists p'. split; [exact Hp'|]. by eapply rtc_l.
Qed.

Lemma statusMoves_not_pending s s' :
  rtc statusMove s s' → s ≠ pending → s' ≠ pending.
Proof.
  induction 1 as [|s1 s2 s3 Hmove _ IH]; [done|].
  intros Hs. apply IH. by eapply statusMove_not_pending.
Qed.

Lemma checkout_of_sold st reqUser body now p :
  products st !! productId body = Some p →
  Product.status p = sold →
  checkout st reqUser body now = (failure 400 noLongerAvailable, st).
Proof.
  intros Hp Hs. unfold checkout, checkoutChecks, Product_findById.
  by rewrite Hp, Hs.
Qed.

(** C2, as the code has it.  Across any sequence of requests a stored
    product stays stored and its status makes only these moves: the
    moderation route sets it to [approved] or [rejected] from any status
    (also from [sold], and between [approved] and [rejected]), and the
    checkout takes [approved] to [sold].  Hence a status that has left
    [pending] does not return to it, a status becomes [sold] only from
    [approved], and the checkout of a product whose status is [sold] is
    refused and changes nothing. *)
Theorem status_moves_and_never_returns_to_pending
    (env : Env) (st : Store) (reqs : list Request) (pid : ObjectId)
    (p : Product.t) :
  products st !! pid = Some p →
  (∃ p', products (serve env st reqs) !! pid = Some p'
         ∧ rtc statusMove (Product.status p) (Product.status p')
         ∧ (Product.status p ≠ pending → Product.status p' ≠ pending))
  ∧ (∀ req, ∃ p', products (handle env st req).2 !! pid = Some p'
         ∧ statusMove (Product.status p) (Product.status p')
         ∧ (Product.status p' = sold →
              Product.status p = sold ∨ Product.status p = approved))
  ∧ (Product.status p = sold →
       ∀ reqUser body now, productId body = pid →
         checkout st reqUser body now = (failure 400 noLongerAvailable, st)).
Proof.
  intros Hp. split; [|split].
  - destruct (serve_statusMove env reqs st pid p Hp) as (p' & Hp' & Hmoves).
    exists p'. split; [done|]. split; [done|].
    by apply statusMoves_not_pending.
  - intros req.
    destruct (handle_statusMove env st req pid p Hp) as (p' & Hp' & Hmove).
    exists p'. split; [done|]. split; [done|].
    by apply statusMove_to_sold.
  - intros Hs reqUser body now <-. by eapply checkout_of_sold.
Qed.

Lemma status_moves_and_never_returns_to_pending_witness :
  products Sample.listed !! Sample.boots = Some Sample.approvedBoots
  ∧ (∃ p', products (serve Sample.env Sample.listed [Sample.purchase])
             !! Sample.boots = Some p'
           ∧ rtc statusMove (Product.status Sample.approvedBoots)
               (Product.status p')
           ∧ (Product.status Sample.approvedBoots ≠ pending →
                Product.status p' ≠ pending)).
Proof.
  assert (H : products Sample.listed !! Sample.boots
              = Some Sample.approvedBoots) by (vm_compute; reflexivity).
  split; [exact H|].
  exact (proj1 (status_moves_and_never_returns_to_pending Sample.env
                  Sample.listed [Sample.purchase] Sample.boots
                  Sample.approvedBoots H)).
Defined.

(** C2, as the specification words it, does not hold.  The boots are sold
    to the buyer; the administrator sets the sold boots to [approved] (a
    move out of [sold]) and switches them back on; the seller then buys
    them, and they are sold a second time, to another buyer.  All of it
    happens in a run of the server from the empty database. *)
Lemma sold_boots_are_sold_again :
  reachable Sample.env Sample.afterSale
  ∧ products Sample.afterSale !! Sample.boots = Some Sample.soldBoots
  ∧ Product.status Sample.soldBoots = sold
  ∧ Product.buyer Sample.soldBoots = Some Sample.buyer
  ∧ Product.status
      <$> products
            (handle Sample.env Sample.afterSale
               (Sample.request (ValidToken Sample.admin)
                  (PutProductStatus Sample.boots (Some (JS.str "approved"))))).2
          !! Sample.boots
    = Some approved
  ∧ Sample.afterSecondSale
    = serve Sample.env Sample.afterSale
        (Sample.relisting ++ [Sample.secondPurchase])
  ∧ Product.status <$> products Sample.afterSecondSale !! Sample.boots
    = Some sold
  ∧ Product.buyer <$> products Sample.afterSecondSale !! Sample.boots
    = Some (Some Sample.seller)
  ∧ Product.soldAt <$> products Sample.afterSecondSale !! Sample.boots
    = Some (Some 400).
Proof.
  split.
  { exists (Sample.listing ++ [Sample.purchase]). vm_compute. reflexivity. }
  repeat split; vm_compute; reflexivity.
Qed.

(** ** Two checkouts of one product *)

#[local] Arguments Nat.min : simpl never.

Lemma checkoutStep_progress st req t :
  Nat.min 2 (S (progress t)) ≤ progress (checkoutStep st req t).1.
Proof.
  destruct t; simpl.
  - destruct (checkoutChecks st _); simpl; lia.
  - destruct (checkoutUpdate _ _ _ _); simpl; lia.
  - lia.
Qed.

Lemma interleave_progress r1 r2 schedule : ∀ s,
  Nat.min 2 (progress (first s) + length (filter (λ b, b = false) schedule))
    ≤ progress (first (interleave r1 r2 schedule s))
  ∧ Nat.min 2 (progress (second s) + length (filter (λ b, b = true) schedule))
    ≤ progress (second (interleave r1 r2 schedule s)).
Proof.
  induction schedule as [|which schedule IH]; intros s.
  - simpl. lia.
  - specialize (IH (resume r1 r2 s which)).
    change (interleave r1 r2 (which :: schedule) s)
      with (interleave r1 r2 schedule (resume r1 r2 s which)).
    destruct which; rewrite !filter_cons; simpl;
      unfold resume in *.
    + pose proof (checkoutStep_progress (store s) r2 (second s)) as Hstep.
      destruct (checkoutStep _ r2 _) as [t st']; simpl in *. lia.
    + pose proof (checkoutStep_progress (store s) r1 (first s)) as Hstep.
      destruct (checkoutStep _ r1 _) as [t st']; simpl in *. lia.
Qed.

Section TwoCheckouts.

Variables (r1 r2 : CheckoutRequest) (pid : ObjectId).
Hypothesis same1 : productId (checkoutBody r1) = pid.
Hypothesis same2 : productId (checkoutBody r2) = pid.

Lemma failure_not_purchased c m :
  c ≠ 200 → purchased (Replied (failure c m)) = false.
Proof.
  intros Hc. unfold purchased. apply bool_decide_eq_false.
  intros [Hcode _]. simpl in Hcode. congruence.
Qed.

Lemma checkoutChecks_not_purchased st body r :
  checkoutChecks st body = Some r → purchased (Replied r) = false.
Proof.
  unfold checkoutChecks. destruct (Product_findById st (productId body)).
  - destruct (_ || _); [intros [= <-]; by apply failure_not_purchased|].
    destruct (negb _); [intros [= <-]; by apply failure_not_purchased|].
    destruct (paymentRejected _); [|done].
    intros [= <-]; by apply failure_not_purchased.
  - intros [= <-]; by apply failure_not_purchased.
Qed.

Lemma markSold_soldOut st q buyerId now address :
  soldOut (setProducts st (<[pid := markSold q buyerId now address]>
                             (products st))) pid.
Proof. eexists. simpl. rewrite lookup_insert_eq. done. Qed.

Lemma soldOut_not_available st : soldOut st pid → ¬ available st pid.
Proof. intros (q & Hq & Hs & _) (q' & Hq' & Hs' & _). congruence. Qed.

(** One step of a request in flight while the product is available. *)
Lemma checkoutStep_available st req t :
  productId (checkoutBody req) = pid →
  paymentRejected (paymentInfo (checkoutBody req)) = false →
  available st pid →
  waiting t →
  (checkoutStep st req t).2 = st ∧ waiting (checkoutStep st req t).1
  ∨ soldOut (checkoutStep st req t).2 pid
    ∧ purchased (checkoutStep st req t).1 = true.
Proof.
  intros Hpid Hpay (q & Hq & Hs & Ha) [-> | ->]; simpl.
  - left. rewrite <-Hpid in Hq.
    rewrite (checkoutChecks_available st _ q Hq Hs Ha), Hpay.
    split; [done | by right].
  - right. rewrite <-Hpid in Hq.
    rewrite (checkoutUpdate_available st _ _ _ q Hq Hs Ha). simpl.
    split; [|done]. rewrite Hpid. apply markSold_soldOut.
Qed.

(** One step of a request that has not bought, once the product is sold. *)
Lemma checkoutStep_soldOut st req t :
  productId (checkoutBody req) = pid →
  soldOut st pid →
  lost t →
  (checkoutStep st req t).2 = st ∧ lost (checkoutStep st req t).1.
Proof.
  intros Hpid (q & Hq & Hs & Ha) [[-> | ->] | ->]; simpl.
  - unfold checkoutChecks, Product_findById. rewrite Hpid, Hq, Hs. simpl.
    split; [done | by right].
  - rewrite <-Hpid in Hq.
    rewrite (checkoutUpdate_unavailable st _ _ _ q Hq) by (rewrite Hs; intros [? _]; done).
    split; [done | by right].
  - split; [done | by right].
Qed.

Lemma checkoutStep_purchased st req t :
  purchased t = true → checkoutStep st req t = (t, st).
Proof. by destruct t. Qed.

Lemma purchased_not_waiting t : purchased t = true → ¬ waiting t.
Proof. destruct t; intros H [?|?]; done. Qed.

Section BothPay.

Hypothesis pay1 : paymentRejected (paymentInfo (checkoutBody r1)) = false.
Hypothesis pay2 : paymentRejected (paymentInfo (checkoutBody r2)) = false.

Lemma resume_oneWinner s which :
  oneWinner pid s → oneWinner pid (resume r1 r2 s which).
Proof.
  intros [(Hav & Hw1 & Hw2) | (Hsold & Hwho)]; destruct which; unfold resume.
  - destruct (checkoutStep_available (store s) r2 (second s) same2 pay2 Hav Hw2)
      as [[Hst Hw] | [Hso Hp]];
      destruct (checkoutStep _ r2 _) as [t st']; simpl in *.
    + left. by subst st'.
    + right. split; [done|]. right. split; [by left | done].
  - destruct (checkoutStep_available (store s) r1 (first s) same1 pay1 Hav Hw1)
      as [[Hst Hw] | [Hso Hp]];
      destruct (checkoutStep _ r1 _) as [t st']; simpl in *.
    + left. by subst st'.
    + right. split; [done|]. left. split; [done | by left].
  - destruct Hwho as [[Hp Hl] | [Hl Hp]].
    + destruct (checkoutStep_soldOut (store s) r2 (second s) same2 Hsold Hl)
        as [Hst Hl'].
      destruct (checkoutStep _ r2 _) as [t st']; simpl in *. subst st'.
      right. split; [done|]. by left.
    + rewrite (checkoutStep_purchased _ _ _ Hp). simpl.
      right. split; [done|]. by right.
  - destruct Hwho as [[Hp Hl] | [Hl Hp]].
    + rewrite (checkoutStep_purchased _ _ _ Hp). simpl.
      right. split; [done|]. by left.
    + destruct (checkoutStep_soldOut (store s) r1 (first s) same1 Hsold Hl)
        as [Hst Hl'].
      destruct (checkoutStep _ r1 _) as [t st']; simpl in *. subst st'.
      right. split; [done|]. by right.
Qed.

Lemma interleave_oneWinner schedule : ∀ s,
  oneWinner pid s → oneWinner pid (interleave r1 r2 schedule s).
Proof.
  induction schedule as [|which schedule IH]; intros s Hs; [done|].
  apply IH, resume_oneWinner, Hs.
Qed.

End BothPay.

Lemma checkoutStep_cases st req t :
  productId (checkoutBody req) = pid →
  (checkoutStep st req t).2 = st
  ∧ purchased (checkoutStep st req t).1 = purchased t
  ∨ available st pid
    ∧ purchased t = false
    ∧ purchased (checkoutStep st req t).1 = true
    ∧ soldOut (checkoutStep st req t).2 pid.
Proof.
  intros Hpid. destruct t; simpl.
  - left. destruct (checkoutChecks st _) as [r|] eqn:E; simpl; [|done].
    split; [done|]. by eapply checkoutChecks_not_purchased.
  - unfold checkoutUpdate, Product_findOneAndUpdate. rewrite Hpid.
    destruct (products st !! pid) as [q|] eqn:Hq; [|by left].
    destruct (Status_eqb (Product.status q) approved && Product.isActive q)
      eqn:E; [|by left].
    right. apply andb_true_iff in E as [Hs Ha].
    apply bool_decide_eq_true in Hs.
    split; [by exists q|]. split; [done|]. split; [done|].
    apply markSold_soldOut.
  - by left.
Qed.

Lemma resume_atMostOneWinner s which :
  atMostOneWinner pid s → atMostOneWinner pid (resume r1 r2 s which).
Proof.
  intros [Hboth Hgone]. destruct which; unfold resume.
  - destruct (checkoutStep_cases (store s) r2 (second s) same2)
      as [[Hst Hp] | (Hav & Hnot & Hp & Hso)];
      destruct (checkoutStep _ r2 _) as [t st'];
      unfold atMostOneWinner; simpl in *.
    + subst st'. rewrite Hp. by split.
    + split.
      * intros [H1 _]. apply Hgone; [by left | done].
      * intros _. by apply soldOut_not_available.
  - destruct (checkoutStep_cases (store s) r1 (first s) same1)
      as [[Hst Hp] | (Hav & Hnot & Hp & Hso)];
      destruct (checkoutStep _ r1 _) as [t st'];
      unfold atMostOneWinner; simpl in *.
    + subst st'. rewrite Hp. by split.
    + split.
      * intros [_ H2]. apply Hgone; [by right | done].
      * intros _. by apply soldOut_not_available.
Qed.

Lemma interleave_atMostOneWinner schedule : ∀ s,
  atMostOneWinner pid s → atMostOneWinner pid (interleave r1 r2 schedule s).
Proof.
  induction schedule as [|which schedule IH]; intros s Hs; [done|].
  apply IH, resume_atMostOneWinner, Hs.
Qed.

End TwoCheckouts.

Lemma lost_replied t :
  lost t → progress t = 2 → refusedAsUnavailable t = true.
Proof.
  intros [[-> | ->] | ->]; [done|done|]. intros _.
  unfold refusedAsUnavailable. by apply bool_decide_eq_true.
Qed.

(** C3, as the code has it.  Two checkout requests for one product are in
    flight together and the event loop resumes them in any order.  They
    never both succeed.  When the product is approved and active, both
    requests carry complete payment information and each is resumed until
    it has replied, exactly one of them succeeds and the other is refused
    with the 400 "no longer available" reply; the product is then sold. *)
Theorem concurrent_checkouts_have_one_winner
    (st : Store) (r1 r2 : CheckoutRequest) (pid : ObjectId)
    (schedule : list bool) :
  productId (checkoutBody r1) = pid →
  productId (checkoutBody r2) = pid →
  ¬ (purchased (first (interleave r1 r2 schedule (bothStart st))) = true
     ∧ purchased (second (interleave r1 r2 schedule (bothStart st)))
       = true)
  ∧ (available st pid →
     paymentRejected (paymentInfo (checkoutBody r1)) = false →
     paymentRejected (paymentInfo (checkoutBody r2)) = false →
     complete schedule →
     soldOut (store (interleave r1 r2 schedule (bothStart st))) pid
     ∧ (purchased (first (interleave r1 r2 schedule (bothStart st)))
          = true
        ∧ refusedAsUnavailable
            (second (interleave r1 r2 schedule (bothStart st))) = true
        ∨ refusedAsUnavailable
            (first (interleave r1 r2 schedule (bothStart st))) = true
          ∧ purchased
              (second (interleave r1 r2 schedule (bothStart st)))
            = true)).
Proof.
  intros H1 H2. split.
  - apply (interleave_atMostOneWinner r1 r2 pid H1 H2 schedule).
    split; [intros [? _]; done | intros [?|?]; done].
  - intros Hav Hp1 Hp2 [Hc1 Hc2].
    pose proof (interleave_oneWinner r1 r2 pid H1 H2 Hp1 Hp2 schedule
                  (bothStart st)) as Hinv.
    destruct (interleave_progress r1 r2 schedule (bothStart st))
      as [Hd1 Hd2].
    simpl in Hd1, Hd2.
    set (finish := interleave r1 r2 schedule (bothStart st)) in *.
    assert (Hfin1 : progress (first finish) = 2).
    { destruct (first finish); simpl in *; lia. }
    assert (Hfin2 : progress (second finish) = 2).
    { destruct (second finish); simpl in *; lia. }
    destruct Hinv as [(_ & [E|E] & _) | (Hsold & Hwho)].
    + left. split; [done|]. split; [by left | by left].
    + rewrite E in Hfin1. discriminate.
    + rewrite E in Hfin1. discriminate.
    + split; [done|]. destruct Hwho as [[Hp Hl] | [Hl Hp]].
      * left. split; [done|]. by apply lost_replied.
      * right. split; [|done]. by apply lost_replied.
Qed.

Lemma concurrent_checkouts_have_one_winner_witness :
  productId (checkoutBody (Sample.bid Sample.buyer (Some Sample.card) 300))
    = Sample.boots
  ∧ productId (checkoutBody (Sample.bid Sample.seller (Some Sample.card) 301))
    = Sample.boots
  ∧ available Sample.listed Sample.boots
  ∧ paymentRejected
      (paymentInfo
         (checkoutBody (Sample.bid Sample.buyer (Some Sample.card) 300)))
    = false
  ∧ paymentRejected
      (paymentInfo
         (checkoutBody (Sample.bid Sample.seller (Some Sample.card) 301)))
    = false
  ∧ complete Sample.inTurn
  ∧ soldOut (store Sample.race) Sample.boots
  ∧ (purchased (first Sample.race) = true
     ∧ refusedAsUnavailable (second Sample.race) = true
     ∨ refusedAsUnavailable (first Sample.race) = true
       ∧ purchased (second Sample.race) = true).
Proof.
  assert (Hav : available Sample.listed Sample.boots).
  { exists Sample.approvedBoots. split; [vm_compute; reflexivity|].
    split; reflexivity. }
  assert (Hall : complete Sample.inTurn).
  { unfold complete, Sample.inTurn. simpl. lia. }
  split; [reflexivity|]. split; [reflexivity|]. split; [exact Hav|].
  split; [reflexivity|]. split; [reflexivity|]. split; [exact Hall|].
  exact (proj2
    (concurrent_checkouts_have_one_winner Sample.listed
       (Sample.bid Sample.buyer (Some Sample.card) 300)
       (Sample.bid Sample.seller (Some Sample.card) 301)
       Sample.boots Sample.inTurn eq_refl eq_refl)
    Hav eq_refl eq_refl Hall).
Defined.

(** C3, as the specification words it, does not hold: of two concurrent
    checkouts of the approved and active boots that carry no payment
    information, neither succeeds, and neither is told that the product is
    no longer available. *)
Lemma concurrent_checkouts_without_payment_have_no_winner :
  available Sample.listed Sample.boots
  ∧ complete Sample.inTurn
  ∧ first (interleave (Sample.bid Sample.buyer None 300)
             (Sample.bid Sample.seller None 301) Sample.inTurn
             (bothStart Sample.listed))
    = Replied (failure 400 "Invalid payment information")
  ∧ second (interleave (Sample.bid Sample.buyer None 300)
              (Sample.bid Sample.seller None 301) Sample.inTurn
              (bothStart Sample.listed))
    = Replied (failure 400 "Invalid payment information")
  ∧ purchased (Replied (failure 400 "Invalid payment information")) = false
  ∧ refusedAsUnavailable
      (Replied (failure 400 "Invalid payment information")) = false.
Proof.
  split.
  { exists Sample.approvedBoots. split; [vm_compute; reflexivity|].
    split; reflexivity. }
  split; [unfold complete, Sample.inTurn; simpl; lia|].
  repeat split; vm_compute; reflexivity.
Qed.

(** ** The two listings *)

Lemma registerAdmin_first env name email password salt oid now :
  User_valid env (newUser env name email password true oid now) = true →
  (registerAdmin env emptyStore name email password (ADMIN_KEY env) salt oid
     now).2
  = setUsers emptyStore
      {[ oid :=
           {| User._id := oid; User.name := JS.trim name;
              User.email := emailSetters env email;
              User.password := bcrypt_hash env password salt;
              User.isAdmin := true; User.createdAt := now;
              User.products := [] |} ]}.
Proof.
  intros Hvalid. unfold registerAdmin.
  rewrite bool_decide_eq_true_2 by done. simpl.
  unfold User_findOne. simpl. rewrite map_to_list_empty. simpl.
  unfold User_save. rewrite Hvalid. simpl. rewrite lookup_empty. simpl.
  by rewrite insert_empty.
Qed.

Lemma soloRun_products env :
  User_valid env (Sample.ada env) = true →
  products (serve env emptyStore (Sample.soloRun (ADMIN_KEY env)))
    !! Sample.boots
  = Some Sample.relistedBoots.
Proof.
  intros Hvalid.
  change (serve env emptyStore (Sample.soloRun (ADMIN_KEY env)))
    with (serve env
            (registerAdmin env emptyStore (JS.str "Ada")
               (JS.str "ada@market.io") (JS.str "secret-1") (ADMIN_KEY env)
               (JS.str "salt") Sample.admin 100).2
            (tail (Sample.soloRun (ADMIN_KEY env)))).
  rewrite registerAdmin_first; [|exact Hvalid].
  vm_compute. reflexivity.
Qed.

(** What [GET /products] replies with, on every store: the products that
    are approved and active, each stored document once, newest first. *)
Lemma getProducts_listing st reqUser :
  ∃ l : list (Product.t * option UserRef),
    getProducts st reqUser
      = {| code := 200; success := Some true;
           message := Some (Text "Products fetched successfully");
           payload := ProductList l |}
    ∧ l = populateSeller st <$> l.*1
    ∧ l.*1 ≡ₚ Product_find st authenticatedFilter
    ∧ (∀ p, p ∈ l.*1 ↔
         (∃ k, products st !! k = Some p)
         ∧ Product.status p = approved
         ∧ Product.isActive p = true)
    ∧ StronglySorted newerOrEqual l.*1.
Proof.
  exists (populateSeller st
            <$> sortNewestFirst (Product_find st authenticatedFilter)).
  rewrite populateSeller_fst.
  split; [done|]. split; [done|]. split; [apply sortNewestFirst_perm|].
  split; [|apply sortNewestFirst_sorted].
  intros p. rewrite sortNewestFirst_perm, elem_of_Product_find.
  by rewrite authenticatedFilter_true.
Qed.

(** C5, as the code has it.  Whatever the store holds, [GET /products]
    replies 200 with the products that are approved and active, each stored
    document once, newest first; it does not look at [soldAt], so that the
    public listing is the authenticated one without the products that have
    a [soldAt].  A product whose status is [sold] is never in the reply.
    And where the validators of the user schema accept the registration of
    the administrator, there is a run of the server from the empty database
    after which a product that has been sold, with its buyer and the time
    of the sale on record, is in the reply of [GET /products] while
    [GET /products/public] leaves it out: in that run the product was
    approved and switched on again after the sale. *)
Theorem authenticated_listing_keeps_sold_items (env : Env) :
  User_valid env (Sample.ada env) = true →
  (∀ st reqUser,
     ∃ l : list (Product.t * option UserRef),
       getProducts st reqUser
         = {| code := 200; success := Some true;
              message := Some (Text "Products fetched successfully");
              payload := ProductList l |}
       ∧ l = populateSeller st <$> l.*1
       ∧ l.*1 ≡ₚ Product_find st authenticatedFilter
       ∧ (∀ p, p ∈ l.*1 ↔
            (∃ k, products st !! k = Some p)
            ∧ Product.status p = approved
            ∧ Product.isActive p = true)
       ∧ StronglySorted newerOrEqual l.*1
       ∧ (∀ p, p ∈ l.*1 → Product.status p ≠ sold)
       ∧ (∀ l', payload (getPublicProducts st) = ProductList l' →
            ∀ p, p ∈ l'.*1 ↔ p ∈ l.*1 ∧ Product.soldAt p = None))
  ∧ ∃ (st : Store) (p : Product.t) (l : list (Product.t * option UserRef)),
      reachable env st
      ∧ (∃ k, products st !! k = Some p)
      ∧ is_Some (Product.soldAt p)
      ∧ is_Some (Product.buyer p)
      ∧ Product.status p = approved
      ∧ (∀ reqUser,
           getProducts st reqUser
           = {| code := 200; success := Some true;
                message := Some (Text "Products fetched successfully");
                payload := ProductList l |})
      ∧ p ∈ l.*1
      ∧ (∀ l', payload (getPublicProducts st) = ProductList l' → p ∉ l'.*1).
Proof.
  intros Hvalid. split.
  { intros st reqUser.
    destruct (getProducts_listing st reqUser)
      as (l & Hreply & Hpop & Hperm & Hmem & Hsorted).
    exists l. split; [done|]. split; [done|]. split; [done|].
    split; [done|]. split; [done|]. split.
    - intros p Hin. apply Hmem in Hin as (_ & Hs & _). congruence.
    - intros l' [= <-] p. rewrite elem_of_listing, publicFilter_true, Hmem.
      tauto. }
  pose proof (soloRun_products env Hvalid) as Hboots.
  exists (serve env emptyStore (Sample.soloRun (ADMIN_KEY env))),
    Sample.relistedBoots,
    (populateSeller (serve env emptyStore (Sample.soloRun (ADMIN_KEY env)))
       <$> sortNewestFirst
             (Product_find (serve env emptyStore (Sample.soloRun (ADMIN_KEY env)))
                authenticatedFilter)).
  split; [by exists (Sample.soloRun (ADMIN_KEY env))|].
  split; [by exists Sample.boots|].
  split; [by exists 300|]. split; [by exists Sample.admin|].
  split; [reflexivity|].
  split; [reflexivity|]. split.
  - apply (proj2 (elem_of_listing _ authenticatedFilter Sample.relistedBoots)).
    split; [by exists Sample.boots | reflexivity].
  - intros l' Hl'. unfold getPublicProducts in Hl'. cbn [payload] in Hl'.
    assert (Hl : l' = populateSeller
                        (serve env emptyStore (Sample.soloRun (ADMIN_KEY env)))
                        <$> sortNewestFirst
                              (Product_find
                                 (serve env emptyStore
                                    (Sample.soloRun (ADMIN_KEY env)))
                                 publicFilter)) by congruence.
    rewrite Hl. intros Hin.
    apply (proj1 (elem_of_listing _ publicFilter Sample.relistedBoots)) in Hin.
    destruct Hin as [_ Hpub]. vm_compute in Hpub. discriminate.
Qed.

Lemma authenticated_listing_keeps_sold_items_witness :
  User_valid Sample.env (Sample.ada Sample.env) = true
  ∧ ∃ (st : Store) (p : Product.t) (l : list (Product.t * option UserRef)),
      reachable Sample.env st
      ∧ (∃ k, products st !! k = Some p)
      ∧ is_Some (Product.soldAt p)
      ∧ is_Some (Product.buyer p)
      ∧ Product.status p = approved
      ∧ (∀ reqUser,
           getProducts st reqUser
           = {| code := 200; success := Some true;
                message := Some (Text "Products fetched successfully");
                payload := ProductList l |})
      ∧ p ∈ l.*1
      ∧ (∀ l', payload (getPublicProducts st) = ProductList l' → p ∉ l'.*1).
Proof.
  assert (H : User_valid Sample.env (Sample.ada Sample.env) = true)
    by (vm_compute; reflexivity).
  split; [exact H|].
  exact (proj2 (authenticated_listing_keeps_sold_items Sample.env H)).
Defined.

(** C5, as the specification words it, does not hold.  Once the buyer has
    bought the boots they are stored with the status [sold], and the reply
    of [GET /products] is empty; and on no store is a product whose status
    is [sold] in that reply. *)
Lemma sold_boots_are_not_in_the_authenticated_listing :
  reachable Sample.env Sample.afterSale
  ∧ products Sample.afterSale !! Sample.boots = Some Sample.soldBoots
  ∧ Product.status Sample.soldBoots = sold
  ∧ payload (getProducts Sample.afterSale (Sample.customer Sample.buyer))
    = ProductList []
  ∧ ¬ ∃ (st : Store) (reqUser : ReqUser) (p : Product.t)
        (l : list (Product.t * option UserRef)),
        payload (getProducts st reqUser) = ProductList l
        ∧ Product.status p = sold
        ∧ p ∈ l.*1.
Proof.
  split; [by exists (Sample.listing ++ [Sample.purchase])|].
  split; [vm_compute; reflexivity|]. split; [reflexivity|].
  split; [vm_compute; reflexivity|].
  intros (st & reqUser & p & l & Hl & Hsold & Hin).
  unfold getProducts in Hl. cbn [payload] in Hl.
  assert (l = populateSeller st
                <$> sortNewestFirst (Product_find st authenticatedFilter))
    as -> by congruence.
  apply elem_of_listing in Hin as [_ Hf].
  apply authenticatedFilter_true in Hf as [Hs _]. congruence.
Qed.

(** ** Login and registration *)

Lemma User_findOne_is_Some env st email k u :
  users st !! k = Some u →
  User.email u = emailSetters env email →
  is_Some (User_findOne env st email).
Proof.
  intros Hu Hmail. unfold User_findOne.
  destruct (List.find _ _) as [found|] eqn:E; [by eexists|].
  exfalso. eapply find_none in E.
  - rewrite Hmail, JS_eqb_refl in E. discriminate.
  - apply list_elem_of_In, list_elem_of_fmap. exists (k, u).
    split; [done|]. by apply elem_of_map_to_list.
Qed.

Lemma User_findOne_found env st email u :
  User_findOne env st email = Some u →
  (∃ k, users st !! k = Some u) ∧ User.email u = emailSetters env email.
Proof.
  unfold User_findOne. intros E. apply find_some in E as [Hin Heq].
  apply list_elem_of_In, list_elem_of_fmap in Hin as ([k u'] & -> & Hin).
  apply elem_of_map_to_list in Hin. apply JS_eqb_eq in Heq. eauto.
Qed.

(** C8.  A login with the wrong password for the user that an e-mail
    address belongs to gets the very reply of a login with an address that
    belongs to nobody: 400 with the message "Invalid credentials".  And a
    registration with an address that belongs to a user is refused with 400
    "User already exists" and stores nothing. *)
Theorem login_failures_alike_and_taken_email_refused
    (env : Env) (st : Store) (known unknown : JS.string)
    (wrong anyPassword : JS.string) (u : User.t) :
  User_findOne env st known = Some u →
  comparePassword env u wrong = false →
  User_findOne env st unknown = None →
  login env st known wrong = login env st unknown anyPassword
  ∧ login env st known wrong = failure 400 "Invalid credentials"
  ∧ (∀ name password salt oid now,
       register env st name known password salt oid now
       = (failure 400 "User already exists", st))
  ∧ (∀ k u' name email password salt oid now,
       users st !! k = Some u' →
       User.email u' = emailSetters env email →
       register env st name email password salt oid now
       = (failure 400 "User already exists", st)).
Proof.
  intros Hknown Hwrong Hunknown. unfold login.
  rewrite Hknown, Hunknown, Hwrong. simpl.
  split; [done|]. split; [done|]. split.
  - intros. unfold register. by rewrite Hknown.
  - intros k u' name email password salt oid now Hu' Hmail.
    unfold register.
    by destruct (User_findOne_is_Some env st email k u' Hu' Hmail) as [? ->].
Qed.

Lemma login_failures_alike_and_taken_email_refused_witness :
  User_findOne Sample.env Sample.listed (JS.str "sam@market.io")
  = Some Sample.sam
  ∧ comparePassword Sample.env Sample.sam (JS.str "guess") = false
  ∧ User_findOne Sample.env Sample.listed (JS.str "eve@market.io") = None
  ∧ login Sample.env Sample.listed (JS.str "sam@market.io") (JS.str "guess")
    = login Sample.env Sample.listed (JS.str "eve@market.io")
        (JS.str "secret-2")
  ∧ login Sample.env Sample.listed (JS.str "sam@market.io") (JS.str "guess")
    = failure 400 "Invalid credentials"
  ∧ register Sample.env Sample.listed (JS.str "Sam")
      (JS.str "sam@market.io") (JS.str "secret-9") (JS.str "pepper") 4 500
    = (failure 400 "User already exists", Sample.listed).
Proof.
  assert (H1 : User_findOne Sample.env Sample.listed (JS.str "sam@market.io")
               = Some Sample.sam)
    by (vm_compute; reflexivity).
  assert (H2 : comparePassword Sample.env Sample.sam (JS.str "guess") = false)
    by (vm_compute; reflexivity).
  assert (H3 : User_findOne Sample.env Sample.listed (JS.str "eve@market.io")
               = None)
    by (vm_compute; reflexivity).
  destruct (login_failures_alike_and_taken_email_refused Sample.env
              Sample.listed (JS.str "sam@market.io")
              (JS.str "eve@market.io") (JS.str "guess") (JS.str "secret-2")
              Sample.sam H1 H2 H3) as (Hsame & Hreply & Htaken & _).
  split; [exact H1|]. split; [exact H2|]. split; [exact H3|].
  split; [exact Hsame|]. split; [exact Hreply|].
  exact (Htaken (JS.str "Sam") (JS.str "secret-9") (JS.str "pepper") 4 500).
Defined.

(** ** Creation *)










Lemma Product_validate_nil paths p :
  (∀ path, Product_validPath p path = true) →
  Product_validate paths p = [].
Proof.
  intros Hall. unfold Product_validate.
  induction paths as [|path paths IH]; [done|].
  rewrite filter_cons, IH. destruct (decide _) as [E|_]; [|done].
  rewrite Hall in E. discriminate.
Qed.





(** ** The cart *)

Lemma addItem_present env items productId :
  (∃ item, item ∈ items ∧ sameProduct env productId item) →
  ∃ i item,
    items !! i = Some item
    ∧ sameProduct env productId item
    ∧ (∀ j other, items !! j = Some other → j < i →
         ¬ sameProduct env productId other)
    ∧ addItem env items productId
      = Some (<[i := {| product := product item;
                        quantity := quantity item + 1 |}]> items).
Proof.
  intros (item0 & Hin & Hpid). unfold addItem.
  destruct (list_find _ items) as [[i item]|] eqn:E.
  - apply list_find_Some in E as (Hi & Hp & Hfirst).
    exists i, item. unfold incremented. eauto.
  - apply list_find_None in E. rewrite Forall_forall in E.
    by destruct (E item0 Hin).
Qed.

Lemma addItem_absent env items productId :
  (∀ item, item ∈ items → ¬ sameProduct env productId item) →
  addItem env items productId
  = (λ pid, items ++ [{| product := pid; quantity := 1 |}])
      <$> castObjectId env productId.
Proof.
  intros Hnone. unfold addItem.
  destruct (list_find _ items) as [[i item]|] eqn:E; [|done].
  apply list_find_Some in E as (Hi & Hp & _).
  destruct (Hnone item); [|done]. by eapply list_elem_of_lookup_2.
Qed.

(** A second add of a string that is spelled as its [ObjectId] prints finds
    the line item that the first one pushed. *)
Lemma addItem_twice env items productId pid :
  (∀ item, item ∈ items → ¬ sameProduct env productId item) →
  castObjectId env productId = Some pid →
  ObjectId_toString env pid = productId →
  addItem env (items ++ [{| product := pid; quantity := 1 |}]) productId
  = Some (items ++ [{| product := pid; quantity := 2 |}]).
Proof.
  intros Hnone Hcast Hprint. unfold addItem.
  destruct (list_find _ _) as [[i item]|] eqn:E.
  - apply list_find_Some in E as (Hi & Hp & Hfirst).
    destruct (decide (i < length items)) as [Hlt|Hge].
    + rewrite lookup_app_l in Hi by done.
      destruct (Hnone item); [|done]. by eapply list_elem_of_lookup_2.
    + assert (i = length items) as ->.
      { apply lookup_lt_Some in Hi. rewrite length_app in Hi. simpl in Hi.
        lia. }
      rewrite list_lookup_middle in Hi by done. injection Hi as <-.
      rewrite insert_app_r_alt by lia. rewrite Nat.sub_diag. reflexivity.
  - apply list_find_None in E. rewrite Forall_app, Forall_singleton in E.
    by destruct E as [_ []].
Qed.

Lemma one_line_after_two items pid :
  (∀ item, item ∈ items → product item ≠ pid) →
  filter (λ item, product item = pid)
         (items ++ [{| product := pid; quantity := 2 |}])
  = [{| product := pid; quantity := 2 |}].
Proof.
  intros Hnone. rewrite filter_app.
  replace (filter _ items) with (@nil CartItem).
  - rewrite filter_cons. simpl. by destruct (decide (pid = pid)).
  - symmetry. induction items as [|item items IH]; [done|].
    rewrite filter_cons. destruct (decide _) as [E|_].
    + destruct (Hnone item); [by left | done].
    + apply IH. intros ? ?. apply Hnone. by right.
Qed.

Lemma Cart_findOne_found st uid k cart :
  Cart_findOne st uid = Some (k, cart) →
  carts st !! k = Some cart ∧ Cart.user cart = uid.
Proof.
  unfold Cart_findOne. intros E. apply find_some in E as [Hin Heq].
  apply list_elem_of_In, elem_of_map_to_list in Hin.
  apply Nat.eqb_eq in Heq. done.
Qed.

Lemma Cart_findOne_none st uid k cart :
  Cart_findOne st uid = None →
  carts st !! k = Some cart → Cart.user cart ≠ uid.
Proof.
  unfold Cart_findOne. intros E Hk Hu.
  apply find_none with (x := (k, cart)) in E.
  - simpl in E. apply Nat.eqb_neq in E. done.
  - by apply list_elem_of_In, elem_of_map_to_list.
Qed.

Lemma Cart_findOne_unique st uid k cart :
  carts st !! k = Some cart →
  Cart.user cart = uid →
  (∀ k' cart', carts st !! k' = Some cart' → Cart.user cart' = uid → k' = k) →
  Cart_findOne st uid = Some (k, cart).
Proof.
  intros Hk Hu Hone.
  destruct (Cart_findOne st uid) as [[k' cart']|] eqn:E.
  - apply Cart_findOne_found in E as [Hk' Hu'].
    assert (k' = k) as -> by eauto. congruence.
  - by destruct (Cart_findOne_none st uid k cart E Hk).
Qed.

(** The add handler on the cart of the user, when the string of the
    request is not empty and [addItem] yields line items: it replies 200,
    and the line items of the user become those. *)
Lemma addToCart_cartItems env st reqUser productId oid items' :
  oneCartPerUser st →
  freshIfNeeded st (id reqUser) oid →
  JS.truthy productId = true →
  addItem env (cartItems st (id reqUser)) productId = Some items' →
  code (addToCart env st reqUser (Some productId) oid).1 = 200
  ∧ cartItems (addToCart env st reqUser (Some productId) oid).2 (id reqUser)
    = items'
  ∧ oneCartPerUser (addToCart env st reqUser (Some productId) oid).2
  ∧ Cart_findOne (addToCart env st reqUser (Some productId) oid).2
      (id reqUser) ≠ None.
Proof.
  intros Hone Hfresh Htruthy. unfold addToCart, cartItems.
  cbn [JS.optTruthy]. rewrite Htruthy. cbn [negb].
  destruct (Cart_findOne st (id reqUser)) as [[k c]|] eqn:E;
    intros Hadd; cbn -[addItem]; rewrite Hadd.
  - destruct (Cart_findOne_found _ _ _ _ E) as [Hk Hu]. simpl.
    set (c' := {| Cart._id := Cart._id c; Cart.user := Cart.user c;
                  Cart.items := items' |}).
    set (st' := setCarts st (<[k := c']> (carts st))).
    assert (Hfound : Cart_findOne st' (id reqUser) = Some (k, c')).
    { apply Cart_findOne_unique; [apply lookup_insert_eq | done |].
      intros k' cart' Hk' Hu'. destruct (decide (k' = k)) as [|Hne]; [done|].
      simpl in Hk'. rewrite lookup_insert_ne in Hk' by done.
      apply (Hone k' k cart' c Hk' Hk). congruence. }
    rewrite Hfound. split; [done|]. split; [done|]. split; [|done].
    intros k1 k2 c1 c2 H1 H2 Hsame. simpl in H1, H2.
    destruct (decide (k1 = k)) as [->|Hne1], (decide (k2 = k)) as [->|Hne2];
      [done | | | ].
    + rewrite lookup_insert_eq in H1. injection H1 as <-.
      rewrite lookup_insert_ne in H2 by done.
      symmetry. by apply (Hone k2 k c2 c H2 Hk).
    + rewrite lookup_insert_eq in H2. injection H2 as <-.
      rewrite lookup_insert_ne in H1 by done.
      by apply (Hone k1 k c1 c H1 Hk).
    + rewrite lookup_insert_ne in H1, H2 by done. by eapply Hone.
  - pose proof (Hfresh E) as Hoid.
    rewrite bool_decide_eq_false_2
      by (rewrite Hoid; intros [_ [? ?]]; done). simpl.
    set (c' := {| Cart._id := oid; Cart.user := id reqUser;
                  Cart.items := items' |}).
    set (st' := setCarts st (<[oid := c']> (carts st))).
    assert (Hfound : Cart_findOne st' (id reqUser) = Some (oid, c')).
    { apply Cart_findOne_unique; [apply lookup_insert_eq | done |].
      intros k' cart' Hk' Hu'. destruct (decide (k' = oid)) as [|Hne]; [done|].
      simpl in Hk'. rewrite lookup_insert_ne in Hk' by done.
      by destruct (Cart_findOne_none st (id reqUser) k' cart' E Hk'). }
    rewrite Hfound. split; [done|]. split; [done|]. split; [|done].
    intros k1 k2 c1 c2 H1 H2 Hsame. simpl in H1, H2.
    destruct (decide (k1 = oid)) as [->|Hne1], (decide (k2 = oid)) as [->|Hne2];
      [done | | | ].
    + rewrite lookup_insert_eq in H1. injection H1 as <-.
      rewrite lookup_insert_ne in H2 by done.
      destruct (Cart_findOne_none st (id reqUser) k2 c2 E H2). by rewrite <-Hsame.
    + rewrite lookup_insert_eq in H2. injection H2 as <-.
      rewrite lookup_insert_ne in H1 by done.
      by destruct (Cart_findOne_none st (id reqUser) k1 c1 E H1).
    + rewrite lookup_insert_ne in H1, H2 by done. by eapply Hone.
Qed.

(** When the string is not found in the cart and does not cast, saving the
    cart fails: the reply is 500 and nothing is stored. *)
Lemma addToCart_failed env st reqUser productId oid :
  addItem env (cartItems st (id reqUser)) productId = None →
  JS.truthy productId = true →
  addToCart env st reqUser (Some productId) oid
  = (failure 500 "Error adding to cart", st).
Proof.
  unfold addToCart, cartItems. intros Hadd Htruthy.
  cbn [JS.optTruthy]. rewrite Htruthy. cbn [negb].
  destruct (Cart_findOne st (id reqUser)) as [[k c]|];
    cbn -[addItem] in Hadd |- *; by rewrite Hadd.
Qed.

(** C6, at a request where the handler departs from it.  The cart of the
    buyer holds the boots, added under their [_id] as it prints.  A second
    add of the boots, under the same [_id] with its letter in upper case,
    replies 200 and pushes a second line item of the boots: the cart has
    two line items of the product, each with quantity 1, and not one with
    quantity 2.  The same add under the [_id] as it prints does give the
    one line item with quantity 2. *)
Theorem cart_add_in_upper_case_makes_a_second_line_item :
  let buyer := Sample.customer Sample.buyer in
  let first :=
    (addToCart Sample.env Sample.listed buyer (Some Sample.bootsId) 20).2 in
  castObjectId Sample.env Sample.bootsId = Some Sample.boots
  ∧ castObjectId Sample.env Sample.bootsIdUpper = Some Sample.boots
  ∧ cartItems first Sample.buyer
    = [{| product := Sample.boots; quantity := 1 |}]
  ∧ code (addToCart Sample.env first buyer (Some Sample.bootsIdUpper) 21).1
    = 200
  ∧ cartItems
      (addToCart Sample.env first buyer (Some Sample.bootsIdUpper) 21).2
      Sample.buyer
    = [{| product := Sample.boots; quantity := 1 |};
       {| product := Sample.boots; quantity := 1 |}]
  ∧ cartItems
      (addToCart Sample.env first buyer (Some Sample.bootsId) 21).2
      Sample.buyer
    = [{| product := Sample.boots; quantity := 2 |}].
Proof. vm_compute. repeat split. Qed.

(** * Properties of the other routes *)

(** ** Removing from the cart and clearing it *)

(** Replacing the line items of the one cart of a user. *)
Lemma replaceItems_cartItems st key cart items' :
  oneCartPerUser st →
  carts st !! key = Some cart →
  cartItems
    (setCarts st
       (<[key := {| Cart._id := Cart._id cart; Cart.user := Cart.user cart;
                    Cart.items := items' |}]> (carts st)))
    (Cart.user cart) = items'
  ∧ (∀ other, other ≠ Cart.user cart →
       cartItems
         (setCarts st
            (<[key := {| Cart._id := Cart._id cart;
                         Cart.user := Cart.user cart;
                         Cart.items := items' |}]> (carts st))) other
       = cartItems st other)
  ∧ oneCartPerUser
      (setCarts st
         (<[key := {| Cart._id := Cart._id cart; Cart.user := Cart.user cart;
                      Cart.items := items' |}]> (carts st))).
Proof.
  intros Hone Hkey.
  set (cart' := {| Cart._id := Cart._id cart; Cart.user := Cart.user cart;
                   Cart.items := items' |}).
  set (st' := setCarts st (<[key := cart']> (carts st))).
  assert (Hone' : oneCartPerUser st').
  { intros k1 k2 c1 c2 H1 H2 Hsame. simpl in H1, H2.
    destruct (decide (k1 = key)) as [->|Hne1],
             (decide (k2 = key)) as [->|Hne2]; [done | | |].
    - rewrite lookup_insert_eq in H1. injection H1 as <-.
      rewrite lookup_insert_ne in H2 by done.
      symmetry. by apply (Hone k2 key c2 cart H2 Hkey).
    - rewrite lookup_insert_eq in H2. injection H2 as <-.
      rewrite lookup_insert_ne in H1 by done.
      by apply (Hone k1 key c1 cart H1 Hkey).
    - rewrite lookup_insert_ne in H1, H2 by done. by eapply Hone. }
  split; [|split; [|exact Hone']].
  - unfold cartItems.
    rewrite (Cart_findOne_unique st' (Cart.user cart) key cart'); [done | | |].
    + apply lookup_insert_eq.
    + done.
    + intros k' c' Hk' Hu'.
      apply (Hone' k' key c' cart' Hk'); [apply lookup_insert_eq | done].
  - intros other Hother. unfold cartItems.
    destruct (Cart_findOne st other) as [[k c]|] eqn:E.
    + apply Cart_findOne_found in E as [Hk Hu].
      assert (k ≠ key) by (intros ->; congruence).
      rewrite (Cart_findOne_unique st' other k c); [done | | done |].
      * simpl. by rewrite lookup_insert_ne.
      * intros k' c' Hk' Hu'. apply (Hone' k' k c' c Hk'); [|congruence].
        simpl. by rewrite lookup_insert_ne.
    + destruct (Cart_findOne st' other) as [[k c]|] eqn:E'; [|done].
      apply Cart_findOne_found in E' as [Hk Hu]. simpl in Hk.
      destruct (decide (k = key)) as [->|Hne].
      * rewrite lookup_insert_eq in Hk. injection Hk as <-. done.
      * rewrite lookup_insert_ne in Hk by done.
        by destruct (Cart_findOne_none st other k c E Hk).
Qed.

Lemma elem_of_removeItem env items productId item :
  item ∈ removeItem env items productId
  ↔ item ∈ items ∧ ObjectId_toString env (product item) ≠ productId.
Proof. unfold removeItem, sameProduct. rewrite list_elem_of_filter. tauto. Qed.

Lemma removeFromCart_cartItems env st reqUser productId :
  oneCartPerUser st →
  (Cart_findOne st (id reqUser) = None →
   removeFromCart env st reqUser productId
   = (failure 404 "Cart not found", st))
  ∧ (Cart_findOne st (id reqUser) ≠ None →
     cartItems (removeFromCart env st reqUser productId).2 (id reqUser)
     = removeItem env (cartItems st (id reqUser)) productId).
Proof.
  intros Hone. unfold removeFromCart.
  remember (id reqUser) as uid eqn:Huid. clear Huid.
  destruct (Cart_findOne st uid) as [[key cart]|] eqn:E;
    (split; [done|]); [|done].
  intros _. destruct (Cart_findOne_found _ _ _ _ E) as [Hkey Huser].
  subst uid.
  destruct (replaceItems_cartItems st key cart
              (removeItem env (Cart.items cart) productId) Hone Hkey)
    as (Hmine & _).
  simpl. rewrite Hmine. unfold cartItems. by rewrite E.
Qed.

(** X1.  [DELETE /cart/remove/:productId] replies 404 and changes nothing
    when the user has no cart.  Otherwise it replies 200, and the cart
    keeps, in their order, exactly the line items whose product does not
    print as the string of the path: the handler compares
    [item.product.toString()] with the string as it was sent, so that the
    [_id] of a product in another spelling removes nothing.  The carts of
    the other users, the products and the users are untouched. *)
Theorem cart_remove_drops_the_product
    (env : Env) (st : Store) (reqUser : ReqUser) (productId : JS.string) :
  oneCartPerUser st →
  (Cart_findOne st (id reqUser) = None →
   removeFromCart env st reqUser productId
   = (failure 404 "Cart not found", st))
  ∧ (Cart_findOne st (id reqUser) ≠ None →
     code (removeFromCart env st reqUser productId).1 = 200
     ∧ cartItems (removeFromCart env st reqUser productId).2 (id reqUser)
       = removeItem env (cartItems st (id reqUser)) productId
     ∧ (∀ item,
          item ∈ cartItems (removeFromCart env st reqUser productId).2
                   (id reqUser) ↔
          item ∈ cartItems st (id reqUser)
          ∧ ObjectId_toString env (product item) ≠ productId)
     ∧ cartItems (removeFromCart env st reqUser productId).2 (id reqUser)
         `sublist_of` cartItems st (id reqUser)
     ∧ (∀ other, other ≠ id reqUser →
          cartItems (removeFromCart env st reqUser productId).2 other
          = cartItems st other)
     ∧ products (removeFromCart env st reqUser productId).2 = products st
     ∧ users (removeFromCart env st reqUser productId).2 = users st
     ∧ oneCartPerUser (removeFromCart env st reqUser productId).2).
Proof.
  intros Hone. unfold removeFromCart.
  remember (id reqUser) as uid eqn:Huid. clear Huid.
  destruct (Cart_findOne st uid) as [[key cart]|] eqn:E;
    (split; [done|]); [|done].
  intros _. destruct (Cart_findOne_found _ _ _ _ E) as [Hkey Huser].
  subst uid.
  destruct (replaceItems_cartItems st key cart
              (removeItem env (Cart.items cart) productId) Hone Hkey)
    as (Hmine & Hothers & Hone').
  simpl.
  assert (Hbefore : cartItems st (Cart.user cart) = Cart.items cart).
  { unfold cartItems. by rewrite E. }
  rewrite Hmine, Hbefore.
  split; [done|]. split; [done|]. split; [apply elem_of_removeItem|].
  split; [apply sublist_filter|]. done.
Qed.

Lemma listed_oneCartPerUser : oneCartPerUser Sample.listed.
Proof.
  assert (Hempty : carts Sample.listed = ∅) by (vm_compute; reflexivity).
  intros k1 k2 c1 c2 Hk1. rewrite Hempty, lookup_empty in Hk1. done.
Qed.

Lemma listed_fresh oid :
  freshIfNeeded Sample.listed (id (Sample.customer Sample.buyer)) oid.
Proof.
  intros _. assert (Hempty : carts Sample.listed = ∅)
    by (vm_compute; reflexivity).
  by rewrite Hempty, lookup_empty.
Qed.

Lemma withCart_oneCartPerUser : oneCartPerUser Tour.withCart.
Proof.
  destruct (addToCart_cartItems Sample.env Sample.listed
              (Sample.customer Sample.buyer) Sample.bootsId 20
              [{| product := Sample.boots; quantity := 1 |}]
              listed_oneCartPerUser (listed_fresh 20) eq_refl)
    as (_ & I1 & H1 & N1); [vm_compute; reflexivity|].
  destruct (addToCart_cartItems Sample.env _ (Sample.customer Sample.buyer)
              Sample.bootsId 21
              [{| product := Sample.boots; quantity := 2 |}]
              H1 (λ E, False_rect _ (N1 E)) eq_refl)
    as (_ & I2 & H2 & N2); [rewrite I1; vm_compute; reflexivity|].
  destruct (addToCart_cartItems Sample.env _ (Sample.customer Sample.buyer)
              (Sample.toHexString Tour.lamp) 22
              [{| product := Sample.boots; quantity := 2 |};
               {| product := Tour.lamp; quantity := 1 |}]
              H2 (λ E, False_rect _ (N2 E)) eq_refl)
    as (_ & _ & H3 & _); [rewrite I2; vm_compute; reflexivity|].
  exact H3.
Qed.

Lemma cart_remove_drops_the_product_witness :
  oneCartPerUser Tour.withCart
  ∧ Cart_findOne Tour.withCart (id (Sample.customer Sample.buyer)) ≠ None
  ∧ cartItems
      (removeFromCart Sample.env Tour.withCart (Sample.customer Sample.buyer)
         Sample.bootsId).2 (id (Sample.customer Sample.buyer))
    = removeItem Sample.env
        (cartItems Tour.withCart (id (Sample.customer Sample.buyer)))
        Sample.bootsId
  ∧ cartItems Tour.withCart (id (Sample.customer Sample.buyer))
    = [{| product := Sample.boots; quantity := 2 |};
       {| product := Tour.lamp; quantity := 1 |}]
  ∧ cartItems
      (removeFromCart Sample.env Tour.withCart (Sample.customer Sample.buyer)
         Sample.bootsId).2 (id (Sample.customer Sample.buyer))
    = [{| product := Tour.lamp; quantity := 1 |}]
  ∧ cartItems
      (removeFromCart Sample.env Tour.withCart (Sample.customer Sample.buyer)
         Sample.bootsIdUpper).2 (id (Sample.customer Sample.buyer))
    = [{| product := Sample.boots; quantity := 2 |};
       {| product := Tour.lamp; quantity := 1 |}].
Proof.
  assert (H1 : oneCartPerUser Tour.withCart) by apply withCart_oneCartPerUser.
  assert (H2 : Cart_findOne Tour.withCart (id (Sample.customer Sample.buyer))
               ≠ None) by (vm_compute; discriminate).
  split; [exact H1|]. split; [exact H2|].
  split; [|split; [|split]; vm_compute; reflexivity].
  exact (proj1 (proj2 (proj2
    (cart_remove_drops_the_product Sample.env Tour.withCart
       (Sample.customer Sample.buyer) Sample.bootsId H1) H2))).
Defined.

(** X2.  [DELETE /cart/clear] replies 404 and changes nothing when the user
    has no cart.  Otherwise it replies 200 "Cart cleared", the cart of the
    user is empty afterwards (it is kept, not deleted), and the carts of
    the other users, the products and the users are untouched. *)
Theorem cart_clear_empties_the_cart (st : Store) (reqUser : ReqUser) :
  oneCartPerUser st →
  (Cart_findOne st (id reqUser) = None →
   clearCart st reqUser = (failure 404 "Cart not found", st))
  ∧ (Cart_findOne st (id reqUser) ≠ None →
     (clearCart st reqUser).1
     = {| code := 200; success := Some true;
          message := Some (Text "Cart cleared"); payload := NoPayload |}
     ∧ cartItems (clearCart st reqUser).2 (id reqUser) = []
     ∧ Cart_findOne (clearCart st reqUser).2 (id reqUser) ≠ None
     ∧ (∀ other, other ≠ id reqUser →
          cartItems (clearCart st reqUser).2 other = cartItems st other)
     ∧ products (clearCart st reqUser).2 = products st
     ∧ users (clearCart st reqUser).2 = users st
     ∧ oneCartPerUser (clearCart st reqUser).2).
Proof.
  intros Hone. unfold clearCart.
  remember (id reqUser) as uid eqn:Huid. clear Huid.
  destruct (Cart_findOne st uid) as [[key cart]|] eqn:E;
    (split; [done|]); [|done].
  intros _. destruct (Cart_findOne_found _ _ _ _ E) as [Hkey Huser].
  subst uid.
  destruct (replaceItems_cartItems st key cart [] Hone Hkey)
    as (Hmine & Hothers & Hone').
  simpl. split; [done|]. split; [exact Hmine|]. split; [|done].
  intros Hnone.
  apply (Cart_findOne_none _ _ key
           {| Cart._id := Cart._id cart; Cart.user := Cart.user cart;
              Cart.items := [] |} Hnone); [|reflexivity].
  simpl. apply lookup_insert_eq.
Qed.

Lemma cart_clear_empties_the_cart_witness :
  oneCartPerUser Tour.withCart
  ∧ Cart_findOne Tour.withCart (id (Sample.customer Sample.buyer)) ≠ None
  ∧ cartItems (clearCart Tour.withCart (Sample.customer Sample.buyer)).2
      (id (Sample.customer Sample.buyer)) = []
  ∧ Cart_findOne (clearCart Tour.withCart (Sample.customer Sample.buyer)).2
      (id (Sample.customer Sample.buyer)) ≠ None.
Proof.
  assert (H1 : oneCartPerUser Tour.withCart) by apply withCart_oneCartPerUser.
  assert (H2 : Cart_findOne Tour.withCart (id (Sample.customer Sample.buyer))
               ≠ None) by (vm_compute; discriminate).
  split; [exact H1|]. split; [exact H2|].
  destruct (proj2 (cart_clear_empties_the_cart Tour.withCart
                     (Sample.customer Sample.buyer) H1) H2)
    as (_ & Hempty & Hkept & _).
  split; [exact Hempty | exact Hkept].
Defined.

(** An add makes no difference to a removal of the same string, when the
    string is spelled as its [ObjectId] prints. *)
Lemma removeItem_addItem env items productId items' :
  canonical env productId →
  addItem env items productId = Some items' →
  removeItem env items' productId = removeItem env items productId.
Proof.
  intros Hcanonical. unfold addItem, removeItem.
  destruct (list_find _ items) as [[i item]|] eqn:E.
  - intros [= <-]. apply list_find_Some in E as (Hi & Hp & _).
    rewrite <-(take_drop_middle items i item Hi) at 2.
    rewrite insert_take_drop by (by eapply lookup_lt_Some).
    rewrite !filter_app, !filter_cons.
    rewrite !decide_False by (by intros []). done.
  - destruct (castObjectId env productId) as [pid|] eqn:Hcast; [|done].
    intros [= <-]. rewrite filter_app, filter_cons.
    rewrite decide_False; [by rewrite app_nil_r|].
    intros Hnot. apply Hnot. by apply Hcanonical.
Qed.

Lemma removeItem_absent env items productId :
  (∀ item, item ∈ items → ¬ sameProduct env productId item) →
  removeItem env items productId = items.
Proof.
  intros Hnone. unfold removeItem.
  induction items as [|item items IH]; [done|].
  rewrite filter_cons, decide_True by (apply Hnone; by left).
  f_equal. apply IH. intros ? ?. apply Hnone. by right.
Qed.

(** X3.  Removing a product after adding it leaves the cart as a removal
    alone would, when the string of the two requests is spelled as its
    [ObjectId] prints (24 digits in lower case): the line items of the
    other products are left, whatever the quantity the product had
    reached.  So an add followed by a remove gives back the line items of a
    cart that did not have the product. *)
Theorem cart_add_then_remove
    (env : Env) (st : Store) (reqUser : ReqUser) (productId : JS.string)
    (oid : ObjectId) :
  oneCartPerUser st →
  freshIfNeeded st (id reqUser) oid →
  JS.truthy productId = true →
  canonical env productId →
  cartItems
    (removeFromCart env (addToCart env st reqUser (Some productId) oid).2
       reqUser productId).2
    (id reqUser)
  = removeItem env (cartItems st (id reqUser)) productId
  ∧ ((∀ item, item ∈ cartItems st (id reqUser) →
        ¬ sameProduct env productId item) →
     cartItems
       (removeFromCart env (addToCart env st reqUser (Some productId) oid).2
          reqUser productId).2
       (id reqUser)
     = cartItems st (id reqUser)).
Proof.
  intros Hone Hfresh Htruthy Hcanonical.
  assert (Hremoved :
    cartItems
      (removeFromCart env (addToCart env st reqUser (Some productId) oid).2
         reqUser productId).2 (id reqUser)
    = removeItem env (cartItems st (id reqUser)) productId).
  { destruct (addItem env (cartItems st (id reqUser)) productId)
      as [items'|] eqn:Hadd.
    - destruct (addToCart_cartItems env st reqUser productId oid items'
                  Hone Hfresh Htruthy Hadd) as (_ & Hitems & Hone' & Hcart).
      rewrite (proj2 (removeFromCart_cartItems env _ reqUser productId Hone')
                 Hcart), Hitems.
      by apply removeItem_addItem.
    - rewrite (addToCart_failed env st reqUser productId oid Hadd Htruthy).
      cbn [snd].
      destruct (Cart_findOne st (id reqUser)) as [found|] eqn:E.
      + apply (removeFromCart_cartItems env st reqUser productId Hone).
        by rewrite E.
      + rewrite (proj1 (removeFromCart_cartItems env st reqUser productId
                          Hone) E).
        cbn [snd]. unfold cartItems. by rewrite E. }
  split; [exact Hremoved|].
  intros Hnone. rewrite Hremoved. by apply removeItem_absent.
Qed.

Lemma bootsId_canonical : canonical Sample.env Sample.bootsId.
Proof. intros pid [= <-]. vm_compute. reflexivity. Qed.

Lemma cart_add_then_remove_witness :
  oneCartPerUser Sample.listed
  ∧ freshIfNeeded Sample.listed (id (Sample.customer Sample.buyer)) 20
  ∧ JS.truthy Sample.bootsId = true
  ∧ canonical Sample.env Sample.bootsId
  ∧ cartItems Sample.listed (id (Sample.customer Sample.buyer)) = []
  ∧ cartItems
      (removeFromCart Sample.env
         (addToCart Sample.env Sample.listed (Sample.customer Sample.buyer)
            (Some Sample.bootsId) 20).2
         (Sample.customer Sample.buyer) Sample.bootsId).2
      (id (Sample.customer Sample.buyer))
    = removeItem Sample.env
        (cartItems Sample.listed (id (Sample.customer Sample.buyer)))
        Sample.bootsId.
Proof.
  assert (H1 : oneCartPerUser Sample.listed) by apply listed_oneCartPerUser.
  assert (H2 : freshIfNeeded Sample.listed
                 (id (Sample.customer Sample.buyer)) 20)
    by apply listed_fresh.
  assert (H3 : canonical Sample.env Sample.bootsId)
    by apply bootsId_canonical.
  split; [exact H1|]. split; [exact H2|]. split; [reflexivity|].
  split; [exact H3|]. split; [vm_compute; reflexivity|].
  exact (proj1 (cart_add_then_remove Sample.env Sample.listed
                  (Sample.customer Sample.buyer) Sample.bootsId 20 H1 H2
                  eq_refl H3)).
Defined.

(** X27.  The add handler, as it compares: the string of the request with
    the [_id] of each line item as it prints.  In a store where no user has
    two carts and for a string that is not empty: when a line item prints
    as the string, the reply is 200 and the first such item gets its
    quantity incremented by 1, nothing else changing; when none does and
    the string casts to an [ObjectId], the reply is 200 and a line item of
    that product with quantity 1 is appended (to the empty list when the
    user had no cart), and, if the string is spelled as the [ObjectId]
    prints, a second add leaves that one line item with quantity 2; when
    none does and the string does not cast, the reply is 500 and nothing is
    stored.  Without a string, or with the empty one, the reply is 400. *)
Theorem cart_add_increments_or_inserts
    (env : Env) (st : Store) (reqUser : ReqUser) (productId : JS.string)
    (oid oid' : ObjectId) :
  oneCartPerUser st →
  freshIfNeeded st (id reqUser) oid →
  JS.truthy productId = true →
  ((∃ item, item ∈ cartItems st (id reqUser)
            ∧ sameProduct env productId item) →
     code (addToCart env st reqUser (Some productId) oid).1 = 200
     ∧ ∃ i item,
         cartItems st (id reqUser) !! i = Some item
         ∧ sameProduct env productId item
         ∧ (∀ j other, cartItems st (id reqUser) !! j = Some other → j < i →
              ¬ sameProduct env productId other)
         ∧ cartItems (addToCart env st reqUser (Some productId) oid).2
             (id reqUser)
           = <[i := {| product := product item;
                       quantity := quantity item + 1 |}]>
               (cartItems st (id reqUser)))
  ∧ ((∀ item, item ∈ cartItems st (id reqUser) →
        ¬ sameProduct env productId item) →
     ∀ pid, castObjectId env productId = Some pid →
       code (addToCart env st reqUser (Some productId) oid).1 = 200
       ∧ cartItems (addToCart env st reqUser (Some productId) oid).2
           (id reqUser)
         = cartItems st (id reqUser) ++ [{| product := pid; quantity := 1 |}]
       ∧ (ObjectId_toString env pid = productId →
          cartItems
            (addToCart env
               (addToCart env st reqUser (Some productId) oid).2 reqUser
               (Some productId) oid').2 (id reqUser)
          = cartItems st (id reqUser)
            ++ [{| product := pid; quantity := 2 |}]))
  ∧ ((∀ item, item ∈ cartItems st (id reqUser) →
        ¬ sameProduct env productId item) →
     castObjectId env productId = None →
     addToCart env st reqUser (Some productId) oid
     = (failure 500 "Error adding to cart", st))
  ∧ addToCart env st reqUser None oid
    = (failure 400 "Product ID is required", st)
  ∧ addToCart env st reqUser (Some []) oid
    = (failure 400 "Product ID is required", st).
Proof.
  intros Hone Hfresh Htruthy.
  split; [|split; [|split; [|done]]].
  - intros Hin.
    destruct (addItem_present env _ productId Hin)
      as (i & item & Hi & Hp & Hfirst & Hadd).
    destruct (addToCart_cartItems env st reqUser productId oid _ Hone Hfresh
                Htruthy Hadd) as (Hcode & Hitems & _).
    split; [done|]. by exists i, item.
  - intros Hnone pid Hcast.
    pose proof (addItem_absent env _ productId Hnone) as Hadd.
    rewrite Hcast in Hadd. cbn [fmap option_fmap option_map] in Hadd.
    destruct (addToCart_cartItems env st reqUser productId oid _ Hone Hfresh
                Htruthy Hadd) as (Hcode & Hitems & Hone' & Hcart).
    split; [done|]. split; [done|]. intros Hprint.
    pose proof (addItem_twice env _ productId pid Hnone Hcast Hprint)
      as Hadd'.
    rewrite <-Hitems in Hadd'.
    by destruct (addToCart_cartItems env _ reqUser productId oid' _ Hone'
                   (λ E, False_rect _ (Hcart E)) Htruthy Hadd')
      as (_ & Hitems' & _).
  - intros Hnone Hcast.
    pose proof (addItem_absent env _ productId Hnone) as Hadd.
    rewrite Hcast in Hadd. by apply addToCart_failed.
Qed.

Lemma cart_add_increments_or_inserts_witness :
  oneCartPerUser Sample.listed
  ∧ freshIfNeeded Sample.listed (id (Sample.customer Sample.buyer)) 20
  ∧ JS.truthy Sample.bootsId = true
  ∧ castObjectId Sample.env Sample.bootsId = Some Sample.boots
  ∧ ObjectId_toString Sample.env Sample.boots = Sample.bootsId
  ∧ cartItems Sample.listed (id (Sample.customer Sample.buyer)) = []
  ∧ cartItems
      (addToCart Sample.env
         (addToCart Sample.env Sample.listed (Sample.customer Sample.buyer)
            (Some Sample.bootsId) 20).2
         (Sample.customer Sample.buyer) (Some Sample.bootsId) 21).2
      (id (Sample.customer Sample.buyer))
    = cartItems Sample.listed (id (Sample.customer Sample.buyer))
      ++ [{| product := Sample.boots; quantity := 2 |}].
Proof.
  assert (Hnone : cartItems Sample.listed (id (Sample.customer Sample.buyer))
                  = []) by (vm_compute; reflexivity).
  assert (H1 : oneCartPerUser Sample.listed) by apply listed_oneCartPerUser.
  assert (H2 : freshIfNeeded Sample.listed
                 (id (Sample.customer Sample.buyer)) 20)
    by apply listed_fresh.
  assert (H3 : ∀ item,
             item ∈ cartItems Sample.listed (id (Sample.customer Sample.buyer)) →
             ¬ sameProduct Sample.env Sample.bootsId item).
  { intros item Hin. rewrite Hnone in Hin. by apply elem_of_nil in Hin. }
  assert (H4 : castObjectId Sample.env Sample.bootsId = Some Sample.boots)
    by (vm_compute; reflexivity).
  assert (H5 : ObjectId_toString Sample.env Sample.boots = Sample.bootsId)
    by reflexivity.
  split; [exact H1|]. split; [exact H2|]. split; [reflexivity|].
  split; [exact H4|]. split; [exact H5|]. split; [exact Hnone|].
  exact (proj2 (proj2 (proj1 (proj2
    (cart_add_increments_or_inserts Sample.env Sample.listed
       (Sample.customer Sample.buyer) Sample.bootsId 20 21 H1 H2 eq_refl))
    H3 Sample.boots H4)) H5).
Defined.

(** ** Products and their files *)

#[local] Set Warnings "-clear-no-such-hyp".

Lemma unlinkImages_difference images : ∀ disk,
  unlinkImages disk images = disk ∖ list_to_set images.
Proof.
  unfold unlinkImages.
  induction images as [|path images IH]; intros disk; simpl.
  - set_solver.
  - rewrite IH. unfold unlink. case_bool_decide; set_solver.
Qed.

Lemma cleanUp_difference disk (l : list File) :
  cleanUp disk (Some l) = disk ∖ list_to_set (storedPath <$> l).
Proof.
  unfold cleanUp. revert disk.
  induction l as [|file l IH]; intros disk; simpl.
  - set_solver.
  - rewrite IH. unfold unlink. set_solver.
Qed.

Lemma createProductOnDisk_createProduct st disk reqUser body files oid now :
  (createProductOnDisk st disk reqUser body files oid now).1
  = createProduct st reqUser body files oid now.
Proof.
  unfold createProductOnDisk, createProduct.
  destruct (fieldError body); [done|].
  destruct (noFiles files); [done|].
  destruct (Product_validate _ _); [|done].
  by destruct (products st !! oid).
Qed.

(** X4.  When the seller or an administrator deletes a stored product, the
    reply is 200, the product is gone from the collection (so that
    [GET /products/:id] replies 404), each of its image files is gone from
    the disk, and nothing else changes: not the other products, not the
    other files, not the users, and not the carts, whose line items go on
    referring to the deleted product. *)
Theorem delete_removes_product_and_images
    (st : Store) (disk : gset JS.string) (reqUser : ReqUser) (pid : ObjectId)
    (p : Product.t) :
  products st !! pid = Some p →
  Product.seller p = id reqUser ∨ reqIsAdmin reqUser = true →
  ∃ st' disk',
    deleteProduct st disk reqUser pid
    = ({| code := 200; success := Some true;
          message := Some (Text "Product deleted successfully");
          payload := NoPayload |}, st', disk')
    ∧ products st' !! pid = None
    ∧ getProductById st' pid = failure 404 "Product not found"
    ∧ (∀ k, k ≠ pid → products st' !! k = products st !! k)
    ∧ (∀ path, path ∈ disk' ↔ path ∈ disk ∧ path ∉ Product.images p)
    ∧ users st' = users st
    ∧ carts st' = carts st.
Proof.
  intros Hp Hmay. unfold deleteProduct, Product_findById. rewrite Hp.
  assert (negb (Product.seller p =? id reqUser) && negb (reqIsAdmin reqUser)
          = false) as ->.
  { destruct Hmay as [-> | ->]; [by rewrite Nat.eqb_refl | apply andb_false_r]. }
  eexists _, _. split; [reflexivity|]. simpl.
  rewrite lookup_delete_eq. split; [done|].
  split; [unfold getProductById, Product_findById; simpl;
          by rewrite lookup_delete_eq|].
  split; [intros k Hk; by rewrite lookup_delete_ne|].
  split; [|done].
  intros path. rewrite unlinkImages_difference. set_solver.
Qed.

Lemma delete_removes_product_and_images_witness :
  products Sample.listed !! Sample.boots = Some Sample.approvedBoots
  ∧ (Product.seller Sample.approvedBoots = id (Sample.customer Sample.seller)
     ∨ reqIsAdmin (Sample.customer Sample.seller) = true)
  ∧ ∃ st' disk',
      deleteProduct Sample.listed Tour.uploads (Sample.customer Sample.seller)
        Sample.boots
      = ({| code := 200; success := Some true;
            message := Some (Text "Product deleted successfully");
            payload := NoPayload |}, st', disk')
      ∧ products st' !! Sample.boots = None
      ∧ storedPath Sample.photo ∉ disk'.
Proof.
  assert (Hp : products Sample.listed !! Sample.boots
               = Some Sample.approvedBoots) by (vm_compute; reflexivity).
  split; [exact Hp|]. split; [left; reflexivity|].
  destruct (delete_removes_product_and_images Sample.listed Tour.uploads
              (Sample.customer Sample.seller) Sample.boots
              Sample.approvedBoots Hp (or_introl eq_refl))
    as (st' & disk' & Hreply & Hgone & _ & _ & Hdisk & _).
  exists st', disk'. split; [exact Hreply|]. split; [exact Hgone|].
  intros Hin. apply Hdisk in Hin as [_ Hnot]. apply Hnot.
  apply list_elem_of_singleton. reflexivity.
Defined.

(** X5.  A delete by a user who is neither the seller of the product nor an
    administrator is refused with 403, and a delete of a product that is
    not stored with 404; both leave the database and the disk as they
    were. *)
Theorem delete_refused_changes_nothing
    (st : Store) (disk : gset JS.string) (reqUser : ReqUser) (pid : ObjectId) :
  (products st !! pid = None →
   deleteProduct st disk reqUser pid
   = (failure 404 "Product not found", st, disk))
  ∧ (∀ p, products st !! pid = Some p →
       Product.seller p ≠ id reqUser →
       reqIsAdmin reqUser = false →
       deleteProduct st disk reqUser pid
       = (failure 403 "Not authorized to delete this product", st, disk)).
Proof.
  unfold deleteProduct, Product_findById. split.
  - by intros ->.
  - intros p -> Hseller ->.
    apply Nat.eqb_neq in Hseller. by rewrite Hseller.
Qed.

Lemma cleaned_after_writing disk (uploaded : list File) :
  (∀ file, file ∈ uploaded →
     storedPath file ∉ cleanUp (multerWrite disk (Some uploaded))
                         (Some uploaded))
  ∧ ∀ path,
      path ∈ cleanUp (multerWrite disk (Some uploaded)) (Some uploaded) ↔
      path ∈ disk ∧ path ∉ (storedPath <$> uploaded).
Proof.
  rewrite cleanUp_difference. unfold multerWrite. simpl. split.
  - intros file Hin.
    rewrite elem_of_difference, elem_of_list_to_set, list_elem_of_fmap.
    intros [_ Hnot]. apply Hnot. eauto.
  - intros path.
    rewrite elem_of_difference, elem_of_union, elem_of_list_to_set. tauto.
Qed.

Lemma newProduct_images reqUser body files oid now :
  Product.images (newProduct reqUser body files oid now)
  = storedPath <$> files.
Proof. reflexivity. Qed.

(** X6.  The create handler and the files that multer wrote for it.  After
    a 201 the files are still on the disk and the images of the stored
    product are exactly their paths.  When a field check fails the handler
    returns before any clean-up: the uploaded files stay on the disk, with
    no product that refers to them.  When the checks pass and saving
    fails, the [catch] block removes every file of the request. *)
Theorem create_and_the_uploaded_files
    (st : Store) (disk : gset JS.string) (reqUser : ReqUser)
    (body : ProductBody.t) (uploaded : list File) (oid : ObjectId)
    (now : Date) :
  let written := multerWrite disk (Some uploaded) in
  let result :=
    createProductOnDisk st written reqUser body (Some uploaded) oid now in
  result.1 = createProduct st reqUser body (Some uploaded) oid now
  ∧ (code result.1.1 = 201 →
     result.2 = written
     ∧ (∀ file, file ∈ uploaded → storedPath file ∈ result.2)
     ∧ ∃ p, products result.1.2 !! oid = Some p
            ∧ Product.images p = storedPath <$> uploaded)
  ∧ (fieldError body ≠ None →
     result.2 = written
     ∧ result.1.2 = st
     ∧ ∀ file, file ∈ uploaded → storedPath file ∈ result.2)
  ∧ (fieldError body = None → uploaded ≠ [] → code result.1.1 = 400 →
     result.1.2 = st
     ∧ (∀ file, file ∈ uploaded → storedPath file ∉ result.2)
     ∧ ∀ path, path ∈ result.2 ↔
         path ∈ disk ∧ path ∉ (storedPath <$> uploaded)).
Proof.
  intros written result.
  assert (Hwritten : ∀ file, file ∈ uploaded → storedPath file ∈ written).
  { intros file Hin. unfold written, multerWrite. simpl.
    apply elem_of_union_r, elem_of_list_to_set, list_elem_of_fmap. eauto. }
  split; [apply createProductOnDisk_createProduct|].
  unfold result, createProductOnDisk.
  destruct (fieldError body) as [m|] eqn:Hfields.
  { split; [done|]. split; [done|]. done. }
  destruct (noFiles (Some uploaded)) eqn:Hfiles.
  { split; [done|]. split; [done|]. intros _ Hne.
    simpl in Hfiles. apply bool_decide_eq_true in Hfiles.
    by destruct uploaded. }
  simpl default.
  destruct (Product_validate _ _) eqn:Hvalid.
  - destruct (products st !! oid) eqn:Hoid.
    + split; [done|]. split; [done|]. intros _ _ _. cbn [fst snd].
      split; [done|]. by apply cleaned_after_writing.
    + split; [|split; [done|]; done]. intros _. simpl.
      split; [done|]. split; [done|].
      eexists. rewrite lookup_insert_eq. split; [done|].
      apply newProduct_images.
  - split; [done|]. split; [done|]. intros _ _ _. cbn [fst snd].
    split; [done|]. by apply cleaned_after_writing.
Qed.

Lemma createProduct_created st reqUser body files oid now :
  code (createProduct st reqUser body files oid now).1 = 201 →
  fieldError body = None
  ∧ noFiles files = false
  ∧ Product_validate Product_allPaths
      (newProduct reqUser body (default [] files) oid now) = []
  ∧ products st !! oid = None.
Proof.
  unfold createProduct.
  destruct (fieldError body); [done|].
  destruct (noFiles files); [done|].
  destruct (Product_validate _ _); [|done].
  by destruct (products st !! oid).
Qed.

(** X7.  Creating a product and deleting it again is a round trip.  When
    the create request is answered with 201 and its files were new to the
    disk, a delete of the new product by the same user is answered with 200
    and leaves the database and the disk exactly as they were before the
    upload. *)
Theorem create_then_delete_restores
    (st : Store) (disk : gset JS.string) (reqUser : ReqUser)
    (body : ProductBody.t) (uploaded : list File) (oid : ObjectId)
    (now : Date) :
  code (createProduct st reqUser body (Some uploaded) oid now).1 = 201 →
  (∀ file, file ∈ uploaded → storedPath file ∉ disk) →
  ∃ r st' disk',
    createProductOnDisk st (multerWrite disk (Some uploaded)) reqUser body
      (Some uploaded) oid now = (r, st', disk')
    ∧ code r = 201
    ∧ is_Some (products st' !! oid)
    ∧ deleteProduct st' disk' reqUser oid
      = ({| code := 200; success := Some true;
            message := Some (Text "Product deleted successfully");
            payload := NoPayload |}, st, disk).
Proof.
  intros Hcode Hnew.
  destruct (createProduct_created _ _ _ _ _ _ Hcode)
    as (Hfields & Hfiles & Hvalid & Hfree).
  unfold createProductOnDisk. rewrite Hfields, Hfiles, Hvalid, Hfree.
  simpl default.
  set (p := newProduct reqUser body uploaded oid now).
  assert (Himages : Product.images p = storedPath <$> uploaded)
    by reflexivity.
  assert (Hseller : Product.seller p = id reqUser) by reflexivity.
  clearbody p.
  eexists _, _, _. split; [reflexivity|]. split; [done|].
  split; [simpl; rewrite lookup_insert_eq; by eexists|].
  unfold deleteProduct, Product_findById. simpl.
  rewrite lookup_insert_eq, Hseller, Nat.eqb_refl. simpl.
  rewrite delete_insert_id by done.
  rewrite unlinkImages_difference, Himages.
  f_equal; [f_equal; by destruct st|].
  unfold multerWrite. simpl. apply set_eq. intros path.
  rewrite elem_of_difference, elem_of_union, elem_of_list_to_set.
  split; [tauto|]. intros Hin. split; [by left|].
  intros Hup. apply list_elem_of_fmap in Hup as (file & -> & Hfile).
  by destruct (Hnew file Hfile).
Qed.

Lemma create_then_delete_restores_witness :
  code (createProduct Sample.registered (Sample.customer Sample.seller)
          Sample.bootsForm (Some [Sample.photo]) Sample.boots 200).1 = 201
  ∧ (∀ file, file ∈ [Sample.photo] → storedPath file ∉ (∅ : gset JS.string))
  ∧ ∃ r st' disk',
      createProductOnDisk Sample.registered
        (multerWrite ∅ (Some [Sample.photo])) (Sample.customer Sample.seller)
        Sample.bootsForm (Some [Sample.photo]) Sample.boots 200
      = (r, st', disk')
      ∧ code r = 201
      ∧ is_Some (products st' !! Sample.boots)
      ∧ deleteProduct st' disk' (Sample.customer Sample.seller) Sample.boots
        = ({| code := 200; success := Some true;
              message := Some (Text "Product deleted successfully");
              payload := NoPayload |}, Sample.registered, ∅).
Proof.
  assert (H1 : code (createProduct Sample.registered
                       (Sample.customer Sample.seller) Sample.bootsForm
                       (Some [Sample.photo]) Sample.boots 200).1 = 201)
    by (vm_compute; reflexivity).
  assert (H2 : ∀ file, file ∈ [Sample.photo] →
                 storedPath file ∉ (∅ : gset JS.string))
    by (intros file _; apply not_elem_of_empty).
  split; [exact H1|]. split; [exact H2|].
  exact (create_then_delete_restores Sample.registered ∅
           (Sample.customer Sample.seller) Sample.bootsForm [Sample.photo]
           Sample.boots 200 H1 H2).
Defined.

(** ** The other listings and the search *)

Lemma populateBuyer_fst st (l : list Product.t) :
  (populateBuyer st <$> l).*1 = l.
Proof. induction l as [|p l IH]; [done|]. simpl. f_equal. exact IH. Qed.

Lemma Product_find_ext st f g :
  (∀ p, f p = g p) → Product_find st f = Product_find st g.
Proof.
  intros Hfg. unfold Product_find. apply list_filter_iff.
  intros p. by rewrite Hfg.
Qed.

(** X8.  [GET /products/my-products] replies 200 with the products whose
    seller is the user, whatever their status and active flag, each stored
    document once, newest first, with the buyer populated; it shows no
    product of another seller. *)
Theorem my_products_are_the_sellers_own (st : Store) (reqUser : ReqUser) :
  ∃ l : list (Product.t * option UserRef),
    getMyProducts st reqUser
      = {| code := 200; success := Some true; message := None;
           payload := ProductList l |}
    ∧ l = populateBuyer st <$> l.*1
    ∧ l.*1 ≡ₚ Product_find st (ownFilter reqUser)
    ∧ (∀ p, p ∈ l.*1 ↔
         (∃ k, products st !! k = Some p) ∧ Product.seller p = id reqUser)
    ∧ StronglySorted newerOrEqual l.*1.
Proof.
  exists (populateBuyer st
            <$> sortNewestFirst (Product_find st (ownFilter reqUser))).
  rewrite populateBuyer_fst.
  split; [done|]. split; [done|]. split; [apply sortNewestFirst_perm|].
  split; [|apply sortNewestFirst_sorted].
  intros p. rewrite sortNewestFirst_perm, elem_of_Product_find.
  unfold ownFilter. by rewrite Nat.eqb_eq.
Qed.

Lemma pendingFilter_true p :
  pendingFilter p = true ↔ Product.status p = pending.
Proof. unfold pendingFilter, Status_eqb. apply bool_decide_eq_true. Qed.

(** X9.  The moderation queue, [GET /products/pending], holds exactly the
    stored products whose status is [pending], each once; and a product
    that the moderation route has just approved or rejected is out of
    it. *)
Theorem pending_queue_is_the_pending_products (st : Store) :
  ∃ l : list (Product.t * option UserRef),
    getPendingProducts st
      = {| code := 200; success := Some true; message := None;
           payload := ProductList l |}
    ∧ l.*1 = Product_find st pendingFilter
    ∧ (∀ p, p ∈ l.*1 ↔
         (∃ k, products st !! k = Some p) ∧ Product.status p = pending)
    ∧ (∀ pid status p',
         code (updateStatus st pid status).1 = 200 →
         products (updateStatus st pid status).2 !! pid = Some p' →
         p' ∉ Product_find (updateStatus st pid status).2 pendingFilter).
Proof.
  exists (populateSeller st <$> Product_find st pendingFilter).
  rewrite populateSeller_fst.
  split; [done|]. split; [done|]. split.
  - intros p. by rewrite elem_of_Product_find, pendingFilter_true.
  - intros pid status p'. unfold updateStatus.
    destruct (moderationStatus status) as [s|] eqn:Hs; [|done].
    destruct (Product_findById st pid) as [p|]; [|done].
    simpl. rewrite lookup_insert_eq. intros _ [= <-].
    rewrite elem_of_Product_find, pendingFilter_true. simpl.
    intros [_ ->]. unfold moderationStatus in Hs.
    destruct status as [name|]; [|done].
    destruct (JS.eqb name (JS.str "approved")); [done|].
    by destruct (JS.eqb name (JS.str "rejected")).
Qed.

(** X10.  Whatever its parameters, a search that replies 200 shows only
    products of the public listing: stored, approved, active and never
    sold.  Its products are newest first, each has the category that was
    asked for when one was, and matches the text when a text was given.
    The only other reply is 500, exactly when the text is no regular
    expression or a price bound parses to [NaN]. *)
Theorem search_shows_public_products_only
    (lib : Library) (st : Store) (q : SearchQuery) :
  (code (searchProducts lib st q) = 200 ∨ code (searchProducts lib st q) = 500)
  ∧ (code (searchProducts lib st q) = 500 ↔
       textCondition lib q = None
       ∨ boundCondition lib (gte lib) (minPrice q) = None
       ∨ boundCondition lib (lte lib) (maxPrice q) = None)
  ∧ ∀ l, payload (searchProducts lib st q) = ProductList l →
      StronglySorted newerOrEqual l.*1
      ∧ ∀ p, p ∈ l.*1 →
          (∃ l', payload (getPublicProducts st) = ProductList l' ∧ p ∈ l'.*1)
          ∧ (∃ k, products st !! k = Some p)
          ∧ Product.status p = approved
          ∧ Product.isActive p = true
          ∧ Product.soldAt p = None
          ∧ (∀ c, given (categoryParam q) = Some c → Product.category p = c)
          ∧ (∀ pattern test,
               given (query q) = Some pattern →
               regexTest lib pattern = Some test →
               test (Product.name p) = true
               ∨ test (Product.description p) = true).
Proof.
  unfold searchProducts.
  destruct (textCondition lib q) as [text|] eqn:Htext;
    [|split; [by right|]; split; [by split; auto|]; done].
  destruct (boundCondition lib (gte lib) (minPrice q)) as [atLeast|];
    [|split; [by right|]; split; [by split; auto|]; done].
  destruct (boundCondition lib (lte lib) (maxPrice q)) as [atMost|];
    [|split; [by right|]; split; [by split; auto|]; done].
  split; [by left|]. split; [by split; [|intros [|[|]]]|].
  intros l [= <-]. rewrite populateSeller_fst.
  split; [apply sortNewestFirst_sorted|].
  intros p. rewrite sortNewestFirst_perm, elem_of_Product_find.
  rewrite !andb_true_iff.
  intros (Hstored & (((Hpub & Hmatch) & Hcat) & _) & _).
  pose proof Hpub as Hpublic. apply publicFilter_true in Hpub as (? & ? & ?).
  split.
  { eexists. split; [reflexivity|]. apply elem_of_listing. done. }
  repeat (split; [done|]). split.
  - intros c Hc. unfold categoryCondition in Hcat. rewrite Hc in Hcat.
    by apply JS_eqb_eq.
  - intros pattern test Hq Hre. unfold textCondition in Htext.
    rewrite Hq, Hre in Htext. injection Htext as <-.
    by apply orb_true_iff.
Qed.

(** X11.  A search without parameters (each absent or empty) replies with
    the products of the public listing, in the same order. *)
Theorem search_without_parameters_is_the_public_listing
    (lib : Library) (st : Store) (q : SearchQuery) :
  given (query q) = None →
  given (categoryParam q) = None →
  given (minPrice q) = None →
  given (maxPrice q) = None →
  code (searchProducts lib st q) = 200
  ∧ payload (searchProducts lib st q) = payload (getPublicProducts st).
Proof.
  intros Hq Hc Hmin Hmax.
  unfold searchProducts, textCondition, boundCondition, categoryCondition.
  rewrite Hq, Hmin, Hmax, Hc. split; [done|]. simpl. do 3 f_equal.
  apply Product_find_ext. intros p. by rewrite !andb_true_r.
Qed.

Lemma search_without_parameters_is_the_public_listing_witness :
  given (query Tour.everything) = None
  ∧ given (categoryParam Tour.everything) = None
  ∧ given (minPrice Tour.everything) = None
  ∧ given (maxPrice Tour.everything) = None
  ∧ code (searchProducts Tour.library Sample.listed Tour.everything) = 200
  ∧ payload (searchProducts Tour.library Sample.listed Tour.everything)
    = payload (getPublicProducts Sample.listed).
Proof.
  split; [reflexivity|]. split; [reflexivity|].
  split; [reflexivity|]. split; [reflexivity|].
  exact (search_without_parameters_is_the_public_listing Tour.library
           Sample.listed Tour.everything eq_refl eq_refl eq_refl eq_refl).
Defined.

(** ** Who may do what *)

Lemma auth_refusal st h r :
  auth st h = Send r → code r = 401 ∧ success r = Some false.
Proof.
  unfold auth. destruct h as [| |uid]; [by intros [= <-].. |].
  destruct (users st !! uid); [done | by intros [= <-]].
Qed.

(** X12.  A request that [auth] turns away (no token, a token that does not
    verify, or the token of a user that is not stored) gets a 401 on every
    route but the open ones (registration, login, the public listing, the
    search, the single product), and leaves the database and the disk as
    they were; in particular multer writes none of its files. *)
Theorem unauthenticated_requests_change_nothing
    (env : Env) (lib : Library) (sv : Server) (req : AnyRequest)
    (r : Response) :
  auth (database sv) (header req) = Send r →
  openRoute (anyRoute req) = false →
  handleAny env lib sv req = (Reply r, sv)
  ∧ code r = 401.
Proof.
  intros Hauth Hopen. split; [|by eapply auth_refusal].
  destruct req as [h rt]. simpl in *.
  unfold handleAny, behindAdmin, behindAuth, onDatabase, handle, withAdmin,
    withAuth.
  cbn [anyRoute header route authorization].
  destruct rt as [covered| | | | | | | | | |];
    [destruct covered|..]; try discriminate Hopen;
    rewrite ?Hauth; try reflexivity.
  all: by destruct sv.
Qed.

Lemma unauthenticated_requests_change_nothing_witness :
  auth (database freshServer) NoToken
    = Send (failure 401 "No token, authorization denied")
  ∧ openRoute (DeleteProduct Sample.boots) = false
  ∧ handleAny Sample.env Tour.library freshServer
      {| header := NoToken; anyRoute := DeleteProduct Sample.boots |}
    = (Reply (failure 401 "No token, authorization denied"), freshServer)
  ∧ code (failure 401 "No token, authorization denied") = 401.
Proof.
  split; [reflexivity|]. split; [reflexivity|].
  exact (unauthenticated_requests_change_nothing Sample.env Tour.library
           freshServer
           {| header := NoToken; anyRoute := DeleteProduct Sample.boots |}
           (failure 401 "No token, authorization denied") eq_refl eq_refl).
Defined.

(** X13.  The three routes behind [adminAuth] (moderation, the moderation
    queue, the statistics) answer a stored user who is not an administrator
    with 403 and change nothing, whatever the request says. *)
Theorem admin_routes_refuse_other_users
    (env : Env) (lib : Library) (sv : Server) (req : AnyRequest)
    (uid : ObjectId) (u : User.t) :
  header req = ValidToken uid →
  users (database sv) !! uid = Some u →
  User._id u = uid →
  User.isAdmin u = false →
  adminRoute (anyRoute req) = true →
  handleAny env lib sv req
  = (Reply (failure 403 "Access denied. Admin privileges required."), sv).
Proof.
  intros Hh Hu Hid Hadmin Hroute.
  destruct req as [h rt]. simpl in *. subst h.
  unfold handleAny, behindAdmin, behindAuth, onDatabase, handle, withAdmin,
    withAuth, auth, adminAuth.
  cbn [anyRoute header route authorization].
  destruct rt as [covered| | | | | | | | | |];
    [destruct covered|..]; try discriminate Hroute;
    rewrite Hu; cbn [id]; rewrite Hid, Hu, Hadmin; try reflexivity.
  by destruct sv.
Qed.

Lemma admin_routes_refuse_other_users_witness :
  header {| header := ValidToken Sample.seller;
            anyRoute := Covered (PutProductStatus Sample.boots
                                   (Some (JS.str "approved"))) |}
    = ValidToken Sample.seller
  ∧ users Sample.listed !! Sample.seller = Some Sample.sam
  ∧ User._id Sample.sam = Sample.seller
  ∧ User.isAdmin Sample.sam = false
  ∧ handleAny Sample.env Tour.library
      {| database := Sample.listed; disk := ∅ |}
      {| header := ValidToken Sample.seller;
         anyRoute := Covered (PutProductStatus Sample.boots
                                (Some (JS.str "approved"))) |}
    = (Reply (failure 403 "Access denied. Admin privileges required."),
       {| database := Sample.listed; disk := ∅ |}).
Proof.
  assert (Hu : users Sample.listed !! Sample.seller = Some Sample.sam)
    by (vm_compute; reflexivity).
  split; [reflexivity|]. split; [exact Hu|].
  split; [reflexivity|]. split; [reflexivity|].
  exact (admin_routes_refuse_other_users Sample.env Tour.library
           {| database := Sample.listed; disk := ∅ |}
           {| header := ValidToken Sample.seller;
              anyRoute := Covered (PutProductStatus Sample.boots
                                     (Some (JS.str "approved"))) |}
           Sample.seller Sample.sam eq_refl Hu eq_refl eq_refl eq_refl).
Defined.

(** X14.  The toggle route lets only administrators through: its ownership
    test compares a string with an [ObjectId], so a user who is not an
    administrator is refused with 403 on every stored product, also on a
    product of their own.  For an administrator it flips the active flag
    and nothing else, and two toggles leave the store as it was. *)
Theorem toggle_is_for_administrators_only
    (st : Store) (reqUser : ReqUser) (pid : ObjectId) (p : Product.t) :
  products st !! pid = Some p →
  (reqIsAdmin reqUser = false →
   toggleActive st reqUser pid
   = (failure 403 "Not authorized to modify this product", st))
  ∧ (reqIsAdmin reqUser = true →
     code (toggleActive st reqUser pid).1 = 200
     ∧ (toggleActive st reqUser pid).2
       = Product_save st pid (withIsActive p (negb (Product.isActive p)))
     ∧ (toggleActive (toggleActive st reqUser pid).2 reqUser pid).2 = st).
Proof.
  intros Hp. unfold toggleActive, Product_findById, toggleSellerDiffers.
  rewrite Hp. split; intros ->; [done|]. simpl.
  split; [done|]. split; [done|].
  rewrite lookup_insert_eq. simpl. rewrite negb_involutive.
  unfold Product_save, setProducts. simpl.
  rewrite insert_insert_eq.
  replace (withIsActive _ _) with p by (by destruct p).
  rewrite insert_id by done. by destruct st.
Qed.

Lemma toggle_is_for_administrators_only_witness :
  products Sample.listed !! Sample.boots = Some Sample.approvedBoots
  ∧ Product.seller Sample.approvedBoots = id (Sample.customer Sample.seller)
  ∧ reqIsAdmin (Sample.customer Sample.seller) = false
  ∧ toggleActive Sample.listed (Sample.customer Sample.seller) Sample.boots
    = (failure 403 "Not authorized to modify this product", Sample.listed).
Proof.
  assert (Hp : products Sample.listed !! Sample.boots
               = Some Sample.approvedBoots) by (vm_compute; reflexivity).
  split; [exact Hp|]. split; [reflexivity|]. split; [reflexivity|].
  exact (proj1 (toggle_is_for_administrators_only Sample.listed
                  (Sample.customer Sample.seller) Sample.boots
                  Sample.approvedBoots Hp) eq_refl).
Defined.

(** ** What a request changes *)

Lemma auth_requester st h reqUser :
  auth st h = Next reqUser → requester st (id reqUser).
Proof.
  unfold auth. destruct h as [| |uid]; [done..|].
  destruct (users st !! uid) as [u|] eqn:Hu; [|done].
  intros [= <-]. by exists uid, u.
Qed.

Lemma User_save_change env asked st name email password admin salt oid now :
  User_findOne env st email = None →
  Change env asked st
    (match User_save env st (newUser env name email password admin oid now) salt
     with
     | Some (_, st') => st'
     | None => st
     end).
Proof.
  intros Hnone. unfold User_save.
  destruct (User_valid env _) eqn:Hvalid; simpl; [|constructor].
  destruct (users st !! oid) eqn:Hoid; [constructor|].
  by apply change_register.
Qed.

Lemma register_change env asked st name email password salt oid now :
  Change env asked st (register env st name email password salt oid now).2.
Proof.
  unfold register.
  destruct (User_findOne env st email) eqn:Hnone; [constructor|].
  pose proof (User_save_change env asked st name email password false salt oid now
                Hnone) as Hchange.
  by destruct (User_save _ _ _ _) as [[u st']|].
Qed.

Lemma registerAdmin_change env asked st name email password adminKey salt oid now :
  Change env asked st
    (registerAdmin env st name email password adminKey salt oid now).2.
Proof.
  unfold registerAdmin. destruct (negb _); [constructor|].
  destruct (User_findOne env st email) eqn:Hnone; [constructor|].
  pose proof (User_save_change env asked st name email password true salt oid now
                Hnone) as Hchange.
  by destruct (User_save _ _ _ _) as [[u st']|].
Qed.

Lemma createProduct_change env asked st reqUser body files oid now :
  requester st (id reqUser) →
  Change env asked st (createProduct st reqUser body files oid now).2.
Proof.
  intros Hreq. unfold createProduct.
  destruct (fieldError body) eqn:Hfields; [constructor|].
  destruct (noFiles files) eqn:Hfiles; [constructor|].
  destruct (Product_validate _ _) eqn:Hvalid; [|constructor].
  destruct (products st !! oid) eqn:Hoid; [constructor|].
  by apply change_create.
Qed.

Lemma updateStatus_change env asked st pid status :
  Change env asked st (updateStatus st pid status).2.
Proof.
  unfold updateStatus.
  destruct (moderationStatus status) as [s|] eqn:Hs; [|constructor].
  unfold Product_findById.
  destruct (products st !! pid) as [p|] eqn:Hp; [|constructor].
  apply (change_product env asked st pid p); [done|]. constructor.
  unfold moderationStatus in Hs. destruct status as [name|]; [|done].
  destruct (JS.eqb name (JS.str "approved")); [injection Hs as <-; by left|].
  destruct (JS.eqb name (JS.str "rejected")); [injection Hs as <-; by right|].
  done.
Qed.

Lemma toggleActive_change env asked st reqUser pid :
  Change env asked st (toggleActive st reqUser pid).2.
Proof.
  unfold toggleActive, Product_findById.
  destruct (products st !! pid) as [p|] eqn:Hp; [|constructor].
  destruct (_ && _); [constructor|].
  apply (change_product env asked st pid p); [done|]. constructor.
Qed.

Lemma updateProduct_change env asked st reqUser pid body :
  Change env asked st (updateProduct st reqUser pid body).2.
Proof.
  unfold updateProduct, Product_findById.
  destruct (products st !! pid) as [p|] eqn:Hp; [|constructor].
  destruct (_ && _); [constructor|].
  destruct (fieldError body) eqn:Hfields; [constructor|].
  destruct (Product_validate _ _) eqn:Hvalid; [|constructor].
  apply (change_product env asked st pid p); [done|]. by constructor.
Qed.

Lemma checkout_change env asked st reqUser body now :
  requester st (id reqUser) →
  Change env asked st (checkout st reqUser body now).2.
Proof.
  intros Hreq. unfold checkout.
  destruct (checkoutChecks st body); [constructor|].
  unfold checkoutUpdate, Product_findOneAndUpdate.
  destruct (products st !! productId body) as [p|] eqn:Hp; [|constructor].
  destruct (Status_eqb (Product.status p) approved && Product.isActive p)
    eqn:E; [|constructor].
  apply andb_true_iff in E as [Hs Ha]. apply bool_decide_eq_true in Hs.
  apply (change_product env asked st (productId body) p); [done|]. by constructor.
Qed.

Lemma cartStep_mono env (asked asked' : JS.string → Prop) items items' :
  (∀ productId, asked productId → asked' productId) →
  cartStep env asked items items' → cartStep env asked' items items'.
Proof.
  intros Hsub [productId items'' Hasked Hadd|productId|].
  - eapply step_add; [by apply Hsub | done].
  - apply step_remove.
  - apply step_clear.
Qed.

Lemma Change_mono env (asked asked' : JS.string → Prop) st st' :
  (∀ productId, asked productId → asked' productId) →
  Change env asked st st' → Change env asked' st st'.
Proof.
  intros Hsub Hchange.
  destruct Hchange; econstructor; eauto using cartStep_mono.
Qed.

Lemma addToCart_change env st reqUser productId oid :
  requester st (id reqUser) →
  Change env (λ s, productId = Some s) st
    (addToCart env st reqUser productId oid).2.
Proof.
  intros Hreq. unfold addToCart.
  destruct productId as [s|]; [|constructor]. cbn [JS.optTruthy].
  destruct (JS.truthy s); [|constructor]. cbn -[addItem].
  destruct (Cart_findOne st (id reqUser)) as [[key cart]|] eqn:E;
    cbn -[addItem].
  - destruct (addItem env (Cart.items cart) s) as [items'|] eqn:Hadd;
      [|constructor].
    cbn [snd]. eapply change_cart; [exact E|]. by eapply step_add.
  - destruct (addItem env [] s) as [items'|] eqn:Hadd; [|constructor].
    case_bool_decide as Htaken; [constructor|]. cbn [snd].
    apply change_newCart; [done | done | | by eapply step_add].
    destruct (carts st !! oid) eqn:Hoid; [|done].
    destruct Htaken. split; [done | by eexists].
Qed.

Lemma removeFromCart_change env asked st reqUser productId :
  Change env asked st (removeFromCart env st reqUser productId).2.
Proof.
  unfold removeFromCart.
  destruct (Cart_findOne st (id reqUser)) as [[key cart]|] eqn:E;
    [|constructor].
  simpl. eapply change_cart; [exact E | constructor].
Qed.

Lemma clearCart_change env asked st reqUser :
  Change env asked st (clearCart st reqUser).2.
Proof.
  unfold clearCart.
  destruct (Cart_findOne st (id reqUser)) as [[key cart]|] eqn:E;
    [|constructor].
  simpl. eapply change_cart; [exact E | constructor].
Qed.

Lemma handle_change env st req :
  Change env (asksToAdd (route req)) st (handle env st req).2.
Proof.
  destruct req as [h r].
  destruct r; unfold handle, withAdmin, withAuth; cbn [route authorization].
  - apply register_change.
  - apply registerAdmin_change.
  - constructor.
  - destruct (auth st h) eqn:Hauth; [|constructor].
    destruct (uploadAccepted files); [|constructor].
    by eapply createProduct_change, auth_requester.
  - constructor.
  - destruct (auth st h); constructor.
  - destruct (auth st h) as [reqUser|]; [|constructor].
    destruct (adminAuth st (Some reqUser)); [|constructor].
    apply updateStatus_change.
  - destruct (auth st h); [|constructor]. apply toggleActive_change.
  - destruct (auth st h); [|constructor]. apply updateProduct_change.
  - constructor.
  - destruct (auth st h) eqn:Hauth; [|constructor].
    by eapply checkout_change, auth_requester.
  - destruct (auth st h) eqn:Hauth; [|constructor].
    eapply Change_mono;
      [|by eapply addToCart_change, auth_requester].
    intros s ->. by exists oid.
Qed.

(** On the routes of [Route] the server does to the database what [handle]
    does. *)
Lemma handleAny_covered env lib sv h r :
  database (handleAny env lib sv {| header := h; anyRoute := Covered r |}).2
  = (handle env (database sv) {| authorization := h; route := r |}).2.
Proof.
  unfold handleAny. cbn [anyRoute header].
  destruct r; try reflexivity.
  unfold behindAuth, handle, withAuth. cbn [route authorization].
  destruct (auth (database sv) h); [|done].
  destruct (uploadAccepted files); [|done].
  pose proof (createProductOnDisk_createProduct (database sv)
                (multerWrite (disk sv) files) a body files oid now) as Hsame.
  destruct (createProductOnDisk _ _ _ _ _ _ _) as [[r st'] disk'].
  simpl in *. by rewrite <-Hsame.
Qed.

(** A request changes the database as [Change] says, or deletes the
    product it names. *)
Lemma handleAny_change env lib sv req :
  Change env (asks req) (database sv) (database (handleAny env lib sv req).2)
  ∨ ∃ pid,
      deletion req = Some pid
      ∧ is_Some (products (database sv) !! pid)
      ∧ database (handleAny env lib sv req).2
        = setProducts (database sv) (delete pid (products (database sv))).
Proof.
  destruct req as [h rt]. destruct rt.
  - left. rewrite handleAny_covered.
    eapply Change_mono; [|apply handle_change].
    intros s [oid Hs]. exists oid. cbn [route] in Hs. cbn [anyRoute].
    by rewrite Hs.
  - left. unfold handleAny, behindAuth. cbn [anyRoute header].
    destruct (auth (database sv) h); constructor.
  - left. unfold handleAny, behindAdmin, behindAuth. cbn [anyRoute header].
    destruct (auth (database sv) h) as [reqUser|]; [|constructor].
    destruct (adminAuth (database sv) (Some reqUser)); constructor.
  - unfold handleAny, behindAuth. cbn [anyRoute header].
    destruct (auth (database sv) h) as [reqUser|]; [|left; constructor].
    unfold deleteProduct, Product_findById.
    destruct (products (database sv) !! pid) as [p|] eqn:Hp;
      [|left; constructor].
    destruct (_ && _); [left; constructor|].
    right. exists pid. by eauto.
  - left. constructor.
  - left. unfold handleAny, behindAdmin, behindAuth. cbn [anyRoute header].
    destruct (auth (database sv) h) as [reqUser|]; [|constructor].
    destruct (adminAuth (database sv) (Some reqUser)); constructor.
  - left. unfold handleAny, behindAuth. cbn [anyRoute header].
    destruct (auth (database sv) h); constructor.
  - left. unfold handleAny, behindAuth, onDatabase. cbn [anyRoute header].
    destruct (auth (database sv) h); [|constructor]. apply removeFromCart_change.
  - left. unfold handleAny, behindAuth, onDatabase. cbn [anyRoute header].
    destruct (auth (database sv) h); [|constructor]. apply clearCart_change.
  - left. unfold handleAny, behindAuth. cbn [anyRoute header].
    destruct (auth (database sv) h); constructor.
  - left. unfold handleAny, behindAuth. cbn [anyRoute header].
    destruct (auth (database sv) h); constructor.
Qed.

(** ** What the server keeps *)

Lemma Product_validate_valid paths p path :
  Product_validate paths p = [] → path ∈ paths →
  Product_validPath p path = true.
Proof.
  unfold Product_validate. intros Hnil Hin.
  destruct (Product_validPath p path) eqn:E; [done|].
  assert (path ∈ filter (λ path, Product_validPath p path = false) paths)
    as Hbad by (by apply list_elem_of_filter).
  rewrite Hnil in Hbad. by apply elem_of_nil in Hbad.
Qed.

Lemma all_paths path : path ∈ Product_allPaths.
Proof. unfold Product_allPaths. destruct path; set_solver. Qed.

Lemma requester_registered env st rid :
  consistent env st → requester st rid → registered st rid.
Proof.
  intros Hst (uid & u & Hu & Hid).
  rewrite <-Hid, (users_keyed env st Hst uid u Hu). by eexists.
Qed.

Lemma productStep_sound env st p p' :
  consistent env st →
  productStep st p p' →
  soundProduct st p →
  Product._id p' = Product._id p ∧ soundProduct st p'.
Proof.
  intros Hst Hstep [Hvalid Himages Hseller Hsale].
  destruct Hstep as [s Hs| |body Hfields Hassigned|buyerId now address Hbuyer].
  - split; [done|]. split; [|done..|].
    + intros path. specialize (Hvalid path). by destruct path.
    + destruct Hsale as [?|(? & ? & ? & _)]; [by left|].
      right. repeat (split; [done|]). simpl. by destruct Hs as [-> | ->].
  - split; [done|]. split; [|done..].
    intros path. specialize (Hvalid path). by destruct path.
  - split; [done|]. split; [|done..].
    intros path. destruct (decide (path = path_images)) as [->|Hother].
    + exact (Hvalid path_images).
    + apply (Product_validate_valid _ _ _ Hassigned).
      destruct path; [set_solver.. | done | set_solver | set_solver].
  - split; [done|]. split; [|done..|].
    + intros path. specialize (Hvalid path). by destruct path.
    + left. exists buyerId. simpl.
      split; [done|]. split; [by eapply requester_registered|].
      by eexists.
Qed.

Lemma cartStep_sound env asked items items' :
  cartStep env asked items items' →
  Forall (λ item, 1 ≤ quantity item) items →
  Forall (λ item, 1 ≤ quantity item) items'.
Proof.
  intros [productId items'' _ Hadd|productId|] Hpos.
  - unfold addItem in Hadd.
    destruct (list_find _ items) as [[i item]|] eqn:E.
    + injection Hadd as <-. apply Forall_insert; [done|]. simpl. lia.
    + destruct (castObjectId env productId) as [pid|]; [|done].
      injection Hadd as <-.
      apply Forall_app. split; [done|]. apply Forall_singleton.
      unfold Cart_defaultQuantity. simpl. lia.
  - unfold removeItem. rewrite Forall_forall in *. intros item Hin.
    apply list_elem_of_filter in Hin as [_ Hin]. auto.
  - apply Forall_nil_2.
Qed.

(** When the strings that are added are spelled as their [ObjectId]s
    print, no step gives a product a second line item. *)
Lemma cartStep_lines env asked items items' :
  (∀ productId, asked productId → canonical env productId) →
  cartStep env asked items items' →
  NoDup (product <$> items) → NoDup (product <$> items').
Proof.
  intros Hcanonical [productId items'' Hasked Hadd|productId|] Hdup.
  - unfold addItem in Hadd.
    destruct (list_find _ items) as [[i item]|] eqn:E.
    + injection Hadd as <-. apply list_find_Some in E as (Hi & _ & _).
      rewrite list_fmap_insert.
      rewrite list_insert_id; [done|]. by rewrite list_lookup_fmap, Hi.
    + destruct (castObjectId env productId) as [pid|] eqn:Hcast; [|done].
      injection Hadd as <-. apply list_find_None in E.
      rewrite fmap_app. apply NoDup_app. split; [done|]. split.
      * intros x Hx Hpid. apply list_elem_of_singleton in Hpid as ->.
        apply list_elem_of_fmap in Hx as (item & Hitem & Hin).
        rewrite Forall_forall in E. apply (E item Hin).
        unfold sameProduct. rewrite <-Hitem.
        by apply (Hcanonical productId Hasked).
      * apply NoDup_singleton.
  - unfold removeItem. eapply sublist_NoDup; [exact Hdup|].
    apply fmap_sublist, sublist_filter.
  - apply NoDup_nil_2.
Qed.

Lemma soundProduct_more_users st st' p :
  (∀ uid, registered st uid → registered st' uid) →
  soundProduct st p → soundProduct st' p.
Proof.
  intros Hmore [Hvalid Himages Hseller Hsale]. split; [done | done | auto |].
  destruct Hsale as [(b & ? & ? & ?)|?]; [|by right].
  left. exists b. auto.
Qed.

Lemma soundCart_more_users st st' c :
  (∀ uid, registered st uid → registered st' uid) →
  soundCart st c → soundCart st' c.
Proof. intros Hmore [Howner Hpos]. split; auto. Qed.

Lemma User_findOne_free env st email k u :
  User_findOne env st email = None →
  users st !! k = Some u → User.email u ≠ emailSetters env email.
Proof.
  unfold User_findOne. intros Hnone Hu Hmail.
  apply find_none with (x := u) in Hnone.
  - rewrite Hmail, JS_eqb_refl in Hnone. discriminate.
  - apply list_elem_of_In, list_elem_of_fmap. exists (k, u).
    split; [done|]. by apply elem_of_map_to_list.
Qed.

Lemma User_valid_password env u :
  User_valid env u = true → 6 ≤ length (User.password u).
Proof.
  unfold User_valid. rewrite !andb_true_iff. intros (_ & Hlen).
  by apply Nat.leb_le.
Qed.

Lemma User_valid_email env u :
  User_valid env u = true → isEmail env (User.email u) = true.
Proof. unfold User_valid. rewrite !andb_true_iff. tauto. Qed.

Lemma consistent_empty env : consistent env emptyStore.
Proof.
  split; try (intros k x Hx; simpl in Hx; by rewrite lookup_empty in Hx).
  - intros k1 k2 u1 u2 H1. simpl in H1. by rewrite lookup_empty in H1.
  - intros k1 k2 c1 c2 H1. simpl in H1. by rewrite lookup_empty in H1.
Qed.

Lemma Change_consistent env asked st st' :
  consistent env st → Change env asked st st' → consistent env st'.
Proof.
  intros Hst Hchange. pose proof Hst as [Uk Pk Ck Ed Es Ph Ps Cs Co].
  destruct Hchange as
    [ | name email password admin salt oid now Hfree Hvalid Hoid
      | reqUser body files oid now Hreq Hfields Hfiles Hvalid Hoid
      | pid p p' Hp Hstep
      | uid key cart items' Hfound Hstep
      | uid oid items' Hreq Hnone Hoid Hstep ]; [done|..].
  - (* a registration *)
    assert (Hmore : ∀ uid, registered st uid →
              registered (setUsers st
                (<[oid := storedUser env name email password admin salt oid now]>
                   (users st))) uid).
    { intros uid [u Hu]. unfold registered. simpl.
      destruct (decide (uid = oid)) as [->|Hne]; [congruence|].
      rewrite lookup_insert_ne by done. by eexists. }
    split; simpl; try done.
    + intros k u. destruct (decide (k = oid)) as [->|Hne].
      * rewrite lookup_insert_eq. by intros [= <-].
      * rewrite lookup_insert_ne by done. apply Uk.
    + intros k1 k2 u1 u2.
      destruct (decide (k1 = oid)) as [->|Hne1],
               (decide (k2 = oid)) as [->|Hne2]; [done | | |].
      * rewrite lookup_insert_eq, lookup_insert_ne by done.
        intros [= <-] Hu2 Hmail. simpl in Hmail.
        by destruct (User_findOne_free env st email k2 u2 Hfree Hu2).
      * rewrite lookup_insert_eq, lookup_insert_ne by done.
        intros Hu1 [= <-] Hmail. simpl in Hmail.
        by destruct (User_findOne_free env st email k1 u1 Hfree Hu1).
      * rewrite !lookup_insert_ne by done. apply Ed.
    + intros k u. destruct (decide (k = oid)) as [->|Hne].
      * rewrite lookup_insert_eq. intros [= <-].
        split; [exact (User_valid_email env _ Hvalid) | by exists email].
      * rewrite lookup_insert_ne by done. apply Es.
    + intros k u. destruct (decide (k = oid)) as [->|Hne].
      * rewrite lookup_insert_eq. intros [= <-]. exists password, salt.
        split; [done|]. by apply User_valid_password in Hvalid.
      * rewrite lookup_insert_ne by done. apply Ph.
    + intros k p Hp. eapply soundProduct_more_users; [exact Hmore|]. eauto.
    + intros k c Hc. eapply soundCart_more_users; [exact Hmore|]. eauto.
  - (* a new product *)
    split; simpl; try done.
    + intros k p. destruct (decide (k = oid)) as [->|Hne].
      * rewrite lookup_insert_eq. by intros [= <-].
      * rewrite lookup_insert_ne by done. apply Pk.
    + intros k p. destruct (decide (k = oid)) as [->|Hne].
      * rewrite lookup_insert_eq. intros [= <-]. split.
        -- intros path. eapply Product_validate_valid; [exact Hvalid|].
           apply all_paths.
        -- rewrite newProduct_images.
           destruct files as [[|file files]|]; [| |discriminate Hfiles].
           ++ vm_compute in Hfiles. discriminate Hfiles.
           ++ simpl. discriminate.
        -- exact (requester_registered env st (id reqUser) Hst Hreq).
        -- right. repeat (split; [done|]). done.
      * rewrite lookup_insert_ne by done. intros Hp.
        destruct (Ps k p Hp). by split.
    + intros k c Hc. destruct (Cs k c Hc). by split.
  - (* a stored product moves *)
    destruct (productStep_sound env st p p' Hst Hstep (Ps pid p Hp))
      as [Hid Hsound].
    split; simpl; try done.
    + intros k q. destruct (decide (k = pid)) as [->|Hne].
      * rewrite lookup_insert_eq. intros [= <-]. rewrite Hid. by apply Pk.
      * rewrite lookup_insert_ne by done. apply Pk.
    + intros k q. destruct (decide (k = pid)) as [->|Hne].
      * rewrite lookup_insert_eq. intros [= <-].
        destruct Hsound. by split.
      * rewrite lookup_insert_ne by done. intros Hq.
        destruct (Ps k q Hq). by split.
    + intros k c Hc. destruct (Cs k c Hc). by split.
  - (* the cart of a user changes *)
    destruct (Cart_findOne_found _ _ _ _ Hfound) as [Hkey Huser].
    destruct (Cs key cart Hkey) as [Howner Hpos].
    pose proof (cartStep_sound _ _ _ _ Hstep Hpos) as Hpos'.
    split; simpl; try done.
    + intros k c. destruct (decide (k = key)) as [->|Hne].
      * rewrite lookup_insert_eq. intros [= <-]. simpl. by apply Ck.
      * rewrite lookup_insert_ne by done. apply Ck.
    + intros k p Hp. destruct (Ps k p Hp). by split.
    + intros k c. destruct (decide (k = key)) as [->|Hne].
      * rewrite lookup_insert_eq. intros [= <-]. by split.
      * rewrite lookup_insert_ne by done. intros Hc.
        destruct (Cs k c Hc). by split.
    + by apply (replaceItems_cartItems st key cart items').
  - (* the first cart of a user *)
    split; simpl; try done.
    + intros k c. destruct (decide (k = oid)) as [->|Hne].
      * rewrite lookup_insert_eq. by intros [= <-].
      * rewrite lookup_insert_ne by done. apply Ck.
    + intros k p Hp. destruct (Ps k p Hp). by split.
    + intros k c. destruct (decide (k = oid)) as [->|Hne].
      * rewrite lookup_insert_eq. intros [= <-].
        pose proof (cartStep_sound _ _ _ _ Hstep (Forall_nil_2 _)) as Hpos.
        split; [exact (requester_registered env st uid Hst Hreq) | done].
      * rewrite lookup_insert_ne by done. intros Hc.
        destruct (Cs k c Hc). by split.
    + unfold oneCartPerUser. simpl. intros k1 k2 c1 c2.
      destruct (decide (k1 = oid)) as [->|Hne1],
               (decide (k2 = oid)) as [->|Hne2]; [done | | |].
      * rewrite lookup_insert_eq, lookup_insert_ne by done.
        intros [= <-] Hc2 Hsame. simpl in Hsame.
        by destruct (Cart_findOne_none st uid k2 c2 Hnone Hc2).
      * rewrite lookup_insert_eq, lookup_insert_ne by done.
        intros Hc1 [= <-] Hsame. simpl in Hsame.
        by destruct (Cart_findOne_none st uid k1 c1 Hnone Hc1).
      * rewrite !lookup_insert_ne by done. apply Co.
Qed.

Lemma delete_consistent env st pid :
  consistent env st →
  consistent env (setProducts st (delete pid (products st))).
Proof.
  intros [Uk Pk Ck Ed Es Ph Ps Cs Co]. split; simpl; try done.
  - intros k p Hp. apply lookup_delete_Some in Hp as [_ Hp]. by apply Pk.
  - intros k p Hp. apply lookup_delete_Some in Hp as [_ Hp].
    destruct (Ps k p Hp). by split.
  - intros k c Hc. destruct (Cs k c Hc). by split.
Qed.

Lemma handleAny_consistent env lib sv req :
  consistent env (database sv) →
  consistent env (database (handleAny env lib sv req).2).
Proof.
  intros Hst.
  destruct (handleAny_change env lib sv req) as [Hchange|(pid & _ & _ & ->)].
  - by eapply Change_consistent.
  - by apply delete_consistent.
Qed.

Lemma serveAny_consistent env lib reqs : ∀ sv,
  consistent env (database sv) →
  consistent env (database (serveAny env lib sv reqs)).
Proof.
  induction reqs as [|req reqs IH]; intros sv Hst; [done|].
  apply IH. by apply handleAny_consistent.
Qed.

Lemma reachableAny_consistent env lib sv :
  reachableAny env lib sv → consistent env (database sv).
Proof.
  intros [reqs ->]. apply serveAny_consistent, consistent_empty.
Qed.

(** A change keeps the carts at one line item a product, when the strings
    that are added are spelled as their [ObjectId]s print. *)
Lemma Change_lines env asked st st' :
  (∀ productId, asked productId → canonical env productId) →
  Change env asked st st' →
  oneLinePerProduct st → oneLinePerProduct st'.
Proof.
  intros Hcanonical Hchange Hlines.
  destruct Hchange as
    [ | | |
      | uid key cart items' Hfound Hstep
      | uid oid items' Hreq Hnone Hoid Hstep ]; try done.
  - destruct (Cart_findOne_found _ _ _ _ Hfound) as [Hkey _].
    intros k c. simpl. destruct (decide (k = key)) as [->|Hne].
    + rewrite lookup_insert_eq. intros [= <-]. simpl.
      eapply cartStep_lines; [exact Hcanonical | exact Hstep |].
      by apply (Hlines key cart).
    + rewrite lookup_insert_ne by done. apply Hlines.
  - intros k c. simpl. destruct (decide (k = oid)) as [->|Hne].
    + rewrite lookup_insert_eq. intros [= <-]. simpl.
      eapply cartStep_lines; [exact Hcanonical | exact Hstep |].
      apply NoDup_nil_2.
    + rewrite lookup_insert_ne by done. apply Hlines.
Qed.

Lemma serveAny_lines env lib reqs : ∀ sv,
  Forall (canonicalRequest env) reqs →
  oneLinePerProduct (database sv) →
  oneLinePerProduct (database (serveAny env lib sv reqs)).
Proof.
  induction reqs as [|req reqs IH]; intros sv Hreqs Hlines; [done|].
  apply Forall_cons in Hreqs as [Hreq Hreqs].
  apply IH; [done|].
  destruct (handleAny_change env lib sv req) as [Hchange|(pid & _ & _ & ->)].
  - by eapply Change_lines.
  - done.
Qed.

(** X15.  In every state that requests lead to from the empty database,
    each user is stored under its [_id]; its address is what the setters of
    the schema (lower case, as the engine makes it, and [trim]) made of the
    address of a registration, and passes [validator.isEmail]; its password
    is a hash that bcrypt made of a password of six UTF-16 code units or
    more, the [length] that [minlength] measures; and no two users have the
    same stored address. *)
Theorem stored_users_are_sound (env : Env) (lib : Library) (sv : Server) :
  reachableAny env lib sv →
  (∀ k u, users (database sv) !! k = Some u →
     User._id u = k
     ∧ isEmail env (User.email u) = true
     ∧ (∃ email, User.email u = JS.trim (toLowerCase env email))
     ∧ ∃ password salt,
         User.password u = bcrypt_hash env password salt
         ∧ 6 ≤ length password)
  ∧ (∀ k1 k2 u1 u2,
       users (database sv) !! k1 = Some u1 →
       users (database sv) !! k2 = Some u2 →
       User.email u1 = User.email u2 → k1 = k2).
Proof.
  intros Hreach. apply reachableAny_consistent in Hreach as [].
  split; [|done]. intros k u Hu.
  split; [eauto|]. split; [by eapply emails_set0|].
  split; [by eapply emails_set0 | eauto].
Qed.

Lemma stored_users_are_sound_witness :
  reachableAny Sample.env Tour.library Tour.evening
  ∧ ∀ k u, users (database Tour.evening) !! k = Some u → User._id u = k.
Proof.
  assert (H : reachableAny Sample.env Tour.library Tour.evening)
    by (exists Tour.day; reflexivity).
  split; [exact H|]. intros k u Hu.
  exact (proj1 (proj1 (stored_users_are_sound Sample.env Tour.library
                         Tour.evening H) k u Hu)).
Defined.

(** X16.  In every such state each product is stored under its [_id] and
    passes the validators of the schema on every path; it has at least one
    image; its seller is a stored user; and either it has a buyer who is a
    stored user and a time of sale, or it has neither, no shipping address,
    and a status that is not [sold].  (A sale need not leave an address: a
    checkout whose body has none stores none.) *)
Theorem stored_products_are_sound (env : Env) (lib : Library) (sv : Server) :
  reachableAny env lib sv →
  ∀ k p, products (database sv) !! k = Some p →
    Product._id p = k
    ∧ Product_validate Product_allPaths p = []
    ∧ Product.images p ≠ []
    ∧ registered (database sv) (Product.seller p)
    ∧ ((∃ b, Product.buyer p = Some b ∧ registered (database sv) b
             ∧ is_Some (Product.soldAt p))
       ∨ (Product.buyer p = None ∧ Product.soldAt p = None
          ∧ Product.shippingAddress p = None ∧ Product.status p ≠ sold)).
Proof.
  intros Hreach k p Hp. apply reachableAny_consistent in Hreach as [].
  destruct (products_sound0 k p Hp). split; [eauto|].
  split; [by apply Product_validate_nil|]. done.
Qed.

Lemma stored_products_are_sound_witness :
  reachableAny Sample.env Tour.library Tour.evening
  ∧ ∀ k p, products (database Tour.evening) !! k = Some p →
      Product._id p = k ∧ Product.images p ≠ [].
Proof.
  assert (H : reachableAny Sample.env Tour.library Tour.evening)
    by (exists Tour.day; reflexivity).
  split; [exact H|]. intros k p Hp.
  destruct (stored_products_are_sound Sample.env Tour.library Tour.evening
              H k p Hp) as (Hid & _ & Himages & _).
  split; [exact Hid | exact Himages].
Defined.

(** A checkout without a shipping address sells the product and stores no
    address. *)
Lemma sale_without_address :
  let body := {| productId := Sample.boots; shippingAddressSent := None;
                 paymentInfo := Some Sample.card |} in
  let sale := checkout Sample.listed (Sample.customer Sample.buyer) body 300 in
  code sale.1 = 200
  ∧ Product.status <$> products sale.2 !! Sample.boots = Some sold
  ∧ Product.buyer <$> products sale.2 !! Sample.boots
    = Some (Some Sample.buyer)
  ∧ Product.shippingAddress <$> products sale.2 !! Sample.boots = Some None.
Proof. vm_compute. repeat split. Qed.

(** X17.  After any requests from the empty database, each cart is stored
    under its [_id] and belongs to a stored user, every quantity in it is
    at least 1, and no user has two carts.  When, in addition, every
    request to add spells the [_id] of the product as it prints, no product
    has two line items in a cart; an [_id] in another spelling can give a
    product a second line item. *)
Theorem stored_carts_are_sound
    (env : Env) (lib : Library) (reqs : list AnyRequest) :
  let sv := serveAny env lib freshServer reqs in
  (∀ k c, carts (database sv) !! k = Some c →
     Cart._id c = k
     ∧ registered (database sv) (Cart.user c)
     ∧ Forall (λ item, 1 ≤ quantity item) (Cart.items c))
  ∧ oneCartPerUser (database sv)
  ∧ (Forall (canonicalRequest env) reqs →
     ∀ k c, carts (database sv) !! k = Some c →
       NoDup (product <$> Cart.items c)).
Proof.
  intros sv.
  pose proof (serveAny_consistent env lib reqs freshServer
                (consistent_empty env)) as [].
  split; [|split; [done|]].
  - intros k c Hc. destruct (carts_sound0 k c Hc). split; eauto.
  - intros Hreqs. apply (serveAny_lines env lib reqs freshServer Hreqs).
    intros k c Hc. simpl in Hc. by rewrite lookup_empty in Hc.
Qed.

Lemma day_canonical : Forall (canonicalRequest Sample.env) Tour.day.
Proof.
  unfold Tour.day, Sample.listing, Sample.registrations.
  repeat (apply Forall_cons; split);
    [..|apply Forall_nil_2]; intros s [oid Hs]; try discriminate Hs.
  injection Hs as <- _. apply bootsId_canonical.
Qed.

Lemma stored_carts_are_sound_witness :
  Forall (canonicalRequest Sample.env) Tour.day
  ∧ oneCartPerUser (database Tour.evening)
  ∧ ∀ k c, carts (database Tour.evening) !! k = Some c →
      NoDup (product <$> Cart.items c).
Proof.
  assert (H : Forall (canonicalRequest Sample.env) Tour.day)
    by apply day_canonical.
  split; [exact H|].
  split.
  - exact (proj1 (proj2 (stored_carts_are_sound Sample.env Tour.library
                           Tour.day))).
  - exact (proj2 (proj2 (stored_carts_are_sound Sample.env Tour.library
                           Tour.day)) H).
Defined.

(** ** What later requests leave alone *)

Lemma Change_users env asked st st' k u :
  Change env asked st st' → users st !! k = Some u → users st' !! k = Some u.
Proof.
  intros [ | name email password admin salt oid now _ _ Hoid | | | | ] Hu;
    try done.
  simpl. rewrite lookup_insert_ne; [done|]. congruence.
Qed.

Lemma handleAny_users env lib sv req k u :
  users (database sv) !! k = Some u →
  users (database (handleAny env lib sv req).2) !! k = Some u.
Proof.
  intros Hu.
  destruct (handleAny_change env lib sv req) as [Hchange|(pid & _ & _ & ->)].
  - by eapply Change_users.
  - done.
Qed.

Lemma serveAny_users env lib reqs k u : ∀ sv,
  users (database sv) !! k = Some u →
  users (database (serveAny env lib sv reqs)) !! k = Some u.
Proof.
  induction reqs as [|req reqs IH]; intros sv Hu; [done|].
  apply IH. by apply handleAny_users.
Qed.

(** X18.  No route changes or removes a stored user.  Whatever requests
    follow, the user is stored as it was, and its token passes [auth] as
    before. *)
Theorem accounts_are_never_changed
    (env : Env) (lib : Library) (sv : Server) (reqs : list AnyRequest)
    (k : ObjectId) (u : User.t) :
  users (database sv) !! k = Some u →
  users (database (serveAny env lib sv reqs)) !! k = Some u
  ∧ auth (database (serveAny env lib sv reqs)) (ValidToken k)
    = auth (database sv) (ValidToken k).
Proof.
  intros Hu. pose proof (serveAny_users env lib reqs k u sv Hu) as Hu'.
  split; [done|]. unfold auth. by rewrite Hu, Hu'.
Qed.

Lemma accounts_are_never_changed_witness :
  users (database Tour.evening) !! Sample.seller = Some Sample.sam
  ∧ users (database (serveAny Sample.env Tour.library Tour.evening
                       Tour.morning)) !! Sample.seller = Some Sample.sam.
Proof.
  assert (H : users (database Tour.evening) !! Sample.seller
              = Some Sample.sam) by (vm_compute; reflexivity).
  split; [exact H|].
  exact (proj1 (accounts_are_never_changed Sample.env Tour.library
                  Tour.evening Tour.morning Sample.seller Sample.sam H)).
Defined.

Lemma keeps_refl p : keeps p p.
Proof. by split. Qed.

Lemma keeps_trans p1 p2 p3 : keeps p1 p2 → keeps p2 p3 → keeps p1 p3.
Proof. intros [] []. split; [congruence.. | auto | auto]. Qed.

Lemma productStep_keeps st p p' : productStep st p p' → keeps p p'.
Proof.
  intros [s _| |body _ _|buyerId now address _ _ _];
    split; try done; intros _; by eexists.
Qed.

Lemma Change_keeps env asked st st' pid p :
  Change env asked st st' → products st !! pid = Some p →
  ∃ p', products st' !! pid = Some p' ∧ keeps p p'.
Proof.
  intros [ | | reqUser body files oid now _ _ _ _ Hoid
           | pid0 p0 p0' Hp0 Hstep | | ] Hp;
    try (exists p; split; [done | apply keeps_refl]).
  - exists p. split; [|apply keeps_refl].
    simpl. rewrite lookup_insert_ne; [done|]. congruence.
  - destruct (decide (pid = pid0)) as [->|Hne].
    + exists p0'. simpl. rewrite lookup_insert_eq. split; [done|].
      assert (p0 = p) as -> by congruence. by eapply productStep_keeps.
    + exists p. simpl. rewrite lookup_insert_ne by done.
      split; [done | apply keeps_refl].
Qed.

Lemma handleAny_keeps env lib sv req pid p :
  products (database sv) !! pid = Some p →
  deletion req ≠ Some pid →
  ∃ p', products (database (handleAny env lib sv req).2) !! pid = Some p'
        ∧ keeps p p'.
Proof.
  intros Hp Hkeep.
  destruct (handleAny_change env lib sv req)
    as [Hchange|(pid' & Hdel & _ & ->)].
  - by eapply Change_keeps.
  - exists p. split; [|apply keeps_refl].
    simpl. rewrite lookup_delete_ne; [done|]. congruence.
Qed.

Lemma serveAny_keeps env lib reqs pid : ∀ sv p,
  products (database sv) !! pid = Some p →
  Forall (λ req, deletion req ≠ Some pid) reqs →
  ∃ p', products (database (serveAny env lib sv reqs)) !! pid = Some p'
        ∧ keeps p p'.
Proof.
  induction reqs as [|req reqs IH]; intros sv p Hp Hkeep.
  - exists p. split; [done | apply keeps_refl].
  - apply Forall_cons in Hkeep as [Hreq Hkeep].
    destruct (handleAny_keeps env lib sv req pid p Hp Hreq) as (p1 & Hp1 & H1).
    destruct (IH _ p1 Hp1 Hkeep) as (p2 & Hp2 & H2).
    exists p2. split; [exact Hp2 | by eapply keeps_trans].
Qed.

(** X19.  As long as no request asks to delete it, a stored product stays
    stored, under the same [_id] and with the same seller, the same images
    and the same time of creation, whatever the routes do to it; and once a
    buyer and a time of sale are recorded, no route removes them. *)
Theorem stored_product_keeps_seller_images_and_sale
    (env : Env) (lib : Library) (sv : Server) (reqs : list AnyRequest)
    (pid : ObjectId) (p : Product.t) :
  products (database sv) !! pid = Some p →
  Forall (λ req, deletion req ≠ Some pid) reqs →
  ∃ p', products (database (serveAny env lib sv reqs)) !! pid = Some p'
        ∧ Product._id p' = Product._id p
        ∧ Product.seller p' = Product.seller p
        ∧ Product.images p' = Product.images p
        ∧ Product.createdAt p' = Product.createdAt p
        ∧ (is_Some (Product.buyer p) → is_Some (Product.buyer p'))
        ∧ (is_Some (Product.soldAt p) → is_Some (Product.soldAt p')).
Proof.
  intros Hp Hkeep.
  destruct (serveAny_keeps env lib reqs pid sv p Hp Hkeep) as (p' & Hp' & []).
  by exists p'.
Qed.

Lemma stored_product_keeps_seller_images_and_sale_witness :
  products (database Tour.evening) !! Sample.boots = Some Sample.soldBoots
  ∧ Forall (λ req, deletion req ≠ Some Sample.boots) Tour.morning
  ∧ ∃ p', products (database (serveAny Sample.env Tour.library Tour.evening
                                Tour.morning)) !! Sample.boots = Some p'
          ∧ Product.seller p' = Sample.seller.
Proof.
  assert (H1 : products (database Tour.evening) !! Sample.boots
               = Some Sample.soldBoots) by (vm_compute; reflexivity).
  assert (H2 : Forall (λ req, deletion req ≠ Some Sample.boots) Tour.morning)
    by (repeat constructor; discriminate).
  split; [exact H1|]. split; [exact H2|].
  destruct (stored_product_keeps_seller_images_and_sale Sample.env
              Tour.library Tour.evening Tour.morning Sample.boots
              Sample.soldBoots H1 H2) as (p' & Hp' & _ & Hseller & _).
  exists p'. split; [exact Hp' | exact Hseller].
Defined.

(** X20.  A product whose sale is recorded does not come back to the public
    listing: as long as no request asks to delete it, it stays stored with
    a time of sale, so that neither [GET /products/public] nor a search
    shows it, whatever moderation, toggling and editing do to it. *)
Theorem sold_products_stay_out_of_the_public_listing
    (env : Env) (lib : Library) (sv : Server) (reqs : list AnyRequest)
    (pid : ObjectId) (p : Product.t) :
  products (database sv) !! pid = Some p →
  is_Some (Product.soldAt p) →
  Forall (λ req, deletion req ≠ Some pid) reqs →
  ∃ p', products (database (serveAny env lib sv reqs)) !! pid = Some p'
        ∧ is_Some (Product.soldAt p')
        ∧ (∀ l, payload (getPublicProducts
                           (database (serveAny env lib sv reqs)))
                = ProductList l → p' ∉ l.*1)
        ∧ (∀ q l, payload (searchProducts lib
                             (database (serveAny env lib sv reqs)) q)
                  = ProductList l → p' ∉ l.*1).
Proof.
  intros Hp Hsold Hkeep.
  destruct (serveAny_keeps env lib reqs pid sv p Hp Hkeep) as (p' & Hp' & []).
  exists p'. split; [done|]. split; [auto|].
  assert (Hout : publicFilter p' = false).
  { destruct (publicFilter p') eqn:E; [|done].
    apply publicFilter_true in E as (_ & _ & Hnone).
    destruct (keeps_soldAt0 Hsold) as [t Ht]. congruence. }
  split.
  - intros l [= <-]. rewrite elem_of_listing. intros [_ E]. congruence.
  - intros q l. unfold searchProducts.
    destruct (textCondition lib q) as [text|]; [|done].
    destruct (boundCondition lib (gte lib) _) as [atLeast|]; [|done].
    destruct (boundCondition lib (lte lib) _) as [atMost|]; [|done].
    intros [= <-]. rewrite elem_of_listing. intros [_ E].
    rewrite Hout in E. discriminate.
Qed.

Lemma sold_products_stay_out_of_the_public_listing_witness :
  products (database Tour.evening) !! Sample.boots = Some Sample.soldBoots
  ∧ is_Some (Product.soldAt Sample.soldBoots)
  ∧ Forall (λ req, deletion req ≠ Some Sample.boots) Tour.morning
  ∧ ∃ p', products (database (serveAny Sample.env Tour.library Tour.evening
                                Tour.morning)) !! Sample.boots = Some p'
          ∧ is_Some (Product.soldAt p').
Proof.
  assert (H1 : products (database Tour.evening) !! Sample.boots
               = Some Sample.soldBoots) by (vm_compute; reflexivity).
  assert (H2 : is_Some (Product.soldAt Sample.soldBoots)) by (by eexists).
  assert (H3 : Forall (λ req, deletion req ≠ Some Sample.boots) Tour.morning)
    by (repeat constructor; discriminate).
  split; [exact H1|]. split; [exact H2|]. split; [exact H3|].
  destruct (sold_products_stay_out_of_the_public_listing Sample.env
              Tour.library Tour.evening Tour.morning Sample.boots
              Sample.soldBoots H1 H2 H3) as (p' & Hp' & Hsold & _).
  exists p'. split; [exact Hp' | exact Hsold].
Defined.

(** ** Accounts *)

Lemma login_after_save env st name email password admin salt oid now u st'
    email' :
  User_findOne env st email = None →
  User_save env st (newUser env name email password admin oid now) salt
    = Some (u, st') →
  emailSetters env email' = emailSetters env email →
  u = storedUser env name email password admin salt oid now
  ∧ users st' !! oid = Some u
  ∧ User_findOne env st' email' = Some u.
Proof.
  intros Hfree Hsave Hmail. unfold User_save in Hsave.
  destruct (negb (User_valid env _)); [done|].
  cbn [User._id newUser] in Hsave.
  destruct (users st !! oid) eqn:Hoid; [done|].
  injection Hsave as <- <-. split; [reflexivity|].
  split; [simpl; apply lookup_insert_eq|].
  set (u := {| User._id := oid |}).
  set (st' := setUsers st _).
  assert (Hu : users st' !! oid = Some u) by apply lookup_insert_eq.
  destruct (User_findOne env st' email') as [found|] eqn:Hfound.
  - apply User_findOne_found in Hfound as [[k Hk] Hm].
    destruct (decide (k = oid)) as [->|Hne]; [congruence|].
    exfalso. subst st'. simpl in Hk. rewrite lookup_insert_ne in Hk by done.
    apply (User_findOne_free env st email k found Hfree Hk). congruence.
  - destruct (User_findOne_is_Some env st' email' oid u Hu) as [x Hx];
      [by rewrite Hmail | congruence].
Qed.

(** X21.  Registering and logging in is a round trip.  When [POST
    /register] replies 201 and bcrypt recognises the password in the hash
    it made of it, a login with that password and the same address,
    however it is cased and padded, replies 200 with the session of the new
    user; a login with a password that bcrypt does not recognise in the
    hash replies 400; the token of the new user passes [auth]; [GET
    /profile] shows the name and the address as the setters left them, and
    no products; and [adminAuth] refuses the new user with 403. *)
Theorem register_then_login
    (env : Env) (st : Store) (name email password salt : JS.string)
    (oid : ObjectId) (now : Date) (email' : JS.string) :
  code (register env st name email password salt oid now).1 = 201 →
  bcrypt_compare env password (bcrypt_hash env password salt) = true →
  emailSetters env email' = emailSetters env email →
  let st' := (register env st name email password salt oid now).2 in
  login env st' email' password
  = session 200 (storedUser env name email password false salt oid now)
  ∧ (∀ wrong,
       bcrypt_compare env wrong (bcrypt_hash env password salt) = false →
       login env st' email' wrong = failure 400 "Invalid credentials")
  ∧ auth st' (ValidToken oid) = Next {| id := oid; reqIsAdmin := false |}
  ∧ getProfile st' {| id := oid; reqIsAdmin := false |}
    = Some {| profile_id := oid; profile_name := JS.trim name;
              profile_email := emailSetters env email; profile_isAdmin := false;
              profile_createdAt := now; profile_products := [] |}
  ∧ adminAuth st' (Some {| id := oid; reqIsAdmin := false |})
    = Send (failure 403 "Access denied. Admin privileges required.").
Proof.
  intros Hcode Hcmp Hmail. unfold register in *.
  destruct (User_findOne env st email) eqn:Hfree; [done|].
  destruct (User_save env st _ salt) as [[u st1]|] eqn:Hsave; [|done].
  destruct (login_after_save env st name email password false salt oid now
              u st1 email' Hfree Hsave Hmail) as (-> & Hu & Hfound).
  cbn [snd]. unfold login, comparePassword, auth, adminAuth, getProfile.
  cbn [id]. rewrite Hfound, Hu. cbn [storedUser User.password User.isAdmin
    User._id negb]. rewrite Hcmp.
  split; [done|]. split; [|done]. by intros wrong ->.
Qed.

Lemma register_then_login_witness :
  code (register Sample.env emptyStore (JS.str "Sam")
          (JS.str "sam@market.io") (JS.str "secret-2") (JS.str "salt")
          Sample.seller 101).1 = 201
  ∧ bcrypt_compare Sample.env (JS.str "secret-2")
      (bcrypt_hash Sample.env (JS.str "secret-2") (JS.str "salt")) = true
  ∧ emailSetters Sample.env (JS.str " SAM@Market.io ")
    = emailSetters Sample.env (JS.str "sam@market.io")
  ∧ login Sample.env
      (register Sample.env emptyStore (JS.str "Sam")
         (JS.str "sam@market.io") (JS.str "secret-2") (JS.str "salt")
         Sample.seller 101).2
      (JS.str " SAM@Market.io ") (JS.str "secret-2")
    = session 200 Sample.sam.
Proof.
  assert (H1 : code (register Sample.env emptyStore (JS.str "Sam")
                       (JS.str "sam@market.io") (JS.str "secret-2")
                       (JS.str "salt") Sample.seller 101).1 = 201)
    by (vm_compute; reflexivity).
  assert (H2 : bcrypt_compare Sample.env (JS.str "secret-2")
                 (bcrypt_hash Sample.env (JS.str "secret-2") (JS.str "salt")) = true)
    by (vm_compute; reflexivity).
  assert (H3 : emailSetters Sample.env (JS.str " SAM@Market.io ")
               = emailSetters Sample.env (JS.str "sam@market.io"))
    by (vm_compute; reflexivity).
  split; [exact H1|]. split; [exact H2|]. split; [exact H3|].
  exact (proj1 (register_then_login Sample.env emptyStore (JS.str "Sam")
                  (JS.str "sam@market.io") (JS.str "secret-2")
                  (JS.str "salt") Sample.seller 101
                  (JS.str " SAM@Market.io ") H1 H2 H3)).
Defined.

(** X22.  [POST /register-admin] compares the [adminKey] of the body with
    [process.env.ADMIN_KEY] by [!==].  It replies 403 and stores nothing
    exactly when the two differ, whatever the rest of the form: with the
    key of the server set, only that key passes; with no key set, a request
    that sends no [adminKey] passes, and is registered as an administrator
    like any other.  When the reply is 201 the two were the same, and the
    new user is stored as an administrator, passes [auth] as one and passes
    [adminAuth]. *)
Theorem register_admin_needs_the_key
    (env : Env) (st : Store) (name email password : JS.string)
    (adminKey : option JS.string) (salt : JS.string) (oid : ObjectId)
    (now : Date) :
  (adminKey ≠ ADMIN_KEY env →
   registerAdmin env st name email password adminKey salt oid now
   = (failure 403 "Invalid admin key", st))
  ∧ (code (registerAdmin env st name email password adminKey salt oid
             now).1 = 403 ↔ adminKey ≠ ADMIN_KEY env)
  ∧ (code (registerAdmin env st name email password adminKey salt oid
             now).1 = 201 →
     let st' :=
       (registerAdmin env st name email password adminKey salt oid now).2 in
     adminKey = ADMIN_KEY env
     ∧ users st' !! oid
       = Some (storedUser env name email password true salt oid now)
     ∧ auth st' (ValidToken oid) = Next {| id := oid; reqIsAdmin := true |}
     ∧ adminAuth st' (Some {| id := oid; reqIsAdmin := true |}) = Next tt)
  ∧ (adminKey = ADMIN_KEY env →
     User_findOne env st email = None →
     User_valid env (newUser env name email password true oid now) = true →
     users st !! oid = None →
     code (registerAdmin env st name email password adminKey salt oid
             now).1 = 201)
  ∧ (ADMIN_KEY env = None →
     code (registerAdmin env st name email password None salt oid now).1
     ≠ 403).
Proof.
  assert (Hsame : adminKey = ADMIN_KEY env →
            code (registerAdmin env st name email password adminKey salt oid
                    now).1 ≠ 403).
  { intros Hkey. unfold registerAdmin.
    rewrite bool_decide_eq_true_2 by done. cbn [negb].
    destruct (User_findOne env st email); [done|].
    by destruct (User_save env st _ salt) as [[u st1]|]. }
  assert (Hother : adminKey ≠ ADMIN_KEY env →
            registerAdmin env st name email password adminKey salt oid now
            = (failure 403 "Invalid admin key", st)).
  { intros Hkey. unfold registerAdmin. by rewrite bool_decide_eq_false_2. }
  split; [exact Hother|]. split; [|split; [|split]].
  - split.
    + intros Hcode. intros Hkey. by apply (Hsame Hkey).
    + intros Hkey. by rewrite (Hother Hkey).
  - unfold registerAdmin.
    case_bool_decide as Hkey; [|done]. cbn [negb].
    destruct (User_findOne env st email) eqn:Hfree; [done|].
    destruct (User_save env st _ salt) as [[u st1]|] eqn:Hsave; [|done].
    intros _.
    destruct (login_after_save env st name email password true salt oid now
                u st1 email Hfree Hsave eq_refl) as (-> & Hu & _).
    cbn [snd]. unfold auth, adminAuth. cbn [id]. by rewrite Hu.
  - intros Hkey Hfree Hvalid Hoid. unfold registerAdmin, User_save.
    rewrite bool_decide_eq_true_2 by done. cbn [negb].
    rewrite Hfree, Hvalid. cbn [negb User._id newUser]. by rewrite Hoid.
  - intros Hunset. unfold registerAdmin.
    rewrite bool_decide_eq_true_2 by done. cbn [negb].
    destruct (User_findOne env st email); [done|].
    by destruct (User_save env st _ salt) as [[u st1]|].
Qed.

(** Where the server has no [ADMIN_KEY], a registration that sends none
    makes an administrator. *)
Lemma register_admin_without_any_key :
  let env := {| bcrypt_hash := bcrypt_hash Sample.env;
                bcrypt_compare := bcrypt_compare Sample.env;
                isEmail := isEmail Sample.env;
                ADMIN_KEY := None;
                toLowerCase := toLowerCase Sample.env;
                ObjectId_toString := ObjectId_toString Sample.env;
                castObjectId := castObjectId Sample.env |} in
  let r := registerAdmin env emptyStore (JS.str "Eve")
             (JS.str "eve@market.io") (JS.str "secret-7") None
             (JS.str "salt") 7 700 in
  code r.1 = 201
  ∧ User.isAdmin <$> users r.2 !! 7 = Some true.
Proof. vm_compute. repeat split. Qed.

(** X23.  The static [User.findByCredentials] and the login route accept
    the same credentials: the route replies 200 with the session of a user
    exactly when the static returns that user, and 400 when the static
    throws. *)
Theorem login_agrees_with_findByCredentials
    (env : Env) (st : Store) (email password : JS.string) :
  match User_findByCredentials env st email password with
  | inr u =>
      login env st email password = session 200 u
      ∧ (∃ k, users st !! k = Some u)
      ∧ User.email u = emailSetters env email
      ∧ bcrypt_compare env password (User.password u) = true
  | inl thrown =>
      login env st email password = failure 400 "Invalid credentials"
      ∧ thrown = "Invalid email or password"
  end.
Proof.
  unfold User_findByCredentials, login.
  destruct (User_findOne env st email) as [u|] eqn:Hfound; [|done].
  unfold comparePassword.
  destruct (bcrypt_compare env password (User.password u)) eqn:Hcmp;
    cbn [negb]; [|done].
  apply User_findOne_found in Hfound as [Hk Hm]. done.
Qed.

(** ** Reading *)

(** X24.  The routes registered with [router.get], and the login, only
    read: whatever the request and whoever sends it, the database and the
    upload directory are afterwards as they were. *)
Theorem get_requests_change_nothing
    (env : Env) (lib : Library) (sv : Server) (req : AnyRequest) :
  method (anyRoute req) = GET
  ∨ (∃ email password, anyRoute req = Covered (PostLogin email password)) →
  (handleAny env lib sv req).2 = sv.
Proof.
  destruct req as [h rt]. destruct sv as [st files]. cbn [anyRoute].
  intros [Hget|(email & password & ->)]; [|reflexivity].
  destruct rt as [r| | | | | | | | | |]; try discriminate Hget;
    [destruct r; try discriminate Hget|..];
    unfold handleAny, onDatabase, handle, behindAdmin, behindAuth, withAuth;
    cbn [anyRoute header route authorization database disk];
    try reflexivity;
    destruct (auth st h) as [reqUser|]; try reflexivity;
    destruct (adminAuth st (Some reqUser)); reflexivity.
Qed.

Lemma get_requests_change_nothing_witness :
  (method GetCart = GET
   ∨ ∃ email password, GetCart = Covered (PostLogin email password))
  ∧ (handleAny Sample.env Tour.library Tour.evening
       {| header := ValidToken Sample.buyer; anyRoute := GetCart |}).2
    = Tour.evening.
Proof.
  split; [left; reflexivity|].
  exact (get_requests_change_nothing Sample.env Tour.library Tour.evening
           {| header := ValidToken Sample.buyer; anyRoute := GetCart |}
           (or_introl eq_refl)).
Defined.

(** X25.  The number of users that [GET /products/admin/stats] reports
    never goes down: when an administrator got the statistics, the same
    token gets them after any further requests, with at least as many
    users. *)
Theorem user_count_never_decreases
    (env : Env) (lib : Library) (sv : Server) (reqs : list AnyRequest)
    (h : Authorization) (totalUsers totalProducts : nat) :
  (handleAny env lib sv {| header := h; anyRoute := GetAdminStats |}).1
  = StatsReply totalUsers totalProducts →
  ∃ totalUsers' totalProducts',
    (handleAny env lib (serveAny env lib sv reqs)
       {| header := h; anyRoute := GetAdminStats |}).1
    = StatsReply totalUsers' totalProducts'
    ∧ totalUsers ≤ totalUsers'.
Proof.
  unfold handleAny, behindAdmin, behindAuth, auth, adminAuth.
  cbn [anyRoute header].
  destruct h as [| |k]; [done..|].
  destruct (users (database sv) !! k) as [u|] eqn:Hu; [|done].
  cbn [id].
  destruct (users (database sv) !! User._id u) as [a|] eqn:Ha; [|done].
  destruct (User.isAdmin a) eqn:Hadmin; [|done]. cbn [negb fst].
  intros [= <- <-].
  rewrite (serveAny_users env lib reqs k u sv Hu). cbn [id].
  rewrite (serveAny_users env lib reqs (User._id u) a sv Ha), Hadmin.
  cbn [negb fst]. eexists _, _. split; [reflexivity|].
  apply map_subseteq_size, map_subseteq_spec. intros i x Hx.
  by apply serveAny_users.
Qed.

Lemma user_count_never_decreases_witness :
  (handleAny Sample.env Tour.library Tour.evening
     {| header := ValidToken Sample.admin; anyRoute := GetAdminStats |}).1
  = StatsReply 3 1
  ∧ ∃ totalUsers' totalProducts',
      (handleAny Sample.env Tour.library
         (serveAny Sample.env Tour.library Tour.evening Tour.morning)
         {| header := ValidToken Sample.admin; anyRoute := GetAdminStats |}).1
      = StatsReply totalUsers' totalProducts'
      ∧ 3 ≤ totalUsers'.
Proof.
  assert (H : (handleAny Sample.env Tour.library Tour.evening
                 {| header := ValidToken Sample.admin;
                    anyRoute := GetAdminStats |}).1 = StatsReply 3 1)
    by (vm_compute; reflexivity).
  split; [exact H|].
  exact (user_count_never_decreases Sample.env Tour.library Tour.evening
           Tour.morning (ValidToken Sample.admin) 3 1 H).
Defined.

(** ** From the form to the listing *)

Lemma updateStatus_stored st pid p s name :
  moderationStatus name = Some s →
  products st !! pid = Some p →
  (updateStatus st pid name).2 = Product_save st pid (withStatus p s).
Proof.
  intros Hname Hp. unfold updateStatus, Product_findById.
  by rewrite Hname, Hp.
Qed.

(** X26.  A product that [POST /products] has just stored waits for
    moderation: it is in the queue of [GET /products/pending] and in
    neither listing.  Once the moderation route approves it, it is in the
    public listing and out of the queue; once the route rejects it, it is
    in neither. *)
Theorem new_product_waits_for_moderation
    (st : Store) (reqUser : ReqUser) (body : ProductBody.t)
    (files : option (list File)) (oid : ObjectId) (now : Date) :
  code (createProduct st reqUser body files oid now).1 = 201 →
  let p := newProduct reqUser body (default [] files) oid now in
  let st1 := (createProduct st reqUser body files oid now).2 in
  let st2 := (updateStatus st1 oid (Some (JS.str "approved"))).2 in
  let st3 := (updateStatus st1 oid (Some (JS.str "rejected"))).2 in
  products st1 !! oid = Some p
  ∧ (∀ l, payload (getPendingProducts st1) = ProductList l → p ∈ l.*1)
  ∧ (∀ l, payload (getPublicProducts st1) = ProductList l → p ∉ l.*1)
  ∧ (∀ user l, payload (getProducts st1 user) = ProductList l → p ∉ l.*1)
  ∧ products st2 !! oid = Some (withStatus p approved)
  ∧ (∀ l, payload (getPublicProducts st2) = ProductList l →
       withStatus p approved ∈ l.*1)
  ∧ (∀ l, payload (getPendingProducts st2) = ProductList l →
       withStatus p approved ∉ l.*1)
  ∧ products st3 !! oid = Some (withStatus p rejected)
  ∧ (∀ l, payload (getPublicProducts st3) = ProductList l →
       withStatus p rejected ∉ l.*1)
  ∧ (∀ l, payload (getPendingProducts st3) = ProductList l →
       withStatus p rejected ∉ l.*1).
Proof.
  intros Hcode.
  destruct (createProduct_created _ _ _ _ _ _ Hcode)
    as (Hfields & Hfiles & Hvalid & Hfree).
  unfold createProduct. rewrite Hfields, Hfiles, Hvalid, Hfree.
  cbn [snd]. set (p := newProduct reqUser body (default [] files) oid now).
  assert (Hstatus : Product.status p = pending) by reflexivity.
  assert (Hactive : Product.isActive p = true) by reflexivity.
  assert (Hsold : Product.soldAt p = None) by reflexivity.
  clearbody p. cbv zeta.
  set (st1 := setProducts st (<[oid := p]> (products st))).
  assert (Hp : products st1 !! oid = Some p) by apply lookup_insert_eq.
  rewrite !(updateStatus_stored st1 oid p approved (Some (JS.str "approved"))
             eq_refl Hp),
          !(updateStatus_stored st1 oid p rejected (Some (JS.str "rejected"))
             eq_refl Hp).
  set (st2 := Product_save st1 oid (withStatus p approved)).
  set (st3 := Product_save st1 oid (withStatus p rejected)).
  assert (Hp2 : products st2 !! oid = Some (withStatus p approved))
    by apply lookup_insert_eq.
  assert (Hp3 : products st3 !! oid = Some (withStatus p rejected))
    by apply lookup_insert_eq.
  split; [exact Hp|].
  split.
  { intros l [= <-]. rewrite populateSeller_fst, elem_of_Product_find.
    split; [by exists oid | by apply pendingFilter_true]. }
  split.
  { intros l [= <-]. rewrite elem_of_listing. intros [_ E].
    apply publicFilter_true in E as (E & _). congruence. }
  split.
  { intros user l [= <-]. rewrite elem_of_listing. intros [_ E].
    apply authenticatedFilter_true in E as (E & _). congruence. }
  split; [exact Hp2|].
  split.
  { intros l [= <-]. rewrite elem_of_listing.
    split; [by exists oid | by apply publicFilter_true]. }
  split.
  { intros l [= <-]. rewrite populateSeller_fst, elem_of_Product_find.
    intros [_ E]. apply pendingFilter_true in E. discriminate E. }
  split; [exact Hp3|].
  split.
  { intros l [= <-]. rewrite elem_of_listing. intros [_ E].
    apply publicFilter_true in E as (E & _). discriminate E. }
  intros l [= <-]. rewrite populateSeller_fst, elem_of_Product_find.
  intros [_ E]. apply pendingFilter_true in E. discriminate E.
Qed.

Lemma new_product_waits_for_moderation_witness :
  code (createProduct Sample.registered (Sample.customer Sample.seller)
          Sample.bootsForm (Some [Sample.photo]) Sample.boots 200).1 = 201
  ∧ products
      (updateStatus
         (createProduct Sample.registered (Sample.customer Sample.seller)
            Sample.bootsForm (Some [Sample.photo]) Sample.boots 200).2
         Sample.boots (Some (JS.str "approved"))).2 !! Sample.boots
    = Some Sample.approvedBoots.
Proof.
  assert (H : code (createProduct Sample.registered
                      (Sample.customer Sample.seller) Sample.bootsForm
                      (Some [Sample.photo]) Sample.boots 200).1 = 201)
    by (vm_compute; reflexivity).
  split; [exact H|].
  exact (proj1 (proj2 (proj2 (proj2 (proj2
    (new_product_waits_for_moderation Sample.registered
       (Sample.customer Sample.seller) Sample.bootsForm (Some [Sample.photo])
       Sample.boots 200 H)))))).
Defined.

(** ** Uploads that multer refuses *)


